(** * Cloud carbon analytics: a shallow embedding of the Python sources

    Part I holds the model, one module per source file:

    - [Py]          Python values, dictionaries, exceptions and results;
    - [Frame]       the part of pandas the sources use (columns of numbers,
                    [sum], [mean], [max], [round(2)], [groupby(..).agg]);
    - [Dashboard]   [src/database/dashboard_new.py]: [load_data] and
                    [check_alerts];
    - [Remote]      the Supabase project the database scripts talk to;
    - [Supabase]    [src/database/supabase_manager.py]: the three uploads;
    - [Monitor]     [src/database/realtime_monitor.py]: the broadcast
                    handler, [update_visualizations] and
                    [simulate_real_time_data];
    - [Collector]   [src/data_collection/api_collector.py]: the provider
                    collectors and [collect_cloud_data];

    followed by the modules whose names end in [Spec], which hold the
    notions the properties are stated with, and [Samples].  Part II holds
    the properties.

    Numbers.  The sources compute on IEEE doubles; the embedding computes
    on exact rationals [Q], with [Qeq] ([==]) for equality.  The two differ
    in the last bits of a sum, a quotient or a product, and at a division
    by zero, which gives 0 in [Q] where pandas gives [inf] or [NaN].  The
    properties that compare numbers are therefore stated in forms that do
    not hinge on those bits: a stored, rounded value agrees with its
    recomputation to the decimals that are stored, not to the last bit; a
    sum is compared with the same sum, taken in the same order; bounds are
    taken against numbers a double holds exactly; and where the source
    divides, the divisor is assumed not to be zero.

    Effects.  Clocks, the network, the file system and the remote tables
    are explicit: a world record is passed along, and what comes from
    outside (HTTP answers, the CSV file, random draws) is a field of it. *)

From Stdlib Require Import List String Ascii Bool Arith ZArith Lia Lqa.
From Stdlib Require Import QArith Qround Qminmax Qreduction Qabs.
From Stdlib Require Import DecimalString OrdersEx Sorted Permutation.
Import ListNotations.

Local Open Scope string_scope.
Local Open Scope list_scope.
Local Open Scope Q_scope.

(** ** Numbers and formatting *)

Definition Qltb (x y : Q) : bool := negb (Qle_bool y x).

(** Python's [round] and numpy's [rint]: to the nearest integer, ties to the
    even one. *)
Definition round_half_even (q : Q) : Z :=
  let f := Qfloor q in
  match Qcompare (q - inject_Z f) (1 # 2) with
  | Lt => f
  | Gt => (f + 1)%Z
  | Eq => if Z.even f then f else (f + 1)%Z
  end.

(** [str(n)] for a length, and for a non-negative integer. *)
Definition str_nat (n : nat) : string := NilZero.string_of_uint (Nat.to_uint n).
Definition str_Z (n : Z) : string := NilZero.string_of_uint (N.to_uint (Z.to_N n)).

(** Digits of a non-negative integer in groups of three, for the [,]
    option of the format mini-language. *)
Fixpoint group3 (fuel : nat) (n : Z) : string :=
  match fuel with
  | O => str_Z n
  | S fuel' =>
      if (n <? 1000)%Z then str_Z n
      else
        let low := str_Z (n mod 1000) in
        let pad := match String.length low with
                   | 1%nat => "00" | 2%nat => "0" | _ => "" end in
        (group3 fuel' (n / 1000) ++ "," ++ pad ++ low)%string
  end.

(** [f"{x:,.0f}"]. *)
Definition format_comma_0f (x : Q) : string :=
  let r := round_half_even x in
  let body := group3 (Z.to_nat (Z.log2 (Z.abs r))) (Z.abs r) in
  if (r <? 0)%Z then ("-" ++ body)%string
  else if andb (r =? 0)%Z (Qltb x 0) then "-0" else body.

(** ** Python values, exceptions and results *)

Module Py.

(** What [json] and [to_dict('records')] produce. *)
#[local] Unset Elimination Schemes.
Inductive value :=
| VNone
| VBool (b : bool)
| VNum (q : Q)
| VStr (s : string)
| VList (l : list value)
| VDict (d : list (string * value)).
#[local] Set Elimination Schemes.

Definition dict := list (string * value).

(** [d[k]] as an option, [d.get(k, default)], [d[k] = v] *)
Fixpoint dict_lookup (k : string) (d : dict) : option value :=
  match d with
  | [] => None
  | (k', v) :: d' => if String.eqb k k' then Some v else dict_lookup k d'
  end.

Definition dict_get (k : string) (default : value) (d : dict) : value :=
  match dict_lookup k d with
  | Some v => v
  | None => default
  end.

Fixpoint dict_set (k : string) (v : value) (d : dict) : dict :=
  match d with
  | [] => [(k, v)]
  | (k', v') :: d' =>
      if String.eqb k k' then (k', v) :: d' else (k', v') :: dict_set k v d'
  end.

(** truth value of an object, as [if data:] tests it *)
Definition truthy (v : value) : bool :=
  match v with
  | VNone => false
  | VBool b => b
  | VNum q => negb (Qeq_bool q 0)
  | VStr s => negb (String.eqb s "")
  | VList l => match l with [] => false | _ => true end
  | VDict d => match d with [] => false | _ => true end
  end.

(** [type(v).__name__].  A JSON number decodes to an [int] when it is
    written without fraction or exponent and to a [float] otherwise;
    [VNum] keeps the value only, so a number is taken for an [int]
    exactly when its value is whole. *)
Definition type_name (v : value) : string :=
  match v with
  | VNone => "NoneType"
  | VBool _ => "bool"
  | VNum q => if Pos.eqb (Qden (Qred q)) 1 then "int" else "float"
  | VStr _ => "str"
  | VList _ => "list"
  | VDict _ => "dict"
  end.

(** the message of the AttributeError for [v.get] on an object without
    that method *)
Definition no_get (v : value) : string :=
  ("'" ++ type_name v ++ "' object has no attribute 'get'")%string.

Inductive exn :=
| NameError (name : string)
| KeyError (key : string)
| ValueError (msg : string)
| TypeError (msg : string)
| AttributeError (msg : string)
| RequestException (msg : string)
| OSError (msg : string)
| APIError (msg : string).

Inductive result (A : Type) :=
| Ok (a : A)
| Raise (e : exn).
Arguments Ok {A} a.
Arguments Raise {A} e.

Definition is_ok {A : Type} (r : result A) : bool :=
  match r with Ok _ => true | Raise _ => false end.

End Py.

(** ** The part of pandas the sources use *)

Module Frame.

(** One row of [Enhanced_Data_Center_Emissions_Database.csv]; the field
    names are the column headers the sources index with:
    ['Cloud Service Provider'], ['Location'], ['Energy Consumption (MWh)'],
    ['Total Emissions (kg CO2e)'], ['Renewable Energy Usage (%)'],
    ['AI Workload (%)'], ['PUE (Power Usage Effectiveness)']. *)
Record Row := {
  Cloud_Service_Provider : string;
  Location : string;
  Energy_Consumption : Q;
  Total_Emissions : Q;
  Renewable_Energy_Usage : Q;
  AI_Workload : Q;
  PUE : Q
}.

Definition DataFrame := list Row.

(** [df[c]] *)
Definition column (c : Row -> Q) (df : DataFrame) : list Q := map c df.

(** [Series.sum()], [Series.mean()], [Series.max()] *)
Definition sum (xs : list Q) : Q := fold_left Qplus xs 0.

Definition mean (xs : list Q) : Q :=
  sum xs / inject_Z (Z.of_nat (List.length xs)).

Definition max (xs : list Q) : Q :=
  match xs with
  | [] => 0
  | x :: t => fold_left Qmax t x
  end.

(** [.round(2)] *)
Definition round2 (x : Q) : Q := inject_Z (round_half_even (x * 100)) / 100.

(** [df.groupby(key)]: one pass over the rows; every row is appended to
    the group of its key, and the groups are kept in increasing key
    order (pandas sorts the group keys).  The rows may be of any record
    type [R]. *)
Fixpoint upsert {R : Type} (k : string) (r : R) (m : list (string * list R))
  : list (string * list R) :=
  match m with
  | [] => [(k, [r])]
  | (k', g) :: m' =>
      match String_as_OT.compare k k' with
      | Eq => (k', g ++ [r]) :: m'
      | Lt => (k, [r]) :: m
      | Gt => (k', g) :: upsert k r m'
      end
  end.

Definition groupby {R : Type} (key : R -> string) (df : list R)
  : list (string * list R) :=
  fold_left (fun m r => upsert (key r) r m) df [].

(** [.agg('sum')] and [.agg('mean')] of one column of a group *)
Definition agg_sum {R : Type} (c : R -> Q) (g : list R) : Q := sum (map c g).
Definition agg_mean {R : Type} (c : R -> Q) (g : list R) : Q := mean (map c g).

(** the group of a key, if the key occurs *)
Fixpoint get_group {R : Type} (k : string) (m : list (string * list R))
  : option (list R) :=
  match m with
  | [] => None
  | (k', g) :: m' => if String.eqb k k' then Some g else get_group k m'
  end.

(** The same group taken from the full record set: [df[df[key] == k]]. *)
Definition select_eq {R : Type} (key : R -> string) (k : string) (df : list R)
  : list R :=
  filter (fun r => String.eqb (key r) k) df.

(** The order the groups are kept in, and what a group becomes when the
    rows [sel] of its key are appended. *)
Definition key_above {R : Type} (k : string) (p : string * list R) : Prop :=
  String_as_OT.lt k (fst p).

Definition key_order {R : Type} (p q : string * list R) : Prop :=
  String_as_OT.lt (fst p) (fst q).

Definition extended {R : Type} (o : option (list R)) (sel : list R)
  : option (list R) :=
  match o with
  | Some g => Some (g ++ sel)
  | None => match sel with [] => None | _ => Some sel end
  end.

End Frame.

(** ** [src/database/dashboard_new.py] *)

Module Dashboard.
Import Frame.

Record Coords := { lat : Q; lon : Q }.

Definition LOCATION_COORDS : list (string * Coords) :=
  [ ("California", {| lat := 36.7783; lon := -119.4179 |});
    ("Virginia",   {| lat := 37.7693; lon := -78.1700 |});
    ("London",     {| lat := 51.5074; lon := -0.1278 |});
    ("Sydney",     {| lat := -33.8688; lon := 151.2093 |});
    ("Mumbai",     {| lat := 19.0760; lon := 72.8777 |});
    ("Dublin",     {| lat := 53.3498; lon := -6.2603 |});
    ("Singapore",  {| lat := 1.3521; lon := 103.8198 |});
    ("Berlin",     {| lat := 52.5200; lon := 13.4050 |});
    ("Tokyo",      {| lat := 35.6762; lon := 139.6503 |});
    ("Toronto",    {| lat := 43.6532; lon := -79.3832 |}) ].

(** [LOCATION_COORDS[x]]; [None] stands for the [KeyError]. *)
Fixpoint coords_of (x : string) (table : list (string * Coords))
  : option Coords :=
  match table with
  | [] => None
  | (k, c) :: rest => if String.eqb x k then Some c else coords_of x rest
  end.

(** A row of the frame [load_data] returns: the CSV columns and the four
    added ones. *)
Record LoadedRow := {
  csv : Row;
  Energy_Efficiency : Q;
  Sustainability_Score : Q;
  Latitude : Q;
  Longitude : Q
}.

(** [df['Energy Efficiency'] = df['Energy Consumption (MWh)'] /
    df['Total Emissions (kg CO2e)']] *)
Definition energy_efficiency (r : Row) : Q :=
  Energy_Consumption r / Total_Emissions r.

(** the row-wise expression assigned to [df['Sustainability Score']];
    [eff_max] is [df['Energy Efficiency'].max()] *)
Definition sustainability_score (eff_max : Q) (r : Row) : Q :=
  Renewable_Energy_Usage r / 100 * 0.4
  + (2.0 - PUE r) / 1.0 * 0.3
  + energy_efficiency r / eff_max * 0.3.

(** [df['Location'].map(lambda x: LOCATION_COORDS[x][..])] over the rows
    already extended with the two metrics; the first unknown location
    raises. *)
Fixpoint add_coordinates (eff_max : Q) (df : DataFrame)
  : option (list LoadedRow) :=
  match df with
  | [] => Some []
  | r :: rest =>
      match coords_of (Location r) LOCATION_COORDS with
      | None => None
      | Some c =>
          match add_coordinates eff_max rest with
          | None => None
          | Some out =>
              Some ({| csv := r;
                       Energy_Efficiency := energy_efficiency r;
                       Sustainability_Score := sustainability_score eff_max r;
                       Latitude := lat c;
                       Longitude := lon c |} :: out)
          end
      end
  end.

(** [load_data()].  The argument is what [pd.read_csv] gives: [None] when
    it raises.  Every exception inside the [try] ends in [return None]. *)
Definition load_data (read_csv : option DataFrame)
  : option (list LoadedRow) :=
  match read_csv with
  | None => None
  | Some df =>
      let eff_max := max (map energy_efficiency df) in
      add_coordinates eff_max df
  end.

(** An entry of the list [check_alerts] returns. *)
Record Alert := { level : string; message : string; details : string }.

Definition is_empty {A : Type} (l : list A) : bool :=
  match l with [] => true | _ => false end.

(** [df[df[col] > bound]] and [df[df[col] < bound]] *)
Definition rows_above (c : Row -> Q) (bound : Q) (df : DataFrame) : DataFrame :=
  filter (fun r => Qltb bound (c r)) df.
Definition rows_below (c : Row -> Q) (bound : Q) (df : DataFrame) : DataFrame :=
  filter (fun r => Qltb (c r) bound) df.

Definition emissions_threshold (df : DataFrame) : Q :=
  mean (column Total_Emissions df) * 1.5.

Definition critical_alert (df : DataFrame) : list Alert :=
  let high_emitters := rows_above Total_Emissions (emissions_threshold df) df in
  if is_empty high_emitters then []
  else [ {| level := "critical";
            message := ("⚠️ " ++ str_nat (List.length high_emitters)
                        ++ " facilities exceed emissions threshold")%string;
            details := ("Average excess: "
                        ++ format_comma_0f
                             (mean (column Total_Emissions high_emitters)
                              - emissions_threshold df)
                        ++ " kg CO₂e")%string |} ].

Definition warning_alert (df : DataFrame) : list Alert :=
  let low_renewable := rows_below Renewable_Energy_Usage 30 df in
  if is_empty low_renewable then []
  else [ {| level := "warning";
            message := ("📉 " ++ str_nat (List.length low_renewable)
                        ++ " facilities below 30% renewable usage")%string;
            details := "Consider increasing renewable energy sources" |} ].

Definition info_alert (df : DataFrame) : list Alert :=
  let inefficient := rows_above PUE 1.8 df in
  if is_empty inefficient then []
  else [ {| level := "info";
            message := ("ℹ️ " ++ str_nat (List.length inefficient)
                        ++ " facilities have PUE > 1.8")%string;
            details := "Optimization opportunity identified" |} ].

(** [check_alerts(df)]: the three checks in order, each appending at most
    one entry.  Nothing is kept between two calls. *)
Definition check_alerts (df : DataFrame) : list Alert :=
  critical_alert df ++ warning_alert df ++ info_alert df.

(** [create_dashboard] calls [check_alerts(df_filtered)] once per run of
    the script; successive runs are successive evaluations. *)
Definition evaluations (runs : list DataFrame) : list (list Alert) :=
  map check_alerts runs.

End Dashboard.

(** ** What the alert claims speak about *)

Module AlertSpec.
Import Frame Dashboard.

(** an alert of level [lv] is among the alerts of one evaluation *)
Definition emits (lv : string) (alerts : list Alert) : bool :=
  existsb (fun a => String.eqb (level a) lv) alerts.

(** Edge-triggered evaluation, as the specification words it: when an
    evaluation emitted the alert of a rule, the next evaluation does not
    emit it again (the rule is still triggered, or it is not triggered
    at all). *)
Definition edge_triggered (lv : string) (runs : list DataFrame) : Prop :=
  forall i before now,
    nth_error (evaluations runs) i = Some before ->
    nth_error (evaluations runs) (S i) = Some now ->
    emits lv before = true ->
    emits lv now = false.

(** Inclusive comparison, as the specification words it: a facility whose
    PUE equals the threshold 1.8 triggers the PUE rule. *)
Definition inclusive_threshold (df : DataFrame) : Prop :=
  (exists r, In r df /\ PUE r == 1.8) ->
  emits "info" (check_alerts df) = true.

(** a facility, by the three columns the rules read *)
Definition facility (emissions renewable pue : Q) : Row :=
  {| Cloud_Service_Provider := "AWS"; Location := "Dublin";
     Energy_Consumption := 10; Total_Emissions := emissions;
     Renewable_Energy_Usage := renewable; AI_Workload := 20;
     PUE := pue |}.

End AlertSpec.

(** ** The Supabase project the database scripts talk to

    The project is an external collaborator.  The model keeps what the
    scripts rely on: three tables to which [insert(..).execute()] appends
    the rows it is given and from which [select('*').execute()] returns
    all rows, a clock, and the standard output.  A call to [execute()]
    raises when the project cannot be reached ([outage]). *)

Module Remote.
Import Py Frame.

(** A row of [provider_metrics]: the index and the five aggregated
    columns of [upload_provider_metrics], and [calculated_at]. *)
Record ProviderMetric := {
  pm_provider : string;
  pm_total_emissions : Q;
  pm_energy_consumption : Q;
  pm_renewable_energy_usage : Q;
  pm_ai_workload : Q;
  pm_pue : Q;
  pm_calculated_at : string
}.

(** A row of [location_metrics]. *)
Record LocationMetric := {
  lm_location : string;
  lm_total_emissions : Q;
  lm_energy_consumption : Q;
  lm_renewable_energy_usage : Q;
  lm_calculated_at : string
}.

(** One constructor per [print] statement of the database scripts, with
    the values it interpolates. *)
Inductive Printed :=
| Uploaded_emissions (n : nat)
| Error_uploading (e : exn)
| Uploaded_provider_metrics (n : nat)
| Error_uploading_provider_metrics (e : exn)
| Uploaded_location_metrics (n : nat)
| Error_uploading_location_metrics (e : exn)
| New_data_received (at_ : string)
| Provider_line (provider : string)
| Emissions_line (kg : Q)
| Separator
| Error_handling_broadcast (e : exn)
| Monitoring_started
| Error_in_monitoring (e : exn)
| Uploaded_data_point (at_ : string)
| Error_uploading_data (e : exn).

Section World.
(** [R]: the shape of a row of [cloud_emissions]. *)
Context {R : Type}.

Record Tables := {
  cloud_emissions : list R;
  provider_metrics : list ProviderMetric;
  location_metrics : list LocationMetric
}.

Record World := {
  tables : Tables;
  outage : option exn;
  clock : nat -> string;
  reads : nat;
  stdout : list Printed
}.

(** [datetime.now()], rendered: the next reading of the clock *)
Definition now (w : World) : string * World :=
  (clock w (reads w),
   {| tables := tables w; outage := outage w; clock := clock w;
      reads := S (reads w); stdout := stdout w |}).

Definition print (p : Printed) (w : World) : World :=
  {| tables := tables w; outage := outage w; clock := clock w;
     reads := reads w; stdout := stdout w ++ [p] |}.

Definition with_tables (t : Tables) (w : World) : World :=
  {| tables := t; outage := outage w; clock := clock w;
     reads := reads w; stdout := stdout w |}.

(** [supabase.table('cloud_emissions').insert(records).execute()] *)
Definition insert_cloud_emissions (records : list R) (w : World)
  : result (list R) * World :=
  match outage w with
  | Some e => (Raise e, w)
  | None =>
      (Ok records,
       with_tables
         {| cloud_emissions := cloud_emissions (tables w) ++ records;
            provider_metrics := provider_metrics (tables w);
            location_metrics := location_metrics (tables w) |} w)
  end.

(** [supabase.table('provider_metrics').insert(records).execute()] *)
Definition insert_provider_metrics (records : list ProviderMetric) (w : World)
  : result (list ProviderMetric) * World :=
  match outage w with
  | Some e => (Raise e, w)
  | None =>
      (Ok records,
       with_tables
         {| cloud_emissions := cloud_emissions (tables w);
            provider_metrics := provider_metrics (tables w) ++ records;
            location_metrics := location_metrics (tables w) |} w)
  end.

(** [supabase.table('location_metrics').insert(records).execute()] *)
Definition insert_location_metrics (records : list LocationMetric) (w : World)
  : result (list LocationMetric) * World :=
  match outage w with
  | Some e => (Raise e, w)
  | None =>
      (Ok records,
       with_tables
         {| cloud_emissions := cloud_emissions (tables w);
            provider_metrics := provider_metrics (tables w);
            location_metrics := location_metrics (tables w) ++ records |} w)
  end.

(** [supabase.table('cloud_emissions').select('*').execute()] *)
Definition select_cloud_emissions (w : World) : result (list R) :=
  match outage w with
  | Some e => Raise e
  | None => Ok (cloud_emissions (tables w))
  end.

(** an empty, reachable project *)
Definition fresh (clk : nat -> string) : World :=
  {| tables := {| cloud_emissions := []; provider_metrics := [];
                  location_metrics := [] |};
     outage := None; clock := clk; reads := 0; stdout := [] |}.

End World.

Arguments Tables R : clear implicits.
Arguments World R : clear implicits.

End Remote.

(** ** [src/database/supabase_manager.py] *)

Module Supabase.
Import Py Frame Remote.

Section Uploads.
Context {R : Type}.
(** [record['uploaded_at'] = t] on a record of shape [R] *)
Variable set_uploaded_at : string -> R -> R.

(** [for record in records: record['uploaded_at'] =
    datetime.now().isoformat()] *)
Fixpoint stamp_uploaded_at (records : list R) (w : World R)
  : list R * World R :=
  match records with
  | [] => ([], w)
  | r :: rest =>
      let (t, w1) := now w in
      let (rest', w2) := stamp_uploaded_at rest w1 in
      (set_uploaded_at t r :: rest', w2)
  end.

(** [upload_emissions_data(data)]: [None] is the [return None] of the
    handler. *)
Definition upload_emissions_data (data : list R) (w : World R)
  : option (list R) * World R :=
  let (records, w1) := stamp_uploaded_at data w in
  match insert_cloud_emissions records w1 with
  | (Ok res, w2) =>
      (Some res, print (Uploaded_emissions (List.length records)) w2)
  | (Raise e, w2) => (None, print (Error_uploading e) w2)
  end.

(** One record of [provider_metrics.reset_index().to_dict('records')]:
    the group key, the sums and means of the agg dictionary rounded
    to two decimals, and the stamp. *)
Definition provider_metric (kg : string * DataFrame) (t : string)
  : ProviderMetric :=
  let g := snd kg in
  {| pm_provider := fst kg;
     pm_total_emissions := round2 (agg_sum Total_Emissions g);
     pm_energy_consumption := round2 (agg_sum Energy_Consumption g);
     pm_renewable_energy_usage := round2 (agg_mean Renewable_Energy_Usage g);
     pm_ai_workload := round2 (agg_mean AI_Workload g);
     pm_pue := round2 (agg_mean PUE g);
     pm_calculated_at := t |}.

Definition location_metric (kg : string * DataFrame) (t : string)
  : LocationMetric :=
  let g := snd kg in
  {| lm_location := fst kg;
     lm_total_emissions := round2 (agg_mean Total_Emissions g);
     lm_energy_consumption := round2 (agg_mean Energy_Consumption g);
     lm_renewable_energy_usage := round2 (agg_mean Renewable_Energy_Usage g);
     lm_calculated_at := t |}.

(** [for record in records: record['calculated_at'] =
    datetime.now().isoformat()] *)
Fixpoint stamp_calculated_at {A B : Type} (mk : A -> string -> B)
  (groups : list A) (w : World R) : list B * World R :=
  match groups with
  | [] => ([], w)
  | g :: rest =>
      let (t, w1) := now w in
      let (rest', w2) := stamp_calculated_at mk rest w1 in
      (mk g t :: rest', w2)
  end.

(** [upload_provider_metrics(data)] *)
Definition upload_provider_metrics (data : DataFrame) (w : World R)
  : option (list ProviderMetric) * World R :=
  let provider_metrics := groupby Cloud_Service_Provider data in
  let (records, w1) := stamp_calculated_at provider_metric provider_metrics w in
  match insert_provider_metrics records w1 with
  | (Ok res, w2) =>
      (Some res, print (Uploaded_provider_metrics (List.length records)) w2)
  | (Raise e, w2) => (None, print (Error_uploading_provider_metrics e) w2)
  end.

(** [upload_location_metrics(data)] *)
Definition upload_location_metrics (data : DataFrame) (w : World R)
  : option (list LocationMetric) * World R :=
  let location_metrics := groupby Location data in
  let (records, w1) := stamp_calculated_at location_metric location_metrics w in
  match insert_location_metrics records w1 with
  | (Ok res, w2) =>
      (Some res, print (Uploaded_location_metrics (List.length records)) w2)
  | (Raise e, w2) => (None, print (Error_uploading_location_metrics e) w2)
  end.

End Uploads.

End Supabase.

(** ** [src/database/realtime_monitor.py] *)

Module Monitor.
Import Py Frame Remote.

Section Columns.
Context {R : Type}.
(** two columns of a frame whose rows all have them *)
Variable cloud_service_provider : R -> string.
Variable total_emissions : R -> Q.

(** [df.groupby('cloud_service_provider')['total_emissions'].sum()] *)
Definition sum_by_provider (df : list R) : list (string * Q) :=
  map (fun kg => (fst kg, agg_sum total_emissions (snd kg)))
      (groupby cloud_service_provider df).

End Columns.

Section RealtimeEmissionMonitor.
Context {R : Type}.

(** The monitor: the project it is connected to and what its first
    panel shows ([None]: the axes are cleared).  The three other
    panels are drawn from the same frame and are not modelled. *)
Record State := {
  world : World R;
  provider_emissions : option (list (string * Q))
}.

(** the notification of one INSERT; [new] is [payload['new']] *)
Record Payload := { new : option R }.

Definition printing (p : Printed) (s : State) : State :=
  {| world := print p (world s); provider_emissions := provider_emissions s |}.

(** What a record of [cloud_emissions] holds under the keys
    ['cloud_service_provider'] and ['total_emissions']; [None] when the
    record has no such key. *)
Variable cloud_service_provider : R -> option string.
Variable total_emissions : R -> option Q.

(** [pd.DataFrame(records)] has a column when some record has the key;
    a record without it gets NaN there. *)
Definition has_column {A : Type} (c : R -> option A) (df : list R) : bool :=
  existsb (fun r => match c r with Some _ => true | None => false end) df.

(** the rows [groupby] keeps, those with a provider, each with what it
    has under ['total_emissions'] *)
Definition keyed (df : list R) : list (string * option Q) :=
  flat_map (fun r => match cloud_service_provider r with
                     | Some k => [(k, total_emissions r)]
                     | None => []
                     end) df.

(** a NaN is skipped by [sum]: it adds nothing *)
Definition present (x : option Q) : Q :=
  match x with Some q => q | None => 0 end.

(** [update_visualizations(new_data)]: clear, read the whole table,
    aggregate, draw.  The [groupby] raises when no row has the
    provider column (a table without rows has no column at all), the
    selection of the emissions when no row has that column. *)
Definition update_visualizations (new_data : R) (s : State)
  : result unit * State :=
  let cleared := {| world := world s; provider_emissions := None |} in
  match select_cloud_emissions (world s) with
  | Raise e => (Raise e, cleared)
  | Ok df =>
      if negb (has_column cloud_service_provider df)
      then (Raise (KeyError "cloud_service_provider"), cleared)
      else if negb (has_column total_emissions df)
      then (Raise (KeyError "Column not found: total_emissions"), cleared)
      else
        (Ok tt,
         {| world := world s;
            provider_emissions :=
              Some (sum_by_provider fst (fun p => present (snd p)) (keyed df)) |})
  end.

(** [handle_broadcast(payload)]: each of the three lookups raises
    KeyError when the key is absent, and whatever is raised inside the
    [try] is printed. *)
Definition handle_broadcast (payload : Payload) (s : State) : State :=
  match new payload with
  | None => printing (Error_handling_broadcast (KeyError "new")) s
  | Some new_data =>
      let (t, w1) := now (world s) in
      let s1 := {| world := w1; provider_emissions := provider_emissions s |} in
      let s2 := printing (New_data_received t) s1 in
      match cloud_service_provider new_data with
      | None =>
          printing (Error_handling_broadcast (KeyError "cloud_service_provider")) s2
      | Some provider =>
          let s3 := printing (Provider_line provider) s2 in
          match total_emissions new_data with
          | None =>
              printing (Error_handling_broadcast (KeyError "total_emissions")) s3
          | Some kg =>
              let s4 := printing (Emissions_line kg) s3 in
              let s5 := printing Separator s4 in
              match update_visualizations new_data s5 with
              | (Ok _, s6) => s6
              | (Raise e, s6) => printing (Error_handling_broadcast e) s6
              end
          end
      end
  end.

(** [start_realtime_monitoring()], for the notifications delivered
    while it runs: subscribe, announce, then handle every notification
    as it arrives.  [subscribe] is the exception the subscription
    raises, if it does. *)
Definition start_realtime_monitoring (subscribe : option exn)
  (notifications : list Payload) (s : State) : State :=
  match subscribe with
  | Some e => printing (Error_in_monitoring e) s
  | None =>
      fold_left (fun st p => handle_broadcast p st) notifications
                (printing Monitoring_started s)
  end.

End RealtimeEmissionMonitor.

Arguments State R : clear implicits.
Arguments Payload R : clear implicits.

(** *** [simulate_real_time_data] *)

(** The names bound in the module's global namespace when
    [simulate_real_time_data] runs: the imports at the top of the file,
    the two definitions, and the names of the [__main__] block. *)
Definition module_globals : list string :=
  [ "os"; "create_client"; "Client"; "load_dotenv"; "pd"; "datetime";
    "time"; "json"; "plt"; "FuncAnimation"; "sns"; "clear_output";
    "RealtimeEmissionMonitor"; "simulate_real_time_data";
    "argparse"; "parser"; "args" ].

(** names of the builtins module: the functions, the constants and the
    exceptions the model mentions *)
Definition builtins : list string :=
  [ "abs"; "aiter"; "all"; "anext"; "any"; "ascii"; "bin"; "bool";
    "breakpoint"; "bytearray"; "bytes"; "callable"; "chr"; "classmethod";
    "compile"; "complex"; "delattr"; "dict"; "dir"; "divmod"; "enumerate";
    "eval"; "exec"; "filter"; "float"; "format"; "frozenset"; "getattr";
    "globals"; "hasattr"; "hash"; "help"; "hex"; "id"; "input"; "int";
    "isinstance"; "issubclass"; "iter"; "len"; "list"; "locals"; "map";
    "max"; "memoryview"; "min"; "next"; "object"; "oct"; "open"; "ord";
    "pow"; "print"; "property"; "range"; "repr"; "reversed"; "round";
    "set"; "setattr"; "slice"; "sorted"; "staticmethod"; "str"; "sum";
    "super"; "tuple"; "type"; "vars"; "zip"; "__import__";
    "True"; "False"; "None"; "NotImplemented"; "Ellipsis"; "__debug__";
    "Exception"; "BaseException"; "KeyError"; "NameError"; "ValueError";
    "TypeError"; "AttributeError"; "OSError" ].

(** Evaluating a global name: bound in the module or in builtins, or a
    [NameError]. *)
Definition load_global (globals : list string) (name : string) : result unit :=
  if existsb (String.eqb name) (globals ++ builtins) then Ok tt
  else Raise (NameError name).

(** What the simulation gets from outside: the exception the monitor's
    constructor raises, if any; what [pd.read_csv] gives (the records of
    the file, or an exception); the row [sample(n=1)] picks and the
    numbers [uniform] draws, by iteration. *)
Record Environment := {
  constructor_raises : option exn;
  read_csv : result (list dict);
  sample_index : nat -> nat;
  uniform_emissions : nat -> Q;
  uniform_workload : nat -> Q
}.

(** [d[k]] *)
Definition getitem (k : string) (d : dict) : result value :=
  match dict_lookup k d with
  | Some v => Ok v
  | None => Raise (KeyError k)
  end.

(** [v * x] for a float [x] *)
Definition times_float (v : value) (x : Q) : result value :=
  match v with
  | VNum q => Ok (VNum (q * x))
  | VBool b => Ok (VNum ((if b then 1 else 0) * x))
  | _ => Raise (TypeError "unsupported operand type(s) for *")
  end.

(** [d[k] *= (1 + np.random.uniform(..))]: the target [d[k]] is read
    first, then the right-hand side is evaluated, starting with the
    global name [np]. *)
Definition scale_item (globals : list string) (k : string) (draw : Q) (d : dict)
  : result dict :=
  match getitem k d with
  | Raise e => Raise e
  | Ok v =>
      match load_global globals "np" with
      | Raise e => Raise e
      | Ok _ =>
          match times_float v (1 + draw) with
          | Raise e => Raise e
          | Ok v' => Ok (dict_set k v' d)
          end
      end
  end.

(** [base_data.sample(n=1).to_dict('records')[0]] *)
Definition sample_record (base_data : list dict) (pick : nat) : result dict :=
  match base_data with
  | [] => Raise (ValueError "a must be greater than 0 unless no samples are taken")
  | d :: _ => Ok (nth (pick mod List.length base_data) base_data d)
  end.

(** One pass through the body of [while True:].  The [time.sleep(5)]
    that ends a pass has no effect on the state modelled. *)
Definition simulate_step (globals : list string) (env : Environment)
  (base_data : list dict) (k : nat) (w : World dict) : result unit * World dict :=
  match sample_record base_data (sample_index env k) with
  | Raise e => (Raise e, w)
  | Ok random_record =>
      let (t, w1) := now w in
      let r1 := dict_set "uploaded_at" (VStr t) random_record in
      match scale_item globals "total_emissions" (uniform_emissions env k) r1 with
      | Raise e => (Raise e, w1)
      | Ok r2 =>
          match scale_item globals "ai_workload" (uniform_workload env k) r2 with
          | Raise e => (Raise e, w1)
          | Ok r3 =>
              match insert_cloud_emissions [r3] w1 with
              | (Ok _, w2) =>
                  let (t', w3) := now w2 in
                  (Ok tt, print (Uploaded_data_point t') w3)
              | (Raise e, w2) => (Ok tt, print (Error_uploading_data e) w2)
              end
          end
      end
  end.

(** How a run stands after a number of passes: still looping, or ended
    by an exception. *)
Inductive Run :=
| Looping
| Failed (e : exn).

Fixpoint simulate_loop (globals : list string) (env : Environment)
  (base_data : list dict) (passes k : nat) (w : World dict) : Run * World dict :=
  match passes with
  | O => (Looping, w)
  | S passes' =>
      match simulate_step globals env base_data k w with
      | (Raise e, w') => (Failed e, w')
      | (Ok _, w') => simulate_loop globals env base_data passes' (S k) w'
      end
  end.

(** [simulate_real_time_data()], observed for at most [passes] passes of
    its loop, in a module whose global names are [globals]. *)
Definition simulate_with (globals : list string) (env : Environment)
  (passes : nat) (w : World dict) : Run * World dict :=
  match constructor_raises env with
  | Some e => (Failed e, w)
  | None =>
      match read_csv env with
      | Raise e => (Failed e, w)
      | Ok base_data => simulate_loop globals env base_data passes 0 w
      end
  end.

Definition simulate_real_time_data := simulate_with module_globals.

End Monitor.

(** ** What the aggregation claims speak about *)

Module AggregateSpec.
Import Py Frame Remote.

(** [series[k]] of a per-key result, as an option *)
Fixpoint series_get (k : string) (s : list (string * Q)) : option Q :=
  match s with
  | [] => None
  | (k', x) :: s' => if String.eqb k k' then Some x else series_get k s'
  end.

(** Recomputing from the full record set, as the specification words
    it: filter the records of the key, then count, add up, divide. *)
Definition recomputed_count {R : Type} (key : R -> string) (k : string)
  (records : list R) : nat :=
  List.length (filter (fun r => String.eqb (key r) k) records).

Definition recomputed_sum {R : Type} (key : R -> string) (c : R -> Q)
  (k : string) (records : list R) : Q :=
  fold_right Qplus 0 (map c (filter (fun r => String.eqb (key r) k) records)).

Definition recomputed_mean {R : Type} (key : R -> string) (c : R -> Q)
  (k : string) (records : list R) : Q :=
  recomputed_sum key c k records
  / inject_Z (Z.of_nat (recomputed_count key k records)).

(** The same for records that may lack a key, as the monitor reads
    them: the records of a provider are those that name it, and a
    record without emissions adds nothing. *)
Definition records_of {R : Type} (provider : R -> option string) (k : string)
  (records : list R) : list R :=
  filter (fun r => match provider r with
                   | Some k' => String.eqb k' k
                   | None => false
                   end) records.

Definition emissions_sum {R : Type} (emissions : R -> option Q) (g : list R) : Q :=
  sum (map (fun r => match emissions r with
                     | Some x => x
                     | None => 0
                     end) g).

(** the numbers a row of [provider_metrics] carries *)
Definition reports (pm : ProviderMetric) (x : Q) : Prop :=
  pm_total_emissions pm == x
  \/ pm_energy_consumption pm == x
  \/ pm_renewable_energy_usage pm == x
  \/ pm_ai_workload pm == x
  \/ pm_pue pm == x.


End AggregateSpec.

(** ** What the ingestion claims speak about *)

Module IngestSpec.
Import Py Frame Remote Supabase Monitor.

Section Apply.
Context {R K : Type}.
Variable set_uploaded_at : string -> R -> R.
Variable cloud_service_provider : R -> option string.
Variable total_emissions : R -> option Q.
(** the composite key (source, time of observation, location) of a
    record, and the comparison of keys *)
Variable composite_key : R -> K.
Variable key_eqb : K -> K -> bool.

(** the aggregate state: the stored rows and the per-provider sums on
    display *)
Definition aggregate_state (s : State R)
  : Tables R * option (list (string * Q)) :=
  (tables (world s), provider_emissions s).

(** what the panel shows once [update_visualizations] has run: the
    aggregate of the table as it is stored, or nothing when the table
    cannot be read or lacks one of the two columns *)
Definition shown_for (w : World R) : option (list (string * Q)) :=
  match select_cloud_emissions w with
  | Ok df =>
      if has_column cloud_service_provider df && has_column total_emissions df
      then Some (sum_by_provider fst (fun p => present (snd p))
                   (keyed cloud_service_provider total_emissions df))
      else None
  | Raise _ => None
  end.

(** the sums on display, in lowest terms *)
Definition displayed (s : State R) : option (list (string * Q)) :=
  option_map (map (fun kx => (fst kx, Qred (snd kx)))) (provider_emissions s).

Definition known (k : K) (rows : list R) : bool :=
  existsb (fun r => key_eqb (composite_key r) k) rows.

(** Modelled from the spec: the [insert] of the external store, whose
    schema is not part of the sources.  Section 6 has the rows
    addressable by their composite key and
    [insert(records) -> ok | PartialFailure(list of rejected keys)];
    section 3 has a record whose key is already stored not stored
    again.  So a record whose key is stored, or occurs earlier in the
    batch, is rejected and the others are appended. *)
Fixpoint store_batch (records stored : list R) : list R * list R :=
  match records with
  | [] => (stored, [])
  | r :: rest =>
      if known (composite_key r) stored
      then let (stored', rejected) := store_batch rest stored in
           (stored', r :: rejected)
      else store_batch rest (stored ++ [r])
  end.

(** Modelled from the spec: [table('cloud_emissions').insert(records)
    .execute()] against that store.  A PartialFailure reaches the
    client as the exception [execute] raises. *)
Definition insert_unique (records : list R) (w : World R)
  : result (list R) * World R :=
  match outage w with
  | Some e => (Raise e, w)
  | None =>
      let (stored, rejected) := store_batch records (cloud_emissions (tables w)) in
      let w' := with_tables
                  {| cloud_emissions := stored;
                     provider_metrics := provider_metrics (tables w);
                     location_metrics := location_metrics (tables w) |} w in
      match rejected with
      | [] => (Ok records, w')
      | _ => (Raise (APIError "PartialFailure"), w')
      end
  end.

(** [upload_emissions_data(data)] of [supabase_manager.py], talking to
    that store *)
Definition upload_unique (data : list R) (w : World R)
  : option (list R) * World R :=
  let (records, w1) := stamp_uploaded_at set_uploaded_at data w in
  match insert_unique records w1 with
  | (Ok res, w2) =>
      (Some res, print (Uploaded_emissions (List.length records)) w2)
  | (Raise e, w2) => (None, print (Error_uploading e) w2)
  end.

(** A record is applied: it is uploaded, and when the store has taken
    it the monitor handles the notification of its insert. *)
Definition apply_record (r : R) (s : State R) : State R :=
  match upload_unique [r] (world s) with
  | (Some [inserted], w) =>
      handle_broadcast cloud_service_provider total_emissions
        {| new := Some inserted |}
        {| world := w; provider_emissions := provider_emissions s |}
  | (_, w) => {| world := w; provider_emissions := provider_emissions s |}
  end.

(** The same against a store that takes whatever it is given, the
    tables of [Remote]. *)
Definition apply_unchecked (r : R) (s : State R) : State R :=
  match upload_emissions_data set_uploaded_at [r] (world s) with
  | (Some [inserted], w) =>
      handle_broadcast cloud_service_provider total_emissions
        {| new := Some inserted |}
        {| world := w; provider_emissions := provider_emissions s |}
  | (_, w) => {| world := w; provider_emissions := provider_emissions s |}
  end.

End Apply.

End IngestSpec.

(** ** Sample data used by the worked examples *)

Module Samples.
Import Frame.

Definition dublin_aws : Row :=
  {| Cloud_Service_Provider := "AWS"; Location := "Dublin";
     Energy_Consumption := 120; Total_Emissions := 300;
     Renewable_Energy_Usage := 50; AI_Workload := 20; PUE := 1.5 |}.

Definition tokyo_gcp : Row :=
  {| Cloud_Service_Provider := "GCP"; Location := "Tokyo";
     Energy_Consumption := 90; Total_Emissions := 450;
     Renewable_Energy_Usage := 70; AI_Workload := 40; PUE := 1.2 |}.

Definition two_sites : DataFrame := [dublin_aws; tokyo_gcp].

(** The scenario of the specification: two records of provider A at
    location X, with emissions 100 and 200. *)
Definition a_100 : Row :=
  {| Cloud_Service_Provider := "A"; Location := "X";
     Energy_Consumption := 10; Total_Emissions := 100;
     Renewable_Energy_Usage := 50; AI_Workload := 20; PUE := 1.5 |}.

Definition a_200 : Row :=
  {| Cloud_Service_Provider := "A"; Location := "X";
     Energy_Consumption := 30; Total_Emissions := 200;
     Renewable_Energy_Usage := 70; AI_Workload := 40; PUE := 1.7 |}.

(** A row of [cloud_emissions], with the fields of the composite key
    (source, time of observation, location) and the tracking stamp. *)
Record Reading := {
  provider : string;
  observed_at : string;
  loc : string;
  emissions : Q;
  uploaded_at : string
}.

Definition reading (p t l : string) (e : Q) : Reading :=
  {| provider := p; observed_at := t; loc := l; emissions := e;
     uploaded_at := "" |}.

Definition set_uploaded_at (t : string) (r : Reading) : Reading :=
  {| provider := provider r; observed_at := observed_at r; loc := loc r;
     emissions := emissions r; uploaded_at := t |}.

Definition composite_key (r : Reading) : string * string * string :=
  (provider r, observed_at r, loc r).

(** a clock whose n-th reading is ["t<n>"] *)
Definition tick (n : nat) : string := ("t" ++ str_nat n)%string.

(** the two keys the monitor reads, which a reading always has *)
Definition provider_key (r : Reading) : option string := Some (provider r).
Definition emissions_key (r : Reading) : option Q := Some (emissions r).

Definition key_eqb (k k' : string * string * string) : bool :=
  String.eqb (fst (fst k)) (fst (fst k'))
  && String.eqb (snd (fst k)) (snd (fst k'))
  && String.eqb (snd k) (snd k').

(** a monitor connected to an empty, reachable project *)
Definition idle : Monitor.State Reading :=
  {| Monitor.world := Remote.fresh tick; Monitor.provider_emissions := None |}.

(** the record of the scenario, applied once and twice *)
Definition a_x_100 : Reading := reading "A" "2024-01-01T00:00:00" "X" 100.
Definition a_x_200 : Reading := reading "A" "2024-01-01T01:00:00" "X" 200.

Definition apply (r : Reading) : Monitor.State Reading -> Monitor.State Reading :=
  IngestSpec.apply_record set_uploaded_at provider_key emissions_key
    composite_key key_eqb r.

Definition applied_once : Monitor.State Reading := apply a_x_100 idle.

Definition applied_twice : Monitor.State Reading := apply a_x_100 applied_once.

Definition applied_both : Monitor.State Reading := apply a_x_200 applied_once.

(** twice, into tables that take whatever they are given *)
Definition unchecked_twice : Monitor.State Reading :=
  IngestSpec.apply_unchecked set_uploaded_at provider_key emissions_key a_x_100
    (IngestSpec.apply_unchecked set_uploaded_at provider_key emissions_key
       a_x_100 idle).

End Samples.

(** ** [src/data_collection/api_collector.py] *)

Module Collector.
Import Py.

Record CarbonDataCollector := {
  gcp_api_key : option string;
  aws_api_key : option string;
  azure_api_key : option string;
  base_urls : list (string * string);
  data_sources : list (string * string);
  raw_dir : string
}.

(** a row of the frames the provider collectors build; the three
    measurements are whatever the payload holds under their keys *)
Record Row := {
  timestamp : string;
  provider : string;
  energy_consumption : value;
  carbon_emissions : value;
  data_transfer : value
}.

Definition DataFrame := list Row.

(** a GET request: the URL and the headers; a header whose value is
    [None] is kept as such *)
Record Request := {
  url : string;
  headers : list (string * option string)
}.

Inductive Printed :=
| API_request_failed (e : string).

(** The outside of the collector: what a request gives (the decoded
    JSON of a successful response, or the exception raised by
    [requests.get], [raise_for_status] or [json]), the exception
    [mkdir] raises if any, the clock, and the traces the collector
    leaves (requests sent, lines printed, files written). *)
Record World := {
  http : Request -> result value;
  mkdir_raises : option exn;
  clock : nat -> string;
  reads : nat;
  sent : list Request;
  stdout : list Printed;
  files : list (string * DataFrame)
}.

Definition M (A : Type) : Type := World -> result A * World.

Definition ret {A : Type} (a : A) : M A := fun w => (Ok a, w).

Definition raise {A : Type} (e : exn) : M A := fun w => (Raise e, w).

Definition bind {A B : Type} (m : M A) (k : A -> M B) : M B :=
  fun w =>
    match m w with
    | (Ok a, w') => k a w'
    | (Raise e, w') => (Raise e, w')
    end.

Notation "x <- m ;; k" := (bind m (fun x => k))
  (at level 61, m at next level, right associativity).

Definition now : M string :=
  fun w =>
    (Ok (clock w (reads w)),
     {| http := http w; mkdir_raises := mkdir_raises w; clock := clock w;
        reads := S (reads w); sent := sent w; stdout := stdout w;
        files := files w |}).

Definition print (p : Printed) : M unit :=
  fun w =>
    (Ok tt,
     {| http := http w; mkdir_raises := mkdir_raises w; clock := clock w;
        reads := reads w; sent := sent w; stdout := stdout w ++ [p];
        files := files w |}).

(** [requests.get(url, headers=headers)], [raise_for_status()], [json()] *)
Definition get_json (req : Request) : M value :=
  fun w =>
    (http w req,
     {| http := http w; mkdir_raises := mkdir_raises w; clock := clock w;
        reads := reads w; sent := sent w ++ [req]; stdout := stdout w;
        files := files w |}).

Definition to_csv (path : string) (df : DataFrame) : M unit :=
  fun w =>
    (Ok tt,
     {| http := http w; mkdir_raises := mkdir_raises w; clock := clock w;
        reads := reads w; sent := sent w; stdout := stdout w;
        files := files w ++ [(path, df)] |}).

(** [str(x)] inside an f-string, for a key read with [os.getenv] *)
Definition str_of_key (k : option string) : string :=
  match k with
  | Some s => s
  | None => "None"
  end.

Definition BASE_URLS : list (string * string) :=
  [ ("gcp", "https://cloudasset.googleapis.com/v1");
    ("aws", "https://sustainability.aws.amazon.com/v1");
    ("azure", "https://management.azure.com/sustainability/v1") ].

Definition DATA_SOURCES : list (string * string) :=
  [ ("electricity_factors", "https://api.climatiq.io/data/v1/electricity_factors");
    ("github_data", "https://raw.githubusercontent.com/owid/co2-data/master/owid-co2-data.csv");
    ("energy_data", "https://raw.githubusercontent.com/owid/energy-data/master/owid-energy-data.csv") ].

(** [CarbonDataCollector.__init__]: [getenv] is [os.getenv] after
    [load_dotenv()].  The keys are stored as read; the only step that
    can raise is the [mkdir]. *)
Definition __init__ (getenv : string -> option string) : M CarbonDataCollector :=
  fun w =>
    match mkdir_raises w with
    | Some e => (Raise e, w)
    | None =>
        (Ok {| gcp_api_key := getenv "GCP_API_KEY";
               aws_api_key := getenv "AWS_API_KEY";
               azure_api_key := getenv "AZURE_API_KEY";
               base_urls := BASE_URLS;
               data_sources := DATA_SOURCES;
               raw_dir := "data/raw" |}, w)
    end.

(** [self.base_urls[k]] *)
Fixpoint base_url (k : string) (urls : list (string * string)) : M string :=
  match urls with
  | [] => raise (KeyError k)
  | (k', u) :: rest => if String.eqb k k' then ret u else base_url k rest
  end.

(** [_make_api_request(url, headers)]: only a [RequestException] is
    caught; it is printed and [None] is returned. *)
Definition _make_api_request (url_ : string) (headers_ : list (string * option string))
  : M value :=
  fun w =>
    match get_json {| url := url_; headers := headers_ |} w with
    | (Ok v, w') => (Ok v, w')
    | (Raise (RequestException e), w') =>
        (Ok VNone, snd (print (API_request_failed e) w'))
    | (Raise e, w') => (Raise e, w')
    end.

(** [data.get(k, 0)]: [data] must be a dictionary *)
Definition get_or_zero (data : value) (k : string) : M value :=
  match data with
  | VDict d => ret (dict_get k (VNum 0) d)
  | _ => raise (AttributeError (no_get data))
  end.

(** The body the three provider collectors share from [if data:] on:
    a one-row frame, or the empty frame. *)
Definition frame_of (data : value) (name k_energy k_carbon k_transfer : string)
  : M DataFrame :=
  if truthy data then
    t <- now ;;
    e <- get_or_zero data k_energy ;;
    c <- get_or_zero data k_carbon ;;
    n <- get_or_zero data k_transfer ;;
    ret [ {| timestamp := t; provider := name; energy_consumption := e;
             carbon_emissions := c; data_transfer := n |} ]
  else ret [].

Definition bearer (key : option string) : list (string * option string) :=
  [ ("Authorization", Some ("Bearer " ++ str_of_key key)%string);
    ("Content-Type", Some "application/json") ].

Definition collect_gcp_data (self : CarbonDataCollector) : M DataFrame :=
  let headers_ := bearer (gcp_api_key self) in
  base <- base_url "gcp" (base_urls self) ;;
  data <- _make_api_request (base ++ "/sustainability/metrics")%string headers_ ;;
  frame_of data "GCP" "energy_kwh" "carbon_kg" "network_gb".

Definition collect_aws_data (self : CarbonDataCollector) : M DataFrame :=
  let headers_ := [ ("x-api-key", aws_api_key self);
                    ("Content-Type", Some "application/json") ] in
  base <- base_url "aws" (base_urls self) ;;
  data <- _make_api_request (base ++ "/carbon-metrics")%string headers_ ;;
  frame_of data "AWS" "energy_consumption" "co2_emissions" "data_transfer".

Definition collect_azure_data (self : CarbonDataCollector) : M DataFrame :=
  let headers_ := bearer (azure_api_key self) in
  base <- base_url "azure" (base_urls self) ;;
  data <- _make_api_request (base ++ "/emissions")%string headers_ ;;
  frame_of data "Azure" "energy_usage" "carbon_footprint" "network_usage".

(** [save_raw_data(df, source_name)] *)
Definition save_raw_data (self : CarbonDataCollector) (df : DataFrame)
  (source_name : string) : M unit :=
  t <- now ;;
  to_csv (raw_dir self ++ "/raw_data_" ++ source_name ++ "_" ++ t ++ ".csv")%string df.

(** [collect_cloud_data()] *)
Definition collect_cloud_data (self : CarbonDataCollector) : M DataFrame :=
  gcp_data <- collect_gcp_data self ;;
  aws_data <- collect_aws_data self ;;
  azure_data <- collect_azure_data self ;;
  let combined_df := gcp_data ++ aws_data ++ azure_data in
  match combined_df with
  | [] => ret combined_df
  | _ => _ <- save_raw_data self combined_df "all_providers" ;; ret combined_df
  end.

End Collector.

(** ** What the collection claims speak about *)

Module CollectSpec.
Import Py Collector.

(** How a source answers within the handled cases: its request raises a
    [RequestException] (timeout, connection error, error status), or
    it returns something empty, or it returns a JSON object. *)
Inductive Answer :=
| Fails (e : string)
| Nothing
| Object (d : dict).

Definition answer_of (r : result value) : option Answer :=
  match r with
  | Raise (RequestException e) => Some (Fails e)
  | Raise _ => None
  | Ok (VDict (x :: d)) => Some (Object (x :: d))
  | Ok v => if truthy v then None else Some Nothing
  end.

(** the requests the three collectors send *)
Definition gcp_request (self : CarbonDataCollector) : Request :=
  {| url := "https://cloudasset.googleapis.com/v1/sustainability/metrics";
     headers := bearer (gcp_api_key self) |}.

Definition aws_request (self : CarbonDataCollector) : Request :=
  {| url := "https://sustainability.aws.amazon.com/v1/carbon-metrics";
     headers := [ ("x-api-key", aws_api_key self);
                  ("Content-Type", Some "application/json") ] |}.

Definition azure_request (self : CarbonDataCollector) : Request :=
  {| url := "https://management.azure.com/sustainability/v1/emissions";
     headers := bearer (azure_api_key self) |}.

(** the row a source delivers from the object it answers with *)
Definition row_of (name k_energy k_carbon k_transfer t : string) (d : dict) : Row :=
  {| timestamp := t; provider := name;
     energy_consumption := dict_get k_energy (VNum 0) d;
     carbon_emissions := dict_get k_carbon (VNum 0) d;
     data_transfer := dict_get k_transfer (VNum 0) d |}.

(** what one source contributes, and how far the clock has been read
    after it *)
Definition rows_for (name k_energy k_carbon k_transfer t : string) (a : Answer)
  : DataFrame :=
  match a with
  | Object d => [row_of name k_energy k_carbon k_transfer t d]
  | _ => []
  end.

Definition reads_after (n : nat) (a : Answer) : nat :=
  match a with
  | Object _ => S n
  | _ => n
  end.

(** the frame of a batch, from the answers of the three sources *)
Definition collected (clk : nat -> string) (n : nat) (a_gcp a_aws a_azure : Answer)
  : DataFrame :=
  rows_for "GCP" "energy_kwh" "carbon_kg" "network_gb" (clk n) a_gcp
  ++ rows_for "AWS" "energy_consumption" "co2_emissions" "data_transfer"
       (clk (reads_after n a_gcp)) a_aws
  ++ rows_for "Azure" "energy_usage" "carbon_footprint" "network_usage"
       (clk (reads_after (reads_after n a_gcp) a_aws)) a_azure.

(** the sources that deliver a row, and the failures, in order *)
Fixpoint delivering (answers : list (string * Answer)) : list string :=
  match answers with
  | [] => []
  | (name, Object _) :: rest => name :: delivering rest
  | _ :: rest => delivering rest
  end.

Fixpoint failures (answers : list (string * Answer)) : list Printed :=
  match answers with
  | [] => []
  | (_, Fails e) :: rest => API_request_failed e :: failures rest
  | _ :: rest => failures rest
  end.

(** [headers[k]] *)
Fixpoint header (k : string) (hs : list (string * option string))
  : option string :=
  match hs with
  | [] => None
  | (k', v) :: rest => if String.eqb k k' then v else header k rest
  end.

(** Rejecting out-of-range input, as the specification words it: a
    payload with negative energy makes the collector return an error. *)
Definition rejects_negative_energy (self : CarbonDataCollector) (w : World)
  : Prop :=
  forall d q,
    http w (gcp_request self) = Ok (VDict d) ->
    dict_lookup "energy_kwh" d = Some (VNum q) -> q < 0 ->
    is_ok (fst (collect_gcp_data self w)) = false.

(** Validating credentials, as the specification words it: without a
    key, construction fails, or else collection does. *)
Definition validates_credentials (getenv : string -> option string) (w : World)
  : Prop :=
  getenv "GCP_API_KEY" = None ->
  match fst (__init__ getenv w) with
  | Raise _ => True
  | Ok self => is_ok (fst (collect_gcp_data self w)) = false
  end.

(** *** Worked configurations *)

Definition no_keys : string -> option string := fun _ => None.

Definition configured : CarbonDataCollector :=
  {| gcp_api_key := Some "secret-GCP_API_KEY";
     aws_api_key := Some "secret-AWS_API_KEY";
     azure_api_key := Some "secret-AZURE_API_KEY";
     base_urls := BASE_URLS; data_sources := DATA_SOURCES;
     raw_dir := "data/raw" |}.

Definition unconfigured : CarbonDataCollector :=
  {| gcp_api_key := None; aws_api_key := None; azure_api_key := None;
     base_urls := BASE_URLS; data_sources := DATA_SOURCES;
     raw_dir := "data/raw" |}.

(** an API that answers by provider, whatever the headers *)
Definition api (gcp aws azure : result value) (req : Request) : result value :=
  if String.prefix "https://cloudasset" (url req) then gcp
  else if String.prefix "https://sustainability.aws" (url req) then aws
  else azure.

(** an API that refuses requests without the configured key *)
Definition guarded_api (req : Request) : result value :=
  match header "Authorization" (headers req) with
  | Some "Bearer secret-GCP_API_KEY" => Ok (VDict [("energy_kwh", VNum 7)])
  | _ => Raise (RequestException "401 Client Error: Unauthorized")
  end.

Definition tick (n : nat) : string := ("t" ++ str_nat n)%string.

Definition world_of (h : Request -> result value) : World :=
  {| http := h; mkdir_raises := None; clock := tick; reads := 0;
     sent := []; stdout := []; files := [] |}.

Definition aws_payload : value :=
  VDict [("energy_consumption", VNum 40); ("co2_emissions", VNum 12)].

Definition azure_payload : value :=
  VDict [("energy_usage", VNum 55); ("carbon_footprint", VNum 9);
         ("network_usage", VNum 3)].

Definition gcp_times_out : World :=
  world_of (api (Raise (RequestException "Read timed out"))
                (Ok aws_payload) (Ok azure_payload)).

Definition gcp_has_nothing : World :=
  world_of (api (Ok (VDict [])) (Ok aws_payload) (Ok azure_payload)).

Definition gcp_negative_energy : World :=
  world_of (api (Ok (VDict [("energy_kwh", VNum (-5)); ("carbon_kg", VNum 12)]))
                (Ok aws_payload) (Ok azure_payload)).

End CollectSpec.

(** ** What the simulation claim speaks about *)

Module SimulationSpec.
Import Py Remote Monitor.

(** The claim, as worded: every invocation that gets to run its loop
    ends in the unbound-name error for [np]. *)
Definition always_name_error (env : Environment) (w : World dict) : Prop :=
  forall passes, passes <> 0%nat ->
    fst (simulate_real_time_data env passes w) = Failed (NameError "np").

(** a record of the CSV file, under the headers the other scripts read
    it with *)
Definition csv_record : dict :=
  [ ("Cloud Service Provider", VStr "AWS");
    ("Location", VStr "Dublin");
    ("Energy Consumption (MWh)", VNum 120);
    ("Total Emissions (kg CO₂e)", VNum 300);
    ("Renewable Energy Usage (%)", VNum 50);
    ("AI Workload (%)", VNum 20);
    ("PUE (Power Usage Effectiveness)", VNum 1.5) ].

(** a record under the column names the simulation indexes with *)
Definition table_record : dict :=
  [ ("cloud_service_provider", VStr "AWS");
    ("location", VStr "Dublin");
    ("total_emissions", VNum 300);
    ("ai_workload", VNum 20) ].

Definition environment (records : list dict) : Environment :=
  {| constructor_raises := None;
     read_csv := Ok records;
     sample_index := fun k => k;
     uniform_emissions := fun _ => 1 # 20;
     uniform_workload := fun _ => - (1 # 50) |}.

Definition tick (n : nat) : string := ("t" ++ str_nat n)%string.

End SimulationSpec.

(** ** Notions used by the further properties *)

Module MonitorSpec.
Import Py Remote Monitor.

(** a notification that gets as far as [update_visualizations]: it
    carries a record under ['new'], and the record has the two keys
    that are printed first *)
Definition reaches_update {R : Type} (provider : R -> option string)
  (emissions : R -> option Q) (p : Payload R) : bool :=
  match new p with
  | Some r =>
      match provider r, emissions r with
      | Some _, Some _ => true
      | _, _ => false
      end
  | None => false
  end.

End MonitorSpec.

(** ** Fixed-point formatting *)

Module Fmt.

(** [s.rjust(n, '0')] for a string of digits *)
Fixpoint zeros (n : nat) : string :=
  match n with
  | O => ""
  | S n' => String "0" (zeros n')
  end.

Definition pad_left (n : nat) (s : string) : string :=
  (zeros (n - String.length s) ++ s)%string.

(** [f"{x:.Nf}"] for N >= 1: the number rounded to N decimals (ties to
    even), with the sign kept on a negative number that rounds to
    zero. *)
Definition format_f (digits : nat) (x : Q) : string :=
  let scale := (10 ^ Z.of_nat digits)%Z in
  let r := round_half_even (x * inject_Z scale) in
  let a := Z.abs r in
  let body := (str_Z (a / scale) ++ "." ++ pad_left digits (str_Z (a mod scale)))%string in
  if orb (r <? 0)%Z (andb (r =? 0)%Z (Qltb x 0)) then ("-" ++ body)%string
  else body.

(** [f"{x:+.Nf}"]: the same with a plus sign on what is not negative;
    [None] is NaN *)
Definition format_plus_f (digits : nat) (x : option Q) : string :=
  match x with
  | None => "+nan"
  | Some q =>
      let s := format_f digits q in
      match s with
      | String "-" _ => s
      | _ => ("+" ++ s)%string
      end
  end.

End Fmt.

(** ** [src/database/dashboard_new.py]: insights and filters *)

Module Insights.
Import Frame Dashboard Fmt.

(** An entry of the list [generate_ai_insights] returns. *)
Record Insight := {
  category : string;
  title : string;
  description : string;
  impact : string
}.

(** [df.nlargest(1, col)]: the row with the largest value, the first of
    them when several rows hold it; [None] for the empty selection. *)
Fixpoint nlargest1 (c : LoadedRow -> Q) (df : list LoadedRow) : option LoadedRow :=
  match df with
  | [] => None
  | r :: rest =>
      match nlargest1 c rest with
      | None => Some r
      | Some b => if Qltb (c r) (c b) then Some b else Some r
      end
  end.

(** [sorted(values)] *)
Fixpoint insert_sorted (x : Q) (l : list Q) : list Q :=
  match l with
  | [] => [x]
  | y :: l' => if Qle_bool x y then x :: l else y :: insert_sorted x l'
  end.

Definition sort_values (xs : list Q) : list Q := fold_right insert_sorted [] xs.

(** [Series.quantile(p)], linear interpolation between the two order
    statistics around position [p * (n - 1)] *)
Definition quantile (p : Q) (xs : list Q) : Q :=
  let s := sort_values xs in
  let h := p * inject_Z (Z.of_nat (List.length xs - 1)) in
  let lo := Z.to_nat (Qfloor h) in
  let x_lo := nth lo s 0 in
  let x_hi := nth (S lo) s x_lo in
  x_lo + (h - inject_Z (Qfloor h)) * (x_hi - x_lo).

Definition renewable (l : LoadedRow) : Q := Renewable_Energy_Usage (csv l).
Definition emitted (l : LoadedRow) : Q := Total_Emissions (csv l).

(** [df[df['Renewable Energy Usage (%)'] > avg_renewable]] *)
Definition high_renewable (df : list LoadedRow) : list LoadedRow :=
  let avg_renewable := mean (map renewable df) in
  filter (fun l => Qltb avg_renewable (renewable l)) df.

(** [df[df[emissions] > df[emissions].quantile(0.75)]] *)
Definition high_emissions (df : list LoadedRow) : list LoadedRow :=
  let q := quantile 0.75 (map emitted df) in
  filter (fun l => Qltb q (emitted l)) df.

(** [generate_ai_insights(df)].  [None] stands for the IndexError that
    [.iloc[0]] raises when [nlargest] selected nothing. *)
Definition generate_ai_insights (df : list LoadedRow) : option (list Insight) :=
  match nlargest1 Energy_Efficiency df with
  | None => None
  | Some top_efficient =>
      let avg_renewable := mean (map renewable df) in
      Some
        [ {| category := "Efficiency";
             title := "Most Efficient Data Center";
             description :=
               ("The " ++ Location (csv top_efficient)
                ++ " facility operated by "
                ++ Cloud_Service_Provider (csv top_efficient)
                ++ " shows the highest efficiency at "
                ++ format_f 2 (Energy_Efficiency top_efficient)
                ++ " MWh/kg CO₂e")%string;
             impact := "high" |};
          {| category := "Renewable Energy";
             title := "Renewable Energy Leaders";
             description :=
               (str_nat (List.length (high_renewable df))
                ++ " facilities exceed the average renewable usage of "
                ++ format_f 1 avg_renewable ++ "%")%string;
             impact := "medium" |};
          {| category := "Emissions";
             title := "Emissions Hotspots Identified";
             description :=
               ("Found " ++ str_nat (List.length (high_emissions df))
                ++ " facilities with significantly high emissions that need attention")%string;
             impact := "high" |} ]
  end.

(** The sidebar of [create_dashboard]: the two multiselects and the two
    sliders. *)
Record Filters := {
  providers : list string;
  locations : list string;
  min_renewable : Q;
  max_pue : Q
}.


(** [Series.isin(values)] *)
Definition isin (x : string) (values : list string) : bool :=
  existsb (String.eqb x) values.

(** [df_filtered] *)
Definition df_filtered (f : Filters) (df : list LoadedRow) : list LoadedRow :=
  filter (fun l =>
            isin (Cloud_Service_Provider (csv l)) (providers f)
            && isin (Location (csv l)) (locations f)
            && Qle_bool (min_renewable f) (Renewable_Energy_Usage (csv l))
            && Qle_bool (PUE (csv l)) (max_pue f))
         df.

(** [Series.unique()]: the distinct values in order of first appearance *)
Fixpoint unique (l : list string) : list string :=
  match l with
  | [] => []
  | x :: t => x :: filter (fun y => negb (String.eqb x y)) (unique t)
  end.

(** the settings the sidebar starts with: everything selected, sliders
    at 0 and 2.0 *)
Definition default_filters (df : list LoadedRow) : Filters :=
  {| providers := unique (map (fun l => Cloud_Service_Provider (csv l)) df);
     locations := unique (map (fun l => Location (csv l)) df);
     min_renewable := 0;
     max_pue := 2.0 |}.

(** the notification center: [check_alerts(df_filtered)] *)
Definition notification_center (f : Filters) (df : list LoadedRow) : list Alert :=
  check_alerts (map csv (df_filtered f df)).

(** the insights tab: [generate_ai_insights(df_filtered)] *)
Definition insights_tab (f : Filters) (df : list LoadedRow) : option (list Insight) :=
  generate_ai_insights (df_filtered f df).

End Insights.

(** Loaded sample frames used by the examples of Part III. *)

Module LoadedSamples.
Import Frame Dashboard.

(** the two sample sites as [load_data] returns them *)
Definition loaded_two_sites : list LoadedRow :=
  match load_data (Some Samples.two_sites) with
  | Some out => out
  | None => []
  end.

End LoadedSamples.

Module InsightSpec.

(** a list of numbers in ascending order: each entry is at most the
    next one *)
Definition ascending (l : list Q) : Prop :=
  forall i, (S i < List.length l)%nat -> nth i l 0 <= nth (S i) l 0.

End InsightSpec.

(** ** [supabase_manager.main] and [src/database/verify_upload.py] *)

Module UploadScript.
Import Py Frame Remote Supabase.

(** A record of [data.to_dict('records')]: the columns of the file, and
    the key [uploaded_at] once the record is stamped. *)
Record Uploaded := {
  row : Row;
  uploaded_at : option string
}.

Definition to_dict_records (data : DataFrame) : list Uploaded :=
  map (fun r => {| row := r; uploaded_at := None |}) data.

(** [record['uploaded_at'] = t] *)
Definition set_uploaded_at (t : string) (u : Uploaded) : Uploaded :=
  {| row := row u; uploaded_at := Some t |}.

(** [main()] of [supabase_manager.py].  [read_csv] is what
    [pd.read_csv] gives, [create_client] the exception the constructor
    of [SupabaseManager] raises, if it does; neither is handled. *)
Definition main (read_csv : result DataFrame) (create_client : option exn)
  (w : World Uploaded) : result unit * World Uploaded :=
  match read_csv with
  | Raise e => (Raise e, w)
  | Ok data =>
      match create_client with
      | Some e => (Raise e, w)
      | None =>
          let (_, w1) := upload_emissions_data set_uploaded_at (to_dict_records data) w in
          let (_, w2) := upload_provider_metrics data w1 in
          let (_, w3) := upload_location_metrics data w2 in
          (Ok tt, w3)
      end
  end.

(** [supabase.table('provider_metrics').select('*').execute()] *)
Definition select_provider_metrics {R : Type} (w : World R)
  : result (list ProviderMetric) :=
  match outage w with
  | Some e => Raise e
  | None => Ok (provider_metrics (tables w))
  end.

(** [supabase.table('location_metrics').select('*').execute()] *)
Definition select_location_metrics {R : Type} (w : World R)
  : result (list LocationMetric) :=
  match outage w with
  | Some e => Raise e
  | None => Ok (location_metrics (tables w))
  end.

(** the lines [verify_data_upload] prints *)
Inductive Line :=
| Cloud_Emissions_Records (n : nat)
| Provider_Metrics_Records (n : nat)
| Location_Metrics_Records (n : nat)
| Error_verifying_data (e : exn).

(** [verify_data_upload()]: the lines it prints, or the exception of the
    constructor, which is raised outside the [try]. *)
Definition verify_data_upload {R : Type} (create_client : option exn)
  (w : World R) : result (list Line) :=
  match create_client with
  | Some e => Raise e
  | None =>
      Ok match select_cloud_emissions w with
         | Raise e => [Error_verifying_data e]
         | Ok emissions =>
             Cloud_Emissions_Records (List.length emissions)
             :: match select_provider_metrics w with
                | Raise e => [Error_verifying_data e]
                | Ok providers =>
                    Provider_Metrics_Records (List.length providers)
                    :: match select_location_metrics w with
                       | Raise e => [Error_verifying_data e]
                       | Ok locations =>
                           [Location_Metrics_Records (List.length locations)]
                       end
                end
         end
  end.


End UploadScript.

(** ** [src/database/dashboard.py] *)

Module LiveDashboard.
Import Py Frame Remote Monitor Fmt.

Section Pass.
Context {R : Type}.
(** the columns of [cloud_emissions] the page reads *)
Variable cloud_service_provider : R -> string.
Variable uploaded_at : R -> string.
Variable total_emissions : R -> Q.
Variable ai_workload : R -> Q.
Variable renewable_energy_usage : R -> Q.

(** [Series.diff()] without its leading NaN: each value minus the one
    before it *)
Fixpoint diff (xs : list Q) : list Q :=
  match xs with
  | x :: (y :: _) as t => (y - x) :: diff t
  | _ => []
  end.

(** [Series.diff().mean()]: the mean skips the NaN; [None] is the NaN of
    a series with no difference at all *)
Definition diff_mean (xs : list Q) : option Q :=
  match diff xs with
  | [] => None
  | ds => Some (mean ds)
  end.

(** the arguments of one [st.metric] call *)
Record Metric := {
  label : string;
  value : string;
  delta : string
}.

(** what one pass of the loop puts on the page *)
Record Page := {
  metrics : list Metric;
  line_chart : list (string * Q);
  bar_chart : list (string * Q);
  scatter_chart : list (Q * Q * string)
}.

(** One pass through the body of [while True:] of [create_dashboard].
    A table without rows gives a frame without columns, and the first
    column access raises.  Nothing is caught. *)
Definition create_dashboard_pass (w : World R) : result Page :=
  match select_cloud_emissions w with
  | Raise e => Raise e
  | Ok [] => Raise (KeyError "total_emissions")
  | Ok df =>
      let emissions := map total_emissions df in
      let workload := map ai_workload df in
      let renewable := map renewable_energy_usage df in
      Ok {| metrics :=
              [ {| label := "Total Emissions";
                   value := (format_comma_0f (sum emissions) ++ " kg CO₂e")%string;
                   delta := (format_plus_f 1 (diff_mean emissions) ++ " kg")%string |};
                {| label := "Average AI Workload";
                   value := (format_f 1 (mean workload) ++ "%")%string;
                   delta := (format_plus_f 1 (diff_mean workload) ++ "%")%string |};
                {| label := "Renewable Energy Usage";
                   value := (format_f 1 (mean renewable) ++ "%")%string;
                   delta := (format_plus_f 1 (diff_mean renewable) ++ "%")%string |} ];
            line_chart := map (fun r => (uploaded_at r, total_emissions r)) df;
            bar_chart := sum_by_provider cloud_service_provider total_emissions df;
            scatter_chart :=
              map (fun r => (ai_workload r, total_emissions r, cloud_service_provider r)) df |}
  end.

End Pass.

End LiveDashboard.

(** Rows of [cloud_emissions] with the columns the live dashboard
    reads, for the examples of Part III. *)

Module TableSamples.
Import Remote.

Record Emission := {
  cloud_service_provider : string;
  uploaded_at : string;
  total_emissions : Q;
  ai_workload : Q;
  renewable_energy_usage : Q
}.

Definition first_upload : Emission :=
  {| cloud_service_provider := "AWS"; uploaded_at := "t0";
     total_emissions := 100; ai_workload := 20; renewable_energy_usage := 50 |}.

Definition second_upload : Emission :=
  {| cloud_service_provider := "GCP"; uploaded_at := "t1";
     total_emissions := 900; ai_workload := 80; renewable_energy_usage := 10 |}.

Definition third_upload : Emission :=
  {| cloud_service_provider := "AWS"; uploaded_at := "t2";
     total_emissions := 130; ai_workload := 30; renewable_energy_usage := 40 |}.

Definition three_uploads : list Emission :=
  [first_upload; second_upload; third_upload].

(** a reachable project whose table holds the given rows *)
Definition holding (rows : list Emission) : World Emission :=
  {| tables := {| cloud_emissions := rows; provider_metrics := [];
                  location_metrics := [] |};
     outage := None; clock := Samples.tick; reads := 0; stdout := [] |}.

End TableSamples.

(** ** [src/data_collection/api_collector.py]: the public sources,
    [collect_data.py] and [test_collection.py] *)

Module PublicData.
Import Py.

(** A frame of arbitrary columns, by column: the name and the cells.
    [VNone] is a missing cell (NaN, None). *)
Definition Table := list (string * list value).

(** [pd.DataFrame()] *)
Definition empty_frame : Table := [].

(** [len(df)] *)
Definition len (df : Table) : nat :=
  match df with
  | [] => 0%nat
  | (_, cells) :: _ => List.length cells
  end.

(** [pd.DataFrame(data)] for a dictionary of lists *)
Definition DataFrame_of (data : Table) : result Table :=
  match data with
  | [] => Ok []
  | (_, first) :: rest =>
      if forallb (fun kc => Nat.eqb (List.length (snd kc)) (List.length first)) rest
      then Ok data
      else Raise (ValueError "All arrays must be of the same length")
  end.

Fixpoint column (c : string) (df : Table) : option (list value) :=
  match df with
  | [] => None
  | (c', cells) :: rest => if String.eqb c c' then Some cells else column c rest
  end.

(** [repr] of a list of strings *)
Fixpoint repr_items (l : list string) : string :=
  match l with
  | [] => ""
  | [x] => ("'" ++ x ++ "'")%string
  | x :: rest => ("'" ++ x ++ "', " ++ repr_items rest)%string
  end.

Definition repr_list (l : list string) : string := ("[" ++ repr_items l ++ "]")%string.

(** [df[columns]]: the columns asked for, in that order; a KeyError
    that names the missing ones *)
Definition getitem_columns (columns : list string) (df : Table) : result Table :=
  match filter (fun c => match column c df with None => true | Some _ => false end)
               columns with
  | [] =>
      Ok (map (fun c => (c, match column c df with Some cells => cells | None => [] end))
              columns)
  | missing => Raise (KeyError (repr_list missing ++ " not in index")%string)
  end.

Definition isna (v : value) : bool :=
  match v with VNone => true | _ => false end.

(** row [i] has a value in every column *)
Definition complete (df : Table) (i : nat) : bool :=
  forallb (fun kc => match nth_error (snd kc) i with
                     | Some v => negb (isna v)
                     | None => false
                     end) df.

(** [df.dropna()] *)
Definition dropna (df : Table) : Table :=
  let kept := filter (complete df) (seq 0 (len df)) in
  map (fun kc => (fst kc, map (fun i => nth i (snd kc) VNone) kept)) df.

(** the lines the public collectors and [test_data_collection] print *)
Inductive Line :=
| Error_collecting_benchmark_data (e : exn)
| Error_collecting_GitHub_carbon_data (e : exn)
| Error_collecting_energy_data (e : exn)
| Error_reading_local_CSV_file (e : exn)
| Data_collection_complete
| Carbon_data_records (n : nat)
| Energy_data_records (n : nat)
| Cloud_data_records (n : nat)
| Device_data_records (n : nat)
| Internet_data_records (n : nat).

(** the records [collect_data.main] logs *)
Inductive Log :=
| Collecting_cloud_provider_data
| Collected_records_from_cloud_providers (n : nat)
| Collecting_training_benchmark_data
| Collected_benchmark_records (n : nat).

(** The outside of the public collectors: the world of the provider
    collectors (clock, directory, provider requests), what [pd.read_csv]
    gives for a path or URL, what [requests.get(url).json()] gives, the
    numbers [np.random.normal] draws, and the traces left: paths read,
    URLs fetched, lines printed, records logged, frames saved. *)
Record World := {
  base : Collector.World;
  read_csv_of : string -> result Table;
  json_of : string -> result value;
  noise : nat -> nat -> Q;
  draws : nat;
  opened : list string;
  fetched : list string;
  lines : list Line;
  log : list Log;
  saved : list (string * Table)
}.

Definition M (A : Type) : Type := World -> result A * World.

Definition ret {A : Type} (a : A) : M A := fun w => (Ok a, w).

Definition raise {A : Type} (e : exn) : M A := fun w => (Raise e, w).

Definition bind {A B : Type} (m : M A) (k : A -> M B) : M B :=
  fun w =>
    match m w with
    | (Ok a, w') => k a w'
    | (Raise e, w') => (Raise e, w')
    end.

Notation "x <- m ;; k" := (bind m (fun x => k))
  (at level 61, m at next level, right associativity).

(** [try: m  except Exception as e: handler e] *)
Definition try_except {A : Type} (m : M A) (handler : exn -> M A) : M A :=
  fun w =>
    match m w with
    | (Ok a, w') => (Ok a, w')
    | (Raise e, w') => handler e w'
    end.

Definition of_result {A : Type} (r : result A) : M A := fun w => (r, w).

(** a step of the provider collectors, run on their part of the world *)
Definition lift {A : Type} (m : Collector.M A) : M A :=
  fun w =>
    let (r, b) := m (base w) in
    (r, {| base := b; read_csv_of := read_csv_of w; json_of := json_of w;
           noise := noise w; draws := draws w; opened := opened w;
           fetched := fetched w; lines := lines w; log := log w;
           saved := saved w |}).

Definition now : M string := lift Collector.now.

Definition print (l : Line) : M unit :=
  fun w =>
    (Ok tt,
     {| base := base w; read_csv_of := read_csv_of w; json_of := json_of w;
        noise := noise w; draws := draws w; opened := opened w;
        fetched := fetched w; lines := lines w ++ [l]; log := log w;
        saved := saved w |}).

(** [logger.info(..)] *)
Definition info (l : Log) : M unit :=
  fun w =>
    (Ok tt,
     {| base := base w; read_csv_of := read_csv_of w; json_of := json_of w;
        noise := noise w; draws := draws w; opened := opened w;
        fetched := fetched w; lines := lines w; log := log w ++ [l];
        saved := saved w |}).

(** [pd.read_csv(path)] *)
Definition read_csv (path : string) : M Table :=
  fun w =>
    (read_csv_of w path,
     {| base := base w; read_csv_of := read_csv_of w; json_of := json_of w;
        noise := noise w; draws := draws w; opened := opened w ++ [path];
        fetched := fetched w; lines := lines w; log := log w;
        saved := saved w |}).

(** [requests.get(url).json()] *)
Definition get_json (url : string) : M value :=
  fun w =>
    (json_of w url,
     {| base := base w; read_csv_of := read_csv_of w; json_of := json_of w;
        noise := noise w; draws := draws w; opened := opened w;
        fetched := fetched w ++ [url]; lines := lines w; log := log w;
        saved := saved w |}).

(** [np.random.normal(mu, sigma, n)] *)
Definition normal (mu sigma : Q) (n : nat) : M (list value) :=
  fun w =>
    (Ok (map (fun i => VNum (mu + sigma * noise w (draws w) i)) (seq 0 n)),
     {| base := base w; read_csv_of := read_csv_of w; json_of := json_of w;
        noise := noise w; draws := S (draws w); opened := opened w;
        fetched := fetched w; lines := lines w; log := log w;
        saved := saved w |}).

(** [df.to_csv(path, index=False)] *)
Definition to_csv (path : string) (df : Table) : M unit :=
  fun w =>
    (Ok tt,
     {| base := base w; read_csv_of := read_csv_of w; json_of := json_of w;
        noise := noise w; draws := draws w; opened := opened w;
        fetched := fetched w; lines := lines w; log := log w;
        saved := saved w ++ [(path, df)] |}).

(** [save_raw_data(df, source_name)] for a frame of any columns *)
Definition save_raw_data (self : Collector.CarbonDataCollector) (df : Table)
  (source_name : string) : M unit :=
  t <- now ;;
  to_csv (Collector.raw_dir self ++ "/raw_data_" ++ source_name ++ "_" ++ t ++ ".csv")%string
         df.

(** [for entry in data]: the entries of a list, the keys of a
    dictionary, the characters of a string *)
Definition iterate (data : value) : result (list value) :=
  match data with
  | VList l => Ok l
  | VDict d => Ok (map (fun kv => VStr (fst kv)) d)
  | VStr s => Ok (map (fun c => VStr (String c "")) (list_ascii_of_string s))
  | _ => Raise (TypeError "object is not iterable")
  end.

(** [[entry.get(k) for entry in entries]] *)
Fixpoint comprehension (k : string) (entries : list value) : result (list value) :=
  match entries with
  | [] => Ok []
  | VDict d :: rest =>
      match comprehension k rest with
      | Ok cells => Ok (dict_get k VNone d :: cells)
      | Raise e => Raise e
      end
  | entry :: _ => Raise (AttributeError (no_get entry))
  end.

Definition get_all (k : string) (data : value) : M (list value) :=
  of_result match iterate data with
            | Ok entries => comprehension k entries
            | Raise e => Raise e
            end.

(** [collect_training_benchmarks()] *)
Definition collect_training_benchmarks (self : Collector.CarbonDataCollector)
  : M Table :=
  let benchmark_url := "https://dawn.cs.stanford.edu/benchmark/data/latest.json" in
  try_except
    (data <- get_json benchmark_url ;;
     t <- now ;;
     model_name <- get_all "model_name" data ;;
     training_time <- get_all "training_time" data ;;
     energy_consumption <- get_all "energy_consumption" data ;;
     carbon_footprint <- get_all "carbon_footprint" data ;;
     df <- of_result (DataFrame_of
                        [ ("timestamp", [VStr t]);
                          ("model_name", model_name);
                          ("training_time", training_time);
                          ("energy_consumption", energy_consumption);
                          ("carbon_footprint", carbon_footprint) ]) ;;
     _ <- save_raw_data self df "training_benchmarks" ;;
     ret df)
    (fun e => _ <- print (Error_collecting_benchmark_data e) ;; ret empty_frame).

(** [self.data_sources[k]] *)
Fixpoint data_source (k : string) (sources : list (string * string)) : M string :=
  match sources with
  | [] => raise (KeyError k)
  | (k', u) :: rest => if String.eqb k k' then ret u else data_source k rest
  end.

Definition github_columns : list string :=
  ["year"; "country"; "co2"; "co2_per_capita"; "energy_per_capita"].

Definition energy_columns : list string :=
  ["year"; "country"; "electricity_generation"; "electricity_consumption";
   "energy_per_gdp"].

(** [collect_github_carbon_data()] *)
Definition collect_github_carbon_data (self : Collector.CarbonDataCollector)
  : M Table :=
  try_except
    (source <- data_source "github_data" (Collector.data_sources self) ;;
     df <- read_csv source ;;
     selected <- of_result (getitem_columns github_columns df) ;;
     let df_filtered := dropna selected in
     _ <- save_raw_data self df_filtered "github_carbon" ;;
     ret df_filtered)
    (fun e => _ <- print (Error_collecting_GitHub_carbon_data e) ;; ret empty_frame).

(** [collect_energy_data()] *)
Definition collect_energy_data (self : Collector.CarbonDataCollector) : M Table :=
  try_except
    (source <- data_source "energy_data" (Collector.data_sources self) ;;
     df <- read_csv source ;;
     selected <- of_result (getitem_columns energy_columns df) ;;
     let df_filtered := dropna selected in
     _ <- save_raw_data self df_filtered "energy" ;;
     ret df_filtered)
    (fun e => _ <- print (Error_collecting_energy_data e) ;; ret empty_frame).

(** [pd.date_range(start='2023-01-01', end='2023-12-31', freq='D')] *)
Definition two_digits (n : nat) : string :=
  if Nat.ltb n 10 then ("0" ++ str_nat n)%string else str_nat n.

Definition days_of_2023 : list (nat * nat) :=
  [ (1, 31); (2, 28); (3, 31); (4, 30); (5, 31); (6, 30);
    (7, 31); (8, 31); (9, 30); (10, 31); (11, 30); (12, 31) ]%nat.

Definition date_range_2023 : list value :=
  flat_map (fun md =>
              map (fun day => VStr ("2023-" ++ two_digits (fst md) ++ "-"
                                    ++ two_digits day)%string)
                  (seq 1 (snd md)))
           days_of_2023.

(** [l * n] for a list *)
Fixpoint repeat_list {A : Type} (l : list A) (n : nat) : list A :=
  match n with
  | O => []
  | S n' => l ++ repeat_list l n'
  end.

(** the body of [generate_sample_cloud_data], from the dates on *)
Definition generate_sample_cloud_data_for (dates : list value)
  (self : Collector.CarbonDataCollector) : M Table :=
  let n := List.length dates in
  let service_type :=
    repeat_list [VStr "compute"; VStr "storage"; VStr "network"] (n / 3 + 1) in
  energy_consumption <- normal 100 20 n ;;
  data_transfer <- normal 500 100 n ;;
  carbon_emissions <- normal 50 10 n ;;
  df <- of_result (DataFrame_of
                     [ ("timestamp", dates);
                       ("service_type", service_type);
                       ("energy_consumption", energy_consumption);
                       ("data_transfer", data_transfer);
                       ("carbon_emissions", carbon_emissions) ]) ;;
  _ <- save_raw_data self df "cloud_sample" ;;
  ret df.

(** [generate_sample_cloud_data()] *)
Definition generate_sample_cloud_data : Collector.CarbonDataCollector -> M Table :=
  generate_sample_cloud_data_for date_range_2023.

(** [Path(file_path).stem]: the last component of the path, without
    its last suffix *)
Fixpoint split_on (sep : ascii) (s : string) : list string :=
  match s with
  | EmptyString => [""]
  | String c rest =>
      if Ascii.eqb c sep then "" :: split_on sep rest
      else match split_on sep rest with
           | [] => [String c ""]
           | part :: parts => String c part :: parts
           end
  end.

Definition path_name (file_path : string) : string :=
  List.last (filter (fun part => negb (String.eqb part "") && negb (String.eqb part "."))
                    (split_on "/" file_path)) "".

(** [name.rfind('.')] *)
Fixpoint rfind_dot (name : string) (i : nat) : option nat :=
  match name with
  | EmptyString => None
  | String c rest =>
      match rfind_dot rest (S i) with
      | Some j => Some j
      | None => if Ascii.eqb c "." then Some i else None
      end
  end.

Definition stem (file_path : string) : string :=
  let name := path_name file_path in
  match rfind_dot name 0 with
  | Some i =>
      if Nat.ltb 0 i && Nat.ltb i (String.length name - 1)
      then String.substring 0 i name
      else name
  | None => name
  end.

(** [collect_local_csv_data(file_path)] *)
Definition collect_local_csv_data (self : Collector.CarbonDataCollector)
  (file_path : string) : M Table :=
  try_except
    (df <- read_csv file_path ;;
     let filename := stem file_path in
     _ <- save_raw_data self df ("local_" ++ filename)%string ;;
     ret df)
    (fun e => _ <- print (Error_reading_local_CSV_file e) ;; ret empty_frame).

(** [test_data_collection()] of [test_collection.py] *)
Definition test_data_collection (getenv : string -> option string) : M unit :=
  collector <- lift (Collector.__init__ getenv) ;;
  carbon_data <- collect_github_carbon_data collector ;;
  energy_data <- collect_energy_data collector ;;
  cloud_data <- generate_sample_cloud_data collector ;;
  device_data <- collect_local_csv_data collector "data/raw/device_energy_data.csv" ;;
  internet_data <- collect_local_csv_data collector "data/raw/internet_usage_data.csv" ;;
  _ <- print Data_collection_complete ;;
  _ <- print (Carbon_data_records (len carbon_data)) ;;
  _ <- print (Energy_data_records (len energy_data)) ;;
  _ <- print (Cloud_data_records (len cloud_data)) ;;
  _ <- print (Device_data_records (len device_data)) ;;
  print (Internet_data_records (len internet_data)).

(** [main()] of [collect_data.py] *)
Definition main (getenv : string -> option string)
  : M (Collector.DataFrame * Table) :=
  collector <- lift (Collector.__init__ getenv) ;;
  _ <- info Collecting_cloud_provider_data ;;
  cloud_data <- lift (Collector.collect_cloud_data collector) ;;
  _ <- info (Collected_records_from_cloud_providers (List.length cloud_data)) ;;
  _ <- info Collecting_training_benchmark_data ;;
  benchmark_data <- collect_training_benchmarks collector ;;
  _ <- info (Collected_benchmark_records (len benchmark_data)) ;;
  ret (cloud_data, benchmark_data).

End PublicData.

Module PublicSpec.
Import Py PublicData.

(** a frame with exactly the given columns, all of one length, and no
    missing cell *)
Definition cleaned (columns : list string) (df : Table) : Prop :=
  map fst df = columns
  /\ forall c cells, In (c, cells) df ->
       List.length cells = len df /\ forall v, In v cells -> isna v = false.

(** the lines a collector prints when it gives up *)
Definition is_collect_error (l : Line) : Prop :=
  exists e, l = Error_collecting_GitHub_carbon_data e
            \/ l = Error_collecting_energy_data e.

End PublicSpec.

(** ** [src/data_collection/cloud_carbon_analyzer.py] *)

Module Analyzer.
Import Frame.

(** a row of the table [analyze_cloud_emissions] returns: the provider
    (the index) and the three aggregated columns *)
Record ProviderAnalysis := {
  provider : string;
  total_emissions : Q;
  ai_workload : Q;
  renewable_energy_usage : Q
}.

(** [analyze_cloud_emissions()]; [data] is [self.data] *)
Definition analyze_cloud_emissions (data : DataFrame) : list ProviderAnalysis :=
  map (fun kg =>
         {| provider := fst kg;
            total_emissions := round2 (agg_sum Total_Emissions (snd kg));
            ai_workload := round2 (agg_mean AI_Workload (snd kg));
            renewable_energy_usage := round2 (agg_mean Renewable_Energy_Usage (snd kg)) |})
      (groupby Cloud_Service_Provider data).

(** the same columns of a stored row of [provider_metrics] *)
Definition of_metric (pm : Remote.ProviderMetric) : ProviderAnalysis :=
  {| provider := Remote.pm_provider pm;
     total_emissions := Remote.pm_total_emissions pm;
     ai_workload := Remote.pm_ai_workload pm;
     renewable_energy_usage := Remote.pm_renewable_energy_usage pm |}.

End Analyzer.

(** ** [src/database/dashboard_new.py]: the radar chart *)

Module Charts.
Import Frame Dashboard Insights.

Definition provider_of (l : LoadedRow) : string := Cloud_Service_Provider (csv l).

(** [create_radar_chart(df)]: the traces added to the figure, each the
    name of a provider and its five values *)
Definition create_radar_chart (df : list LoadedRow) : list (string * list Q) :=
  let providers := unique (map provider_of df) in
  map (fun provider =>
         let provider_data :=
           filter (fun l => String.eqb (provider_of l) provider) df in
         (provider,
          [ mean (map Energy_Efficiency provider_data)
            / max (map Energy_Efficiency df);
            mean (map (fun l => Renewable_Energy_Usage (csv l)) provider_data) / 100;
            (2 - mean (map (fun l => PUE (csv l)) provider_data)) / 1;
            mean (map (fun l => AI_Workload (csv l)) provider_data) / 100;
            mean (map Sustainability_Score provider_data) ]))
      providers.

(** the radial axis of the chart: [range=[0, 1]] *)
Definition on_axis (v : Q) : Prop := 0 <= v <= 1.

(** a facility whose numbers lie in their natural ranges *)
Definition in_range (l : LoadedRow) : Prop :=
  0 < Energy_Efficiency l
  /\ 0 <= Renewable_Energy_Usage (csv l) <= 100
  /\ 1 <= PUE (csv l) <= 2
  /\ 0 <= AI_Workload (csv l) <= 100
  /\ 0 <= Sustainability_Score l <= 1.

End Charts.

(** * Part II: properties *)

(** ** Numbers and formatting *)

Lemma Qltb_lt (x y : Q) : Qltb x y = true <-> x < y.
Proof.
  unfold Qltb. rewrite negb_true_iff.
  split; intros H.
  - apply Qnot_le_lt. intros Hle. apply Qle_bool_iff in Hle. congruence.
  - destruct (Qle_bool y x) eqn:E; [|reflexivity].
    apply Qle_bool_iff in E. exfalso. apply (Qlt_not_le _ _ H E).
Qed.

Lemma Qltb_ge (x y : Q) : Qltb x y = false <-> y <= x.
Proof.
  unfold Qltb. rewrite negb_false_iff. apply Qle_bool_iff.
Qed.

Example format_comma_0f_ex1 : format_comma_0f (1234567 # 1) = "1,234,567".
Proof. reflexivity. Qed.
Example format_comma_0f_ex2 : format_comma_0f (2001 # 2) = "1,000".
Proof. reflexivity. Qed.
Example format_comma_0f_ex3 : format_comma_0f (75 # 2) = "38".
Proof. reflexivity. Qed.
Example format_comma_0f_ex4 : format_comma_0f (1005 # 1) = "1,005".
Proof. reflexivity. Qed.
Example format_comma_0f_ex5 :
  map format_comma_0f [1 # 2; 3 # 2; 5 # 2; - (2 # 5); 2469135 # 2]
  = ["0"; "2"; "2"; "-0"; "1,234,568"].
Proof. reflexivity. Qed.

(** ** Frames *)

Section FrameFacts.
Import Frame.

Lemma fold_Qmax_ge_init (xs : list Q) (a : Q) : a <= fold_left Qmax xs a.
Proof.
  revert a. induction xs as [|x xs IH]; intros a; simpl.
  - apply Qle_refl.
  - eapply Qle_trans; [apply (Q.le_max_l a x)|apply IH].
Qed.

Lemma fold_Qmax_ge_elem (xs : list Q) (a x : Q) :
  In x xs -> x <= fold_left Qmax xs a.
Proof.
  revert a. induction xs as [|y xs IH]; intros a Hin; simpl in *.
  - contradiction.
  - destruct Hin as [->|Hin].
    + eapply Qle_trans; [apply (Q.le_max_r a x)|apply fold_Qmax_ge_init].
    + apply IH, Hin.
Qed.

(** [Series.max()] bounds every entry of the series. *)
Lemma max_upper_bound (xs : list Q) (x : Q) : In x xs -> x <= max xs.
Proof.
  destruct xs as [|y xs]; simpl; [contradiction|].
  intros [->|Hin].
  - apply fold_Qmax_ge_init.
  - apply fold_Qmax_ge_elem, Hin.
Qed.



Lemma is_empty_filter_false {A : Type} (f : A -> bool) (l : list A) :
  Dashboard.is_empty (filter f l) = false <-> exists x, In x l /\ f x = true.
Proof.
  split.
  - destruct (filter f l) as [|x t] eqn:E; [discriminate|].
    intros _. exists x. apply filter_In. rewrite E. now left.
  - intros [x Hx]. apply filter_In in Hx.
    destruct (filter f l); [contradiction|reflexivity].
Qed.

Lemma is_empty_filter_true {A : Type} (f : A -> bool) (l : list A) :
  Dashboard.is_empty (filter f l) = true <-> forall x, In x l -> f x = false.
Proof.
  split.
  - intros H x Hin. destruct (f x) eqn:E; [|reflexivity].
    assert (Hne : Dashboard.is_empty (filter f l) = false)
      by (apply is_empty_filter_false; eauto).
    congruence.
  - intros H. destruct (Dashboard.is_empty (filter f l)) eqn:E; [reflexivity|].
    apply is_empty_filter_false in E. destruct E as [x [Hin Hx]].
    rewrite (H x Hin) in Hx. discriminate.
Qed.

End FrameFacts.

(** ** [load_data] *)

Section LoadData.
Import Frame Dashboard.

Lemma add_coordinates_rows (m : Q) (df : DataFrame) (out : list LoadedRow) :
  add_coordinates m df = Some out ->
  map csv out = df
  /\ map Energy_Efficiency out = map energy_efficiency df
  /\ map Sustainability_Score out = map (sustainability_score m) df.
Proof.
  revert out. induction df as [|r df IH]; intros out; cbn [add_coordinates].
  - intros [= <-]. repeat split.
  - destruct (coords_of (Location r) LOCATION_COORDS) as [c|]; [|discriminate].
    destruct (add_coordinates m df) as [out'|]; [|discriminate].
    intros [= <-]. destruct (IH out' eq_refl) as (H1 & H2 & H3).
    cbn [map csv Energy_Efficiency Sustainability_Score].
    rewrite H1, H2, H3. repeat split.
Qed.


End LoadData.

Section SustainabilityScore.
Import Frame Dashboard.

Lemma add_coordinates_each (m : Q) (df : DataFrame) (out : list LoadedRow) :
  add_coordinates m df = Some out ->
  forall l, In l out ->
    Energy_Efficiency l = energy_efficiency (csv l)
    /\ Sustainability_Score l = sustainability_score m (csv l).
Proof.
  revert out. induction df as [|r df IH]; intros out; cbn [add_coordinates].
  - intros [= <-] l [].
  - destruct (coords_of (Location r) LOCATION_COORDS) as [c|]; [|discriminate].
    destruct (add_coordinates m df) as [out'|]; [|discriminate].
    intros [= <-] l [<-|Hin].
    + split; reflexivity.
    + apply (IH out' eq_refl l Hin).
Qed.



(** On the sample: Dublin has efficiency 120/300 = 2/5, Tokyo 90/450 = 1/5,
    so Dublin scores 0.5*0.4 + 0.5*0.3 + 1*0.3 = 13/20. *)
Example load_data_two_sites_scores :
  option_map (map (fun l => Qred (Sustainability_Score l)))
             (load_data (Some Samples.two_sites))
  = Some [13 # 20; 67 # 100].
Proof. vm_compute. reflexivity. Qed.

(** A location outside [LOCATION_COORDS] makes the whole load fail. *)
Example load_data_unknown_location :
  load_data (Some [AlertSpec.facility 100 50 1.5;
                   {| Cloud_Service_Provider := "AWS"; Location := "Paris";
                      Energy_Consumption := 1; Total_Emissions := 1;
                      Renewable_Energy_Usage := 1; AI_Workload := 1;
                      PUE := 1 |}]) = None.
Proof. reflexivity. Qed.

End SustainabilityScore.

(** ** [check_alerts] *)

Section Alerts.
Import Frame Dashboard AlertSpec.

Lemma emits_app (lv : string) (a b : list Alert) :
  emits lv (a ++ b) = emits lv a || emits lv b.
Proof. apply existsb_app. Qed.

Lemma emits_critical_alert (lv : string) (df : DataFrame) :
  emits lv (critical_alert df)
  = negb (is_empty (rows_above Total_Emissions (emissions_threshold df) df))
    && String.eqb "critical" lv.
Proof.
  unfold critical_alert.
  destruct (is_empty _); cbn [emits existsb level negb andb orb]; [reflexivity|].
  now rewrite orb_false_r.
Qed.

Lemma emits_warning_alert (lv : string) (df : DataFrame) :
  emits lv (warning_alert df)
  = negb (is_empty (rows_below Renewable_Energy_Usage 30 df))
    && String.eqb "warning" lv.
Proof.
  unfold warning_alert.
  destruct (is_empty _); cbn [emits existsb level negb andb orb]; [reflexivity|].
  now rewrite orb_false_r.
Qed.

Lemma emits_info_alert (lv : string) (df : DataFrame) :
  emits lv (info_alert df)
  = negb (is_empty (rows_above PUE 1.8 df)) && String.eqb "info" lv.
Proof.
  unfold info_alert.
  destruct (is_empty _); cbn [emits existsb level negb andb orb]; [reflexivity|].
  now rewrite orb_false_r.
Qed.

Lemma emits_check_alerts (lv : string) (df : DataFrame) :
  emits lv (check_alerts df)
  = (negb (is_empty (rows_above Total_Emissions (emissions_threshold df) df))
     && String.eqb "critical" lv)
    || (negb (is_empty (rows_below Renewable_Energy_Usage 30 df))
        && String.eqb "warning" lv)
    || (negb (is_empty (rows_above PUE 1.8 df)) && String.eqb "info" lv).
Proof.
  unfold check_alerts.
  rewrite !emits_app, emits_critical_alert, emits_warning_alert, emits_info_alert.
  now rewrite orb_assoc.
Qed.


Lemma warning_raised_iff (df : DataFrame) :
  emits "warning" (check_alerts df) = true
  <-> exists r, In r df /\ Renewable_Energy_Usage r < 30.
Proof.
  rewrite emits_check_alerts. cbn [String.eqb Ascii.eqb Bool.eqb andb].
  rewrite ?andb_false_r, ?orb_false_r, ?orb_false_l, ?andb_true_r, negb_true_iff.
  unfold rows_below. rewrite is_empty_filter_false.
  split; intros [r [Hin H]]; exists r; split; auto; now apply Qltb_lt.
Qed.

Lemma info_raised_iff (df : DataFrame) :
  emits "info" (check_alerts df) = true
  <-> exists r, In r df /\ 1.8 < PUE r.
Proof.
  rewrite emits_check_alerts. cbn [String.eqb Ascii.eqb Bool.eqb andb].
  rewrite ?andb_false_r, ?orb_false_r, ?orb_false_l, ?andb_true_r, negb_true_iff.
  unfold rows_above. rewrite is_empty_filter_false.
  split; intros [r [Hin H]]; exists r; split; auto; now apply Qltb_lt.
Qed.

End Alerts.

Section AlertClaims.
Import Frame Dashboard AlertSpec.

(** The i-th evaluation is [check_alerts] of the i-th frame alone. *)
Lemma evaluations_nth (runs : list DataFrame) (i : nat) (df : DataFrame) :
  nth_error runs i = Some df ->
  nth_error (evaluations runs) i = Some (check_alerts df).
Proof.
  intros H. unfold evaluations. now rewrite nth_error_map, H.
Qed.

(** One facility above PUE 1.8, evaluated twice in a row: the second
    evaluation raises the alert again, so evaluation is not
    edge-triggered. *)
Lemma C3_counterexample :
  ~ edge_triggered "info" [[facility 100 50 1.9]; [facility 100 50 1.9]].
Proof.
  intros H.
  specialize (H 0%nat (check_alerts [facility 100 50 1.9])
                (check_alerts [facility 100 50 1.9]) eq_refl eq_refl eq_refl).
  vm_compute in H. discriminate H.
Qed.

(** C3 (amended).  Alert evaluation is level-triggered and keeps no
    state: in any sequence of evaluations, the alerts of an evaluation
    are those of its own frame, whatever the earlier frames were.  So
    an alert that is raised is raised again at the next evaluation
    when the data are unchanged; and the alerts of the two rules with a
    fixed bound are raised at every evaluation in which some facility
    is beyond the bound (renewable usage below 30, PUE above 1.8) and
    at no other. *)
Theorem C3_alerts_level_triggered :
  forall (runs : list DataFrame) (i : nat) (df : DataFrame),
    nth_error runs i = Some df ->
    nth_error (evaluations runs) i = Some (check_alerts df)
    /\ (forall lv,
          emits lv (check_alerts df) = true ->
          nth_error runs (S i) = Some df ->
          exists again,
            nth_error (evaluations runs) (S i) = Some again
            /\ emits lv again = true)
    /\ (emits "warning" (check_alerts df) = true
        <-> exists r, In r df /\ Renewable_Energy_Usage r < 30)
    /\ (emits "info" (check_alerts df) = true
        <-> exists r, In r df /\ 1.8 < PUE r).
Proof.
  intros runs i df H.
  split; [now apply evaluations_nth|].
  split.
  - intros lv Hlv Hnext. exists (check_alerts df).
    split; [now apply evaluations_nth|exact Hlv].
  - split; [apply warning_raised_iff|apply info_raised_iff].
Qed.

Lemma C3_alerts_level_triggered_witness :
  exists again,
    nth_error (evaluations [[facility 100 50 1.9]; [facility 100 50 1.9]]) 1
    = Some again
    /\ emits "info" again = true.
Proof.
  destruct (C3_alerts_level_triggered
              [[facility 100 50 1.9]; [facility 100 50 1.9]] 0
              [facility 100 50 1.9] eq_refl) as (_ & Hagain & _ & _).
  apply (Hagain "info"); reflexivity.
Defined.

Lemma not_raised_iff (b : bool) (df : DataFrame) (P : Row -> Prop) (R : Row -> Prop) :
  (b = true <-> exists r, In r df /\ P r) ->
  (forall r, R r <-> ~ P r) ->
  (b = false <-> forall r, In r df -> R r).
Proof.
  intros Hb HR. split.
  - intros E r Hin. apply HR. intros HP.
    assert (b = true) by (apply Hb; eauto). congruence.
  - intros Hall. destruct b; [|reflexivity].
    destruct (proj1 Hb eq_refl) as [r [Hin HP]].
    exfalso. apply (proj1 (HR r) (Hall r Hin) HP).
Qed.

(** A facility whose PUE is exactly 1.8 does not raise the PUE rule. *)
Lemma C4_counterexample : ~ inclusive_threshold [facility 100 50 1.8].
Proof.
  intros H.
  assert (E : emits "info" (check_alerts [facility 100 50 1.8]) = true).
  { apply H. exists (facility 100 50 1.8). split; [now left|reflexivity]. }
  vm_compute in E. discriminate E.
Qed.

(** C4 (amended).  Threshold comparison is strict and keeps no
    state.  For the two rules with a fixed bound, the alert is not
    raised in an evaluation exactly when every facility of the frame
    under evaluation is at or within the bound, a value equal to the
    bound included: PUE at most 1.8, renewable usage at least 30. *)
Theorem C4_threshold_comparison_strict :
  forall df : DataFrame,
    (emits "info" (check_alerts df) = false
     <-> forall r, In r df -> PUE r <= 1.8)
    /\ (emits "warning" (check_alerts df) = false
        <-> forall r, In r df -> 30 <= Renewable_Energy_Usage r).
Proof.
  intros df. split.
  - apply (not_raised_iff _ df _ _ (info_raised_iff df)).
    intros r. split; [apply Qle_not_lt|apply Qnot_lt_le].
  - apply (not_raised_iff _ df _ _ (warning_raised_iff df)).
    intros r. split; [apply Qle_not_lt|apply Qnot_lt_le].
Qed.

Lemma C4_threshold_comparison_strict_witness :
  emits "info" (check_alerts [facility 100 50 1.8]) = false.
Proof.
  apply (proj1 (C4_threshold_comparison_strict [facility 100 50 1.8])).
  intros r [<-|[]]. apply Qle_refl.
Defined.

(** The emissions rule on whole numbers, where the product is exact:
    with the mean at 700 the bound is 1050; at the bound nothing is
    raised, above it the critical alert is. *)
Example critical_at_bound :
  check_alerts [facility 1050 50 1.5; facility 350 50 1.5] = [].
Proof. vm_compute. reflexivity. Qed.

Example critical_above_bound :
  map level (check_alerts [facility 1060 50 1.5; facility 340 50 1.5])
  = ["critical"].
Proof. vm_compute. reflexivity. Qed.

Example critical_alert_text :
  check_alerts [facility 5000 50 1.5; facility 1000 50 1.5; facility 0 50 1.5]
  = [ {| level := "critical";
         message := "⚠️ 1 facilities exceed emissions threshold";
         details := "Average excess: 2,000 kg CO₂e" |} ].
Proof. vm_compute. reflexivity. Qed.

End AlertClaims.

(** ** [groupby]: the one-pass grouping and the selection by key agree *)

Section GroupBy.
Import Frame.
Context {R : Type}.

Lemma lt_neqb (a b : string) : String_as_OT.lt a b -> String.eqb a b = false.
Proof.
  intros H. apply String.eqb_neq. intros ->.
  exact (StrictOrder_Irreflexive b H).
Qed.

Lemma get_group_above (k : string) (m : list (string * list R)) :
  Forall (key_above k) m -> get_group k m = None.
Proof.
  induction 1 as [|[k' g] m Hk _ IH]; simpl; [reflexivity|].
  unfold key_above in Hk; simpl in Hk. now rewrite (lt_neqb _ _ Hk).
Qed.

Lemma upsert_keys (P : string -> Prop) (k : string) (r : R)
      (m : list (string * list R)) :
  P k -> Forall (fun p => P (fst p)) m ->
  Forall (fun p => P (fst p)) (upsert k r m).
Proof.
  intros Hk. induction 1 as [|[k' g] m Hk' Hm IH]; simpl.
  - constructor; [exact Hk|constructor].
  - destruct (String_as_OT.compare k k'); constructor; simpl; auto.
Qed.

Lemma upsert_sorted (k : string) (r : R) (m : list (string * list R)) :
  StronglySorted key_order m -> StronglySorted key_order (upsert k r m).
Proof.
  induction 1 as [|[k' g] m Hs IH Hall]; simpl.
  - constructor; constructor.
  - destruct (String_as_OT.compare_spec k k') as [Heq|Hlt|Hgt].
    + constructor; [exact Hs|exact Hall].
    + constructor; [constructor; assumption|].
      constructor; [exact Hlt|].
      eapply Forall_impl; [|exact Hall].
      intros [k2 g2] H2. unfold key_order in *; simpl in *.
      now transitivity k'.
    + constructor; [exact IH|].
      apply (upsert_keys (fun x => String_as_OT.lt k' x)); assumption.
Qed.

Lemma get_group_upsert_same (k : string) (r : R) (m : list (string * list R)) :
  StronglySorted key_order m ->
  get_group k (upsert k r m)
  = Some (match get_group k m with Some g => g ++ [r] | None => [r] end).
Proof.
  induction 1 as [|[k' g] m Hs IH Hall]; simpl.
  - now rewrite String.eqb_refl.
  - destruct (String_as_OT.compare_spec k k') as [Heq|Hlt|Hgt]; simpl.
    + change (k = k') in Heq. subst k'. now rewrite String.eqb_refl.
    + rewrite String.eqb_refl, (lt_neqb _ _ Hlt).
      rewrite get_group_above; [reflexivity|].
      eapply Forall_impl; [|exact Hall].
      intros [k2 g2] H2. unfold key_order, key_above in *; simpl in *.
      now transitivity k'.
    + assert (E : String.eqb k k' = false).
      { rewrite String.eqb_sym. now apply lt_neqb. }
      rewrite E. exact IH.
Qed.

Lemma get_group_upsert_other (k k' : string) (r : R) (m : list (string * list R)) :
  k <> k' -> get_group k' (upsert k r m) = get_group k' m.
Proof.
  intros Hne. induction m as [|[k2 g] m IH]; simpl.
  - apply String.eqb_neq in Hne. rewrite String.eqb_sym in Hne. now rewrite Hne.
  - destruct (String_as_OT.compare_spec k k2) as [Heq|Hlt|Hgt]; simpl.
    + change (k = k2) in Heq. subst k2.
      assert (E : String.eqb k' k = false).
      { apply String.eqb_neq. congruence. }
      now rewrite E.
    + assert (E : String.eqb k' k = false).
      { apply String.eqb_neq. congruence. }
      now rewrite E.
    + now rewrite IH.
Qed.

Lemma groupby_from (key : R -> string) (df : list R) (k : string) :
  forall m, StronglySorted key_order m ->
    get_group k (fold_left (fun m r => upsert (key r) r m) df m)
    = extended (get_group k m) (select_eq key k df).
Proof.
  induction df as [|r df IH]; intros m Hm; simpl.
  - unfold extended. destruct (get_group k m); [now rewrite app_nil_r|reflexivity].
  - rewrite IH by (now apply upsert_sorted).
    destruct (String.eqb_spec (key r) k) as [Heq|Hne].
    + subst k. rewrite get_group_upsert_same by assumption.
      destruct (get_group (key r) m); simpl; [now rewrite <- app_assoc|reflexivity].
    + now rewrite get_group_upsert_other.
Qed.

(** The group [groupby] holds for a key is the selection of the rows
    with that key from the full record set, in their order; keys that
    do not occur have no group. *)
Lemma get_group_groupby (key : R -> string) (df : list R) (k : string) :
  get_group k (groupby key df)
  = match select_eq key k df with [] => None | g => Some g end.
Proof.
  unfold groupby. rewrite groupby_from by constructor.
  simpl. now destruct (select_eq key k df).
Qed.

Lemma groupby_sorted (key : R -> string) (df : list R) :
  StronglySorted key_order (groupby key df).
Proof.
  unfold groupby.
  assert (H : forall m, StronglySorted key_order m ->
              StronglySorted key_order
                (fold_left (fun m r => upsert (key r) r m) df m)).
  { induction df as [|r df IH]; intros m Hm; simpl; [exact Hm|].
    apply IH, upsert_sorted, Hm. }
  apply H. constructor.
Qed.

(** every group listed by [groupby] is the one [get_group] finds *)
Lemma sorted_In_get_group (m : list (string * list R)) (k : string) (g : list R) :
  StronglySorted key_order m -> In (k, g) m -> get_group k m = Some g.
Proof.
  induction 1 as [|[k' g'] m Hs IH Hall]; simpl; [contradiction|].
  intros [[= -> ->]|Hin].
  - now rewrite String.eqb_refl.
  - rewrite Forall_forall in Hall. specialize (Hall _ Hin).
    unfold key_order in Hall; simpl in Hall.
    assert (E : String.eqb k k' = false).
    { rewrite String.eqb_sym. now apply lt_neqb. }
    rewrite E. now apply IH.
Qed.

Lemma In_groupby (key : R -> string) (df : list R) (k : string) (g : list R) :
  In (k, g) (groupby key df) -> g = select_eq key k df /\ g <> [].
Proof.
  intros Hin.
  pose proof (sorted_In_get_group _ _ _ (groupby_sorted key df) Hin) as E.
  rewrite get_group_groupby in E.
  destruct (select_eq key k df) as [|x sel]; [discriminate|].
  injection E as <-. split; [reflexivity|discriminate].
Qed.

End GroupBy.

(** ** Sums and means *)

Section Sums.
Import Frame AggregateSpec.

Lemma fold_left_Qplus (xs : list Q) (a : Q) :
  fold_left Qplus xs a == a + fold_right Qplus 0 xs.
Proof.
  revert a. induction xs as [|x xs IH]; intros a; simpl.
  - ring.
  - rewrite IH. ring.
Qed.

(** adding up left to right gives the sum *)
Lemma sum_fold_right (xs : list Q) : sum xs == fold_right Qplus 0 xs.
Proof. unfold sum. rewrite fold_left_Qplus. ring. Qed.

Lemma filter_perm {A : Type} (f : A -> bool) (l l' : list A) :
  Permutation l l' -> Permutation (filter f l) (filter f l').
Proof.
  induction 1 as [|x l l' _ IH|x y l|l l' l'' _ IH1 _ IH2]; simpl.
  - constructor.
  - destruct (f x); [now constructor|exact IH].
  - destruct (f x), (f y); try reflexivity. constructor.
  - now transitivity (filter f l').
Qed.

(** the aggregates of a group found by [groupby] *)
Lemma agg_sum_select {R : Type} (key : R -> string) (c : R -> Q)
      (k : string) (df : list R) :
  agg_sum c (select_eq key k df) == recomputed_sum key c k df.
Proof. unfold agg_sum, recomputed_sum, select_eq. apply sum_fold_right. Qed.

Lemma agg_mean_select {R : Type} (key : R -> string) (c : R -> Q)
      (k : string) (df : list R) :
  agg_mean c (select_eq key k df) == recomputed_mean key c k df.
Proof.
  unfold agg_mean, mean, recomputed_mean, recomputed_count.
  rewrite length_map.
  change (filter (fun r => String.eqb (key r) k) df) with (select_eq key k df).
  now rewrite (agg_sum_select key c k df : sum _ == _).
Qed.

End Sums.

(** ** The uploads of [supabase_manager.py] *)

Section Uploads.
Import Py Frame Remote Supabase AggregateSpec.
Context {R : Type}.
Variable set_uploaded_at : string -> R -> R.

(** reading the clock and printing leave the tables and the
    reachability of the project alone *)
Lemma stamp_uploaded_at_spec (records : list R) (w : World R) :
  Forall2 (fun r r' => exists t, r' = set_uploaded_at t r)
          records (fst (stamp_uploaded_at set_uploaded_at records w))
  /\ tables (snd (stamp_uploaded_at set_uploaded_at records w)) = tables w
  /\ outage (snd (stamp_uploaded_at set_uploaded_at records w)) = outage w.
Proof.
  revert w. induction records as [|r rest IH]; intros w; simpl.
  - repeat split. constructor.
  - specialize (IH (snd (now w))). simpl in IH. revert IH.
    destruct (stamp_uploaded_at set_uploaded_at rest _) as [rest' w2].
    simpl. intros (H1 & H2 & H3). repeat split; auto.
    constructor; [eauto|exact H1].
Qed.

Lemma stamp_calculated_at_spec {A B : Type} (mk : A -> string -> B)
      (groups : list A) (w : World R) :
  Forall2 (fun g b => exists t, b = mk g t)
          groups (fst (stamp_calculated_at mk groups w))
  /\ tables (snd (stamp_calculated_at mk groups w)) = tables w
  /\ outage (snd (stamp_calculated_at mk groups w)) = outage w.
Proof.
  revert w. induction groups as [|g rest IH]; intros w; simpl.
  - repeat split. constructor.
  - specialize (IH (snd (now w))). simpl in IH. revert IH.
    destruct (stamp_calculated_at mk rest _) as [rest' w2].
    simpl. intros (H1 & H2 & H3). repeat split; auto.
    constructor; [eauto|exact H1].
Qed.

(** [upload_emissions_data] appends every record it is given, stamped,
    whenever the project is reachable: nothing is compared with the
    rows already stored. *)
Lemma upload_emissions_data_appends (data : list R) (w : World R) :
  outage w = None ->
  exists stamped,
    Forall2 (fun r r' => exists t, r' = set_uploaded_at t r) data stamped
    /\ fst (upload_emissions_data set_uploaded_at data w) = Some stamped
    /\ cloud_emissions (tables (snd (upload_emissions_data set_uploaded_at data w)))
       = cloud_emissions (tables w) ++ stamped.
Proof.
  intros Hup. unfold upload_emissions_data.
  destruct (stamp_uploaded_at_spec data w) as (H1 & H2 & H3).
  destruct (stamp_uploaded_at set_uploaded_at data w) as [records w1].
  simpl in *. unfold insert_cloud_emissions. rewrite H3, Hup. simpl.
  exists records. rewrite H2. auto.
Qed.

Lemma Forall2_In_r {A B : Type} (P : A -> B -> Prop) (l : list A) (l' : list B) (b : B) :
  Forall2 P l l' -> In b l' -> exists a, In a l /\ P a b.
Proof.
  induction 1 as [|a b' l l' Hab _ IH]; simpl; [contradiction|].
  intros [<-|Hin].
  - exists a. auto.
  - destruct (IH Hin) as [a' [Ha' HP]]. exists a'. auto.
Qed.

(** The rows [upload_provider_metrics] writes: one per provider of the
    data, appended to the table. *)
Lemma upload_provider_metrics_rows (data : DataFrame) (w : World R)
      (recs : list ProviderMetric) :
  fst (upload_provider_metrics data w) = Some recs ->
  provider_metrics (tables (snd (upload_provider_metrics data w)))
  = provider_metrics (tables w) ++ recs
  /\ forall pm, In pm recs ->
       exists t,
         pm = provider_metric
                (pm_provider pm,
                 select_eq Cloud_Service_Provider (pm_provider pm) data) t
         /\ select_eq Cloud_Service_Provider (pm_provider pm) data <> [].
Proof.
  unfold upload_provider_metrics.
  destruct (stamp_calculated_at_spec provider_metric
              (groupby Cloud_Service_Provider data) w) as (H1 & H2 & H3).
  destruct (stamp_calculated_at provider_metric
              (groupby Cloud_Service_Provider data) w) as [records w1].
  simpl in H1, H2, H3. unfold insert_provider_metrics. rewrite H3.
  destruct (outage w); simpl; [discriminate|].
  intros [= <-]. rewrite H2. split; [reflexivity|].
  intros pm Hin.
  destruct (Forall2_In_r _ _ _ _ H1 Hin) as [[k g] [Hkg [t ->]]].
  destruct (In_groupby _ _ _ _ Hkg) as [-> Hne].
  exists t. simpl. auto.
Qed.

Lemma upload_location_metrics_rows (data : DataFrame) (w : World R)
      (recs : list LocationMetric) :
  fst (upload_location_metrics data w) = Some recs ->
  location_metrics (tables (snd (upload_location_metrics data w)))
  = location_metrics (tables w) ++ recs
  /\ forall lm, In lm recs ->
       exists t,
         lm = location_metric
                (lm_location lm, select_eq Location (lm_location lm) data) t
         /\ select_eq Location (lm_location lm) data <> [].
Proof.
  unfold upload_location_metrics.
  destruct (stamp_calculated_at_spec location_metric
              (groupby Location data) w) as (H1 & H2 & H3).
  destruct (stamp_calculated_at location_metric
              (groupby Location data) w) as [records w1].
  simpl in H1, H2, H3. unfold insert_location_metrics. rewrite H3.
  destruct (outage w); simpl; [discriminate|].
  intros [= <-]. rewrite H2. split; [reflexivity|].
  intros lm Hin.
  destruct (Forall2_In_r _ _ _ _ H1 Hin) as [[k g] [Hkg [t ->]]].
  destruct (In_groupby _ _ _ _ Hkg) as [-> Hne].
  exists t. simpl. auto.
Qed.

End Uploads.

(** ** The monitor of [realtime_monitor.py] *)

Section MonitorFacts.
Import Py Frame Remote Monitor AggregateSpec IngestSpec.
Context {R : Type}.
Variable cloud_service_provider : R -> string.
Variable total_emissions : R -> Q.

Lemma series_get_map (f : list R -> Q) (k : string) (m : list (string * list R)) :
  series_get k (map (fun kg => (fst kg, f (snd kg))) m)
  = option_map f (get_group k m).
Proof.
  induction m as [|[k' g] m IH]; simpl; [reflexivity|].
  destruct (String.eqb k k'); [reflexivity|exact IH].
Qed.

(** The sum of a provider is the sum over the rows of that provider in
    the full frame, in frame order; providers without rows have no
    entry. *)
Lemma sum_by_provider_spec (df : list R) (k : string) :
  series_get k (sum_by_provider cloud_service_provider total_emissions df)
  = match select_eq cloud_service_provider k df with
    | [] => None
    | g => Some (agg_sum total_emissions g)
    end.
Proof.
  unfold sum_by_provider. rewrite series_get_map, get_group_groupby.
  now destruct (select_eq cloud_service_provider k df).
Qed.

End MonitorFacts.

Section MonitorPanel.
Import Py Frame Remote Monitor AggregateSpec IngestSpec MonitorSpec.
Context {R : Type}.
Variable provider : R -> option string.
Variable emissions : R -> option Q.

(** the rows [groupby] puts under a provider are the records that name
    it, in table order *)
Lemma keyed_select (k : string) (df : list R) :
  select_eq fst k (keyed provider emissions df)
  = map (fun r => (k, emissions r)) (records_of provider k df).
Proof.
  unfold select_eq, keyed, records_of.
  induction df as [|r df IH]; [reflexivity|].
  cbn [flat_map filter]. destruct (provider r) as [k'|].
  - cbn [app filter fst]. destruct (String.eqb_spec k' k) as [->|Hne].
    + cbn [map]. now rewrite IH.
    + exact IH.
  - exact IH.
Qed.

(** The entry of a provider on the panel is the sum over the stored
    records that name the provider; a provider no record names has no
    entry. *)
Lemma panel_entry (k : string) (df : list R) :
  match records_of provider k df with
  | [] =>
      series_get k (sum_by_provider fst (fun p => present (snd p))
                      (keyed provider emissions df)) = None
  | g =>
      exists x,
        series_get k (sum_by_provider fst (fun p => present (snd p))
                        (keyed provider emissions df)) = Some x
        /\ x == emissions_sum emissions g
  end.
Proof.
  rewrite sum_by_provider_spec, keyed_select.
  destruct (records_of provider k df) as [|r g]; [reflexivity|].
  exists (agg_sum (fun p => present (snd p))
            (map (fun r => (k, emissions r)) (r :: g))).
  split; [reflexivity|].
  unfold agg_sum. rewrite map_map.
  unfold emissions_sum, present. reflexivity.
Qed.

(** A notification changes no table.  When it gets as far as
    [update_visualizations] the panel shows the aggregate of the stored
    table; when a lookup fails before that, the panel is left as it
    is. *)
Lemma handle_broadcast_spec (payload : Payload R) (s : State R) :
  tables (world (handle_broadcast provider emissions payload s))
  = tables (world s)
  /\ outage (world (handle_broadcast provider emissions payload s))
     = outage (world s)
  /\ provider_emissions (handle_broadcast provider emissions payload s)
     = if reaches_update provider emissions payload
       then shown_for provider emissions (world s)
       else provider_emissions s.
Proof.
  unfold handle_broadcast, reaches_update, shown_for.
  destruct (new payload) as [new_data|]; [|repeat split].
  cbn [now].
  destruct (provider new_data) as [k|]; [|repeat split].
  destruct (emissions new_data) as [x|]; [|repeat split].
  unfold update_visualizations, select_cloud_emissions.
  cbn [world printing print outage tables].
  destruct (outage (world s)) as [e|]; [repeat split|].
  destruct (has_column provider (cloud_emissions (tables (world s))));
    cbn [negb andb]; [|repeat split].
  destruct (has_column emissions (cloud_emissions (tables (world s))));
    cbn [negb]; repeat split.
Qed.

Lemma shown_for_same (w w' : World R) :
  tables w' = tables w -> outage w' = outage w ->
  shown_for provider emissions w' = shown_for provider emissions w.
Proof.
  intros Ht Ho. unfold shown_for, select_cloud_emissions. now rewrite Ht, Ho.
Qed.

(** handling a notification a second time changes nothing the first
    time has not already done to the tables and the panel *)
Lemma handle_broadcast_twice (payload : Payload R) (s : State R) :
  aggregate_state
    (handle_broadcast provider emissions payload
       (handle_broadcast provider emissions payload s))
  = aggregate_state (handle_broadcast provider emissions payload s).
Proof.
  unfold aggregate_state.
  destruct (handle_broadcast_spec payload s) as (Ht & Ho & Hp).
  destruct (handle_broadcast_spec payload
              (handle_broadcast provider emissions payload s))
    as (Ht' & Ho' & Hp').
  rewrite Ht', Hp', Hp. f_equal.
  destruct (reaches_update provider emissions payload); [|reflexivity].
  now apply shown_for_same.
Qed.

End MonitorPanel.

Section RoundingFacts.
Import Frame.

Lemma round_half_even_close (q : Q) :
  Qabs (inject_Z (round_half_even q) - q) <= 1 # 2.
Proof.
  unfold round_half_even.
  pose proof (Qfloor_le q) as Hlo. pose proof (Qlt_floor q) as Hhi.
  rewrite inject_Z_plus in Hhi. change (inject_Z 1) with 1 in Hhi.
  apply Qabs_Qle_condition.
  destruct (Qcompare (q - inject_Z (Qfloor q)) (1 # 2)) eqn:E.
  - apply Qeq_alt in E.
    destruct (Z.even (Qfloor q));
      [|rewrite inject_Z_plus; change (inject_Z 1) with 1];
      set (f := inject_Z (Qfloor q)) in *; split; lra.
  - apply Qlt_alt in E. set (f := inject_Z (Qfloor q)) in *. split; lra.
  - apply Qgt_alt in E. rewrite inject_Z_plus. change (inject_Z 1) with 1.
    set (f := inject_Z (Qfloor q)) in *. split; lra.
Qed.

(** [round(2)] moves a number by at most half a hundredth. *)
Lemma round2_close (x : Q) : Qabs (round2 x - x) <= 1 # 200.
Proof.
  unfold round2.
  pose proof (round_half_even_close (x * 100)) as H.
  apply Qabs_Qle_condition in H. apply Qabs_Qle_condition.
  set (r := inject_Z (round_half_even (x * 100))) in *.
  assert (E : r == (r / 100) * 100) by (field; discriminate).
  set (y := r / 100) in *. split; lra.
Qed.

Lemma close_to (x y z : Q) : x == round2 y -> y == z -> Qabs (x - z) <= 1 # 200.
Proof. intros -> <-. apply round2_close. Qed.

(** a stored value and the number it was rounded from agree to the two
    decimals that are stored *)
Lemma same_to_two_decimals (x y z : Q) :
  x == round2 y -> y == z -> Qabs (x - z) < 1 # 100.
Proof.
  intros Hx Hy. apply Qle_lt_trans with (1 # 200).
  - now apply (close_to x y z).
  - reflexivity.
Qed.

End RoundingFacts.

(** ** Aggregation and ingestion *)

Section KeyedStore.
Import Py Frame Remote Supabase Monitor AggregateSpec IngestSpec MonitorSpec.
Context {R K : Type}.
Variable set_uploaded_at : string -> R -> R.
Variable provider : R -> option string.
Variable emissions : R -> option Q.
Variable composite_key : R -> K.
Variable key_eqb : K -> K -> bool.
(** a key equals itself, and the stamp is no part of the key *)
Hypothesis key_eqb_refl : forall k, key_eqb k k = true.
Hypothesis key_of_stamped :
  forall t r, composite_key (set_uploaded_at t r) = composite_key r.

Let apply := apply_record set_uploaded_at provider emissions composite_key key_eqb.
Let stored (s : State R) := cloud_emissions (tables (world s)).

Lemma known_app (k : K) (rows rows' : list R) :
  known composite_key key_eqb k (rows ++ rows')
  = known composite_key key_eqb k rows || known composite_key key_eqb k rows'.
Proof. apply existsb_app. Qed.

(** the upload of one record: refused when the project cannot be
    reached or the key is stored already, appended otherwise *)
Lemma upload_unique_single (r : R) (w : World R) :
  let r' := set_uploaded_at (clock w (reads w)) r in
  let run := upload_unique set_uploaded_at composite_key key_eqb [r] w in
  outage (snd run) = outage w
  /\ match outage w with
     | Some _ => fst run = None /\ tables (snd run) = tables w
     | None =>
         if known composite_key key_eqb (composite_key r) (cloud_emissions (tables w))
         then fst run = None /\ tables (snd run) = tables w
         else fst run = Some [r']
              /\ cloud_emissions (tables (snd run))
                 = cloud_emissions (tables w) ++ [r']
     end.
Proof.
  cbv zeta. unfold upload_unique. cbn [stamp_uploaded_at now].
  unfold insert_unique. cbn [outage tables].
  destruct (outage w) as [e|]; [repeat split|].
  cbn [store_batch]. rewrite key_of_stamped.
  destruct (known composite_key key_eqb (composite_key r) (cloud_emissions (tables w)));
    cbn; repeat split.
  now destruct (tables w).
Qed.

Lemma apply_outage (r : R) (s : State R) :
  outage (world (apply r s)) = outage (world s).
Proof.
  unfold apply, apply_record.
  destruct (upload_unique_single r (world s)) as [Ho _]. cbv zeta in Ho.
  destruct (upload_unique set_uploaded_at composite_key key_eqb [r] (world s))
    as [[[|inserted [|x l]]|] w]; cbn [snd] in Ho; try exact Ho.
  destruct (handle_broadcast_spec provider emissions {| new := Some inserted |}
              {| world := w; provider_emissions := provider_emissions s |})
    as (_ & Ho' & _).
  now rewrite Ho'.
Qed.

(** a record that is refused changes neither the tables nor the panel *)
Lemma apply_refused (r : R) (s : State R) :
  outage (world s) <> None
  \/ known composite_key key_eqb (composite_key r) (stored s) = true ->
  aggregate_state (apply r s) = aggregate_state s.
Proof.
  intros Href. unfold apply, apply_record, aggregate_state.
  destruct (upload_unique_single r (world s)) as [_ Hrun]. cbv zeta in Hrun.
  destruct (outage (world s)) as [e|].
  - destruct Hrun as [Hf Ht].
    destruct (upload_unique set_uploaded_at composite_key key_eqb [r] (world s))
      as [res w]. cbn [fst snd] in Hf, Ht. subst res. cbn. now rewrite Ht.
  - destruct Href as [Hne|Hk]; [contradiction Hne; reflexivity|].
    unfold stored in Hk. rewrite Hk in Hrun. destruct Hrun as [Hf Ht].
    destruct (upload_unique set_uploaded_at composite_key key_eqb [r] (world s))
      as [res w]. cbn [fst snd] in Hf, Ht. subst res. cbn. now rewrite Ht.
Qed.

(** once a record has been applied, its key is stored, unless the
    project cannot be reached *)
Lemma apply_stores_key (r : R) (s : State R) :
  outage (world (apply r s)) <> None
  \/ known composite_key key_eqb (composite_key r) (stored (apply r s)) = true.
Proof.
  rewrite apply_outage.
  destruct (outage (world s)) as [e|] eqn:Eo; [left; discriminate|right].
  destruct (known composite_key key_eqb (composite_key r) (stored s)) eqn:Ek.
  - assert (H : aggregate_state (apply r s) = aggregate_state s)
      by (apply apply_refused; now right).
    unfold aggregate_state in H. unfold stored.
    assert (Ht : tables (world (apply r s)) = tables (world s)) by congruence.
    rewrite Ht. exact Ek.
  - unfold apply, apply_record, stored.
    destruct (upload_unique_single r (world s)) as [_ Hrun]. cbv zeta in Hrun.
    unfold stored in Ek. rewrite Eo, Ek in Hrun. destruct Hrun as [Hf Ht].
    destruct (upload_unique set_uploaded_at composite_key key_eqb [r] (world s))
      as [res w]. cbn [fst snd] in Hf, Ht. subst res.
    destruct (handle_broadcast_spec provider emissions
                {| new := Some (set_uploaded_at
                                  (clock (world s) (reads (world s))) r) |}
                {| world := w; provider_emissions := provider_emissions s |})
      as (Ht' & _ & _).
    rewrite Ht'. cbn [world]. rewrite Ht, known_app.
    cbn [known existsb]. rewrite key_of_stamped, key_eqb_refl.
    now rewrite orb_true_r.
Qed.

Lemma apply_twice (r : R) (s : State R) :
  aggregate_state (apply r (apply r s)) = aggregate_state (apply r s).
Proof. apply apply_refused, apply_stores_key. Qed.

End KeyedStore.

Section AggregationClaims.
Import Py Frame Remote Supabase Monitor AggregateSpec IngestSpec MonitorSpec.

Ltac not_reported :=
  unfold reports; simpl;
  intros [H|[H|[H|[H|H]]]]; vm_compute in H; discriminate H.

(** The provider row written for the scenario carries the sum 300 and
    four other numbers; neither the count 2 nor the mean 150 of the
    emissions is among them. *)
Lemma C1_counterexample :
  exists pm,
    fst (upload_provider_metrics (R := Samples.Reading)
           [Samples.a_100; Samples.a_200] (fresh Samples.tick)) = Some [pm]
    /\ pm_provider pm = "A"
    /\ reports pm 300
    /\ ~ reports pm 2
    /\ ~ reports pm 150.
Proof.
  eexists. split; [vm_compute; reflexivity|].
  split; [reflexivity|].
  split; [left; vm_compute; reflexivity|].
  split; not_reported.
Qed.

(** C1 (amended).  The per-provider aggregate the system produces is
    the sum of the emissions, recomputed from the full record set.  For
    every stored table whose records carry the two columns, once the
    monitor has handled a notification its panel has, for each
    provider, the sum over the stored records that name the provider,
    and no entry for a provider no record names.  The row written to
    [provider_metrics] for a provider holds that sum, and the row
    written to [location_metrics] the mean of the emissions of the
    location, sum/count over its records, each to the two decimals that
    are stored (the difference is below 0.01).  After the two records (A, X, 100) and
    (A, X, 200) the entry of provider A is 300 and the stored mean of
    location X is 150.  No count and no mean of the emissions is
    reported per provider. *)
Theorem C1_aggregates_match_recomputation :
  (forall (R : Type) (provider : R -> option string) (emissions : R -> option Q)
          (payload : Payload R) (s : State R),
      outage (world s) = None ->
      reaches_update provider emissions payload = true ->
      has_column provider (cloud_emissions (tables (world s))) = true ->
      has_column emissions (cloud_emissions (tables (world s))) = true ->
      exists panel,
        provider_emissions (handle_broadcast provider emissions payload s)
        = Some panel
        /\ forall k,
             match records_of provider k (cloud_emissions (tables (world s))) with
             | [] => series_get k panel = None
             | g => exists x,
                      series_get k panel = Some x
                      /\ x == emissions_sum emissions g
             end)
  /\ (forall (R : Type) (data : DataFrame) (w : World R) recs pm,
         fst (upload_provider_metrics data w) = Some recs -> In pm recs ->
         recomputed_count Cloud_Service_Provider (pm_provider pm) data <> 0%nat
         /\ Qabs (pm_total_emissions pm
                  - recomputed_sum Cloud_Service_Provider Total_Emissions
                      (pm_provider pm) data) < 1 # 100)
  /\ (forall (R : Type) (data : DataFrame) (w : World R) recs lm,
         fst (upload_location_metrics data w) = Some recs -> In lm recs ->
         recomputed_count Location (lm_location lm) data <> 0%nat
         /\ Qabs (lm_total_emissions lm
                  - recomputed_mean Location Total_Emissions
                      (lm_location lm) data) < 1 # 100)
  /\ displayed Samples.applied_both = Some [("A", 300)]
  /\ option_map (map (fun lm => (lm_location lm, Qred (lm_total_emissions lm))))
       (fst (upload_location_metrics (R := Samples.Reading)
               [Samples.a_100; Samples.a_200] (fresh Samples.tick)))
     = Some [("X", 150)]
  /\ (forall pm,
        fst (upload_provider_metrics (R := Samples.Reading)
               [Samples.a_100; Samples.a_200] (fresh Samples.tick)) = Some [pm] ->
        pm_provider pm = "A"
        /\ reports pm 300 /\ ~ reports pm 2 /\ ~ reports pm 150).
Proof.
  split; [|split; [|split; [|split; [|split]]]].
  - intros R provider emissions payload s Hup Hreach Hp He.
    destruct (handle_broadcast_spec provider emissions payload s) as (_ & _ & Hpanel).
    rewrite Hreach in Hpanel. unfold shown_for, select_cloud_emissions in Hpanel.
    rewrite Hup, Hp, He in Hpanel. cbn [andb] in Hpanel.
    eexists. split; [exact Hpanel|].
    intros k. apply panel_entry.
  - intros R data w recs pm Hup Hin.
    destruct (upload_provider_metrics_rows data w recs Hup) as [_ Hrows].
    destruct (Hrows pm Hin) as [t [Hpm Hne]]. split.
    + unfold recomputed_count.
      change (filter (fun r => String.eqb (Cloud_Service_Provider r) (pm_provider pm)) data)
        with (select_eq Cloud_Service_Provider (pm_provider pm) data).
      destruct (select_eq Cloud_Service_Provider (pm_provider pm) data);
        [contradiction Hne; reflexivity|discriminate].
    + eapply same_to_two_decimals; [rewrite Hpm at 1; reflexivity|apply agg_sum_select].
  - intros R data w recs lm Hup Hin.
    destruct (upload_location_metrics_rows data w recs Hup) as [_ Hrows].
    destruct (Hrows lm Hin) as [t [Hlm Hne]]. split.
    + unfold recomputed_count.
      change (filter (fun r => String.eqb (Location r) (lm_location lm)) data)
        with (select_eq Location (lm_location lm) data).
      destruct (select_eq Location (lm_location lm) data);
        [contradiction Hne; reflexivity|discriminate].
    + eapply same_to_two_decimals; [rewrite Hlm at 1; reflexivity|apply agg_mean_select].
  - vm_compute. reflexivity.
  - vm_compute. reflexivity.
  - intros pm Hpm. vm_compute in Hpm. injection Hpm as <-.
    split; [reflexivity|].
    split; [left; vm_compute; reflexivity|].
    split; not_reported.
Qed.

Lemma C1_aggregates_match_recomputation_witness :
  exists panel,
    provider_emissions
      (handle_broadcast Samples.provider_key Samples.emissions_key
         {| new := Some Samples.a_x_200 |} Samples.applied_once)
    = Some panel
    /\ exists x, series_get "A" panel = Some x
                 /\ x == emissions_sum Samples.emissions_key
                          (cloud_emissions (tables (world Samples.applied_once))).
Proof.
  destruct C1_aggregates_match_recomputation as [H _].
  destruct (H Samples.Reading Samples.provider_key Samples.emissions_key
              {| new := Some Samples.a_x_200 |} Samples.applied_once
              eq_refl eq_refl eq_refl eq_refl) as [panel [Hpanel Hk]].
  exists panel. split; [exact Hpanel|]. exact (Hk "A").
Defined.

(** The record (A, X, 100), applied once and then a second time with
    the same composite key: one row is stored and the sum of A stays
    100.  Into tables that take whatever they are given, the same two
    uploads store two rows and the sum becomes 200. *)
Example reapplied_record :
  displayed Samples.applied_once = Some [("A", 100)]
  /\ displayed Samples.applied_twice = Some [("A", 100)]
  /\ map Samples.composite_key
         (cloud_emissions (tables (world Samples.applied_twice)))
     = [Samples.composite_key Samples.a_x_100]
  /\ displayed Samples.unchecked_twice = Some [("A", 200)].
Proof. vm_compute. repeat split. Qed.

(** C2.  For every record and every aggregate state, applying the
    record a second time, with the same composite key, leaves the
    stored rows and the per-provider sums exactly as they are after the
    first time: the store refuses the key it already holds, and the
    upload turns the refusal into a printed line.  Handling the insert
    notification of a record a second time changes nothing either,
    because every notification makes the monitor recompute the sums
    from the stored rows. *)
Theorem C2_reapplied_record_is_a_no_op :
  forall (R K : Type) (set_uploaded_at : string -> R -> R)
         (provider : R -> option string) (emissions : R -> option Q)
         (composite_key : R -> K) (key_eqb : K -> K -> bool),
    (forall k, key_eqb k k = true) ->
    (forall t r, composite_key (set_uploaded_at t r) = composite_key r) ->
    (forall (r : R) (s : State R),
        aggregate_state
          (apply_record set_uploaded_at provider emissions composite_key key_eqb r
             (apply_record set_uploaded_at provider emissions composite_key
                key_eqb r s))
        = aggregate_state
            (apply_record set_uploaded_at provider emissions composite_key
               key_eqb r s))
    /\ (forall (payload : Payload R) (s : State R),
           aggregate_state
             (handle_broadcast provider emissions payload
                (handle_broadcast provider emissions payload s))
           = aggregate_state (handle_broadcast provider emissions payload s)).
Proof.
  intros R K set_uploaded_at provider emissions composite_key key_eqb Hrefl Hkey.
  split.
  - intros r s. now apply apply_twice.
  - intros payload s. apply handle_broadcast_twice.
Qed.

Lemma C2_reapplied_record_is_a_no_op_witness :
  aggregate_state Samples.applied_twice = aggregate_state Samples.applied_once.
Proof.
  refine (proj1 (C2_reapplied_record_is_a_no_op
                   Samples.Reading (string * string * string)
                   Samples.set_uploaded_at Samples.provider_key
                   Samples.emissions_key Samples.composite_key Samples.key_eqb
                   _ _) Samples.a_x_100 Samples.idle).
  - intros [[a b] c]. unfold Samples.key_eqb. cbn [fst snd].
    now rewrite !String.eqb_refl.
  - intros t r. reflexivity.
Defined.




End AggregationClaims.

(** ** The collector of [api_collector.py] *)

Section CollectorFacts.
Import Py Collector CollectSpec.

Lemma answer_of_inv (r : result value) (a : Answer) :
  answer_of r = Some a ->
  match a with
  | Fails e => r = Raise (RequestException e)
  | Nothing => exists v, r = Ok v /\ truthy v = false
  | Object d => r = Ok (VDict d) /\ d <> []
  end.
Proof.
  destruct r as [v|e]; simpl.
  - destruct v as [| b | q | s | l | d]; simpl.
    + intros [= <-]. now exists VNone.
    + destruct b; [discriminate|]. intros [= <-]. now exists (VBool false).
    + destruct (negb (Qeq_bool q 0)) eqn:E; [discriminate|].
      intros [= <-]. exists (VNum q). now rewrite <- E.
    + destruct (negb (String.eqb s "")) eqn:E; [discriminate|].
      intros [= <-]. exists (VStr s). now rewrite <- E.
    + destruct l; [|discriminate]. intros [= <-]. now exists (VList []).
    + destruct d as [|x d]; intros [= <-].
      * now exists (VDict []).
      * split; [reflexivity|discriminate].
  - destruct e; try discriminate. now intros [= <-].
Qed.

(** One source, from the request on: what is returned and what is left
    behind, by the way the source answers. *)
Lemma request_then_frame (u : string) (hs : list (string * option string))
      (name k1 k2 k3 : string) (w : World) (a : Answer) :
  answer_of (http w {| url := u; headers := hs |}) = Some a ->
  let out := bind (_make_api_request u hs)
                  (fun data => frame_of data name k1 k2 k3) w in
  fst out = Ok (rows_for name k1 k2 k3 (clock w (reads w)) a)
  /\ http (snd out) = http w
  /\ clock (snd out) = clock w
  /\ reads (snd out) = reads_after (reads w) a
  /\ sent (snd out) = sent w ++ [{| url := u; headers := hs |}]
  /\ stdout (snd out) = stdout w ++ failures [(name, a)]
  /\ files (snd out) = files w.
Proof.
  intros Ha. apply answer_of_inv in Ha.
  unfold bind, _make_api_request, get_json. simpl fst at 1.
  destruct a as [e| |d].
  - rewrite Ha. simpl. repeat split.
  - destruct Ha as [v [-> Hv]]. unfold frame_of. rewrite Hv. simpl.
    rewrite app_nil_r. repeat split.
  - destruct Ha as [-> Hd]. unfold frame_of.
    destruct d as [|x d]; [contradiction|]. simpl.
    rewrite app_nil_r. repeat split.
Qed.

End CollectorFacts.

Section CollectionClaims.
Import Py Collector CollectSpec.

Lemma collect_gcp_data_unfold (self : CarbonDataCollector) (w : World) :
  base_urls self = BASE_URLS ->
  collect_gcp_data self w
  = bind (_make_api_request (url (gcp_request self)) (headers (gcp_request self)))
         (fun data => frame_of data "GCP" "energy_kwh" "carbon_kg" "network_gb") w.
Proof. intros H. unfold collect_gcp_data. rewrite H. reflexivity. Qed.

Lemma collect_aws_data_unfold (self : CarbonDataCollector) (w : World) :
  base_urls self = BASE_URLS ->
  collect_aws_data self w
  = bind (_make_api_request (url (aws_request self)) (headers (aws_request self)))
         (fun data => frame_of data "AWS" "energy_consumption" "co2_emissions"
                               "data_transfer") w.
Proof. intros H. unfold collect_aws_data. rewrite H. reflexivity. Qed.

Lemma collect_azure_data_unfold (self : CarbonDataCollector) (w : World) :
  base_urls self = BASE_URLS ->
  collect_azure_data self w
  = bind (_make_api_request (url (azure_request self)) (headers (azure_request self)))
         (fun data => frame_of data "Azure" "energy_usage" "carbon_footprint"
                               "network_usage") w.
Proof. intros H. unfold collect_azure_data. rewrite H. reflexivity. Qed.

Lemma provider_of_rows (name k1 k2 k3 t : string) (a : Answer) :
  map provider (rows_for name k1 k2 k3 t a) = delivering [(name, a)].
Proof. now destruct a. Qed.

Lemma delivering_app (xs ys : list (string * Answer)) :
  delivering (xs ++ ys) = delivering xs ++ delivering ys.
Proof.
  induction xs as [|[n a] xs IH]; simpl; [reflexivity|].
  destruct a; simpl; now rewrite IH.
Qed.

Lemma failures_app (xs ys : list (string * Answer)) :
  failures (xs ++ ys) = failures xs ++ failures ys.
Proof.
  induction xs as [|[n a] xs IH]; simpl; [reflexivity|].
  destruct a; simpl; now rewrite IH.
Qed.

Lemma collected_providers (clk : nat -> string) (n : nat) (a1 a2 a3 : Answer) :
  map provider (collected clk n a1 a2 a3)
  = delivering [("GCP", a1); ("AWS", a2); ("Azure", a3)].
Proof.
  unfold collected. rewrite !map_app, !provider_of_rows.
  change [("GCP", a1); ("AWS", a2); ("Azure", a3)]
    with ([("GCP", a1)] ++ [("AWS", a2)] ++ [("Azure", a3)]).
  now rewrite !delivering_app.
Qed.

(** C6 (amended).  Collection is isolated per source for failed
    requests: when the request of a source raises a RequestException
    (timeout, connection error, error status), one line
    "API request failed" is printed for it and the source contributes
    no row; a source answering with a non-empty JSON object contributes
    its one row; a source answering with an empty object, with null or
    with another value Python takes as false contributes no row and
    prints nothing;
    all three sources are requested and [collect_cloud_data] returns
    the rows of the answering sources without raising.  What is
    returned is a frame of rows only, no error value comes with it: it
    is the frame returned when the failing sources answer with nothing
    instead. *)
Theorem C6_collection_isolates_failed_requests :
  forall (self : CarbonDataCollector) (w : World) (a_gcp a_aws a_azure : Answer),
    base_urls self = BASE_URLS ->
    answer_of (http w (gcp_request self)) = Some a_gcp ->
    answer_of (http w (aws_request self)) = Some a_aws ->
    answer_of (http w (azure_request self)) = Some a_azure ->
    let quiet a := match a with Fails _ => Nothing | _ => a end in
    fst (collect_cloud_data self w)
    = Ok (collected (clock w) (reads w) a_gcp a_aws a_azure)
    /\ collected (clock w) (reads w) a_gcp a_aws a_azure
       = collected (clock w) (reads w) (quiet a_gcp) (quiet a_aws) (quiet a_azure)
    /\ map provider (collected (clock w) (reads w) a_gcp a_aws a_azure)
       = delivering [("GCP", a_gcp); ("AWS", a_aws); ("Azure", a_azure)]
    /\ stdout (snd (collect_cloud_data self w))
       = stdout w ++ failures [("GCP", a_gcp); ("AWS", a_aws); ("Azure", a_azure)]
    /\ sent (snd (collect_cloud_data self w))
       = sent w ++ [gcp_request self; aws_request self; azure_request self].
Proof.
  intros self w a1 a2 a3 Hurls H1 H2 H3 quiet.
  enough (Hrun : exists wf,
             collect_cloud_data self w
             = (Ok (collected (clock w) (reads w) a1 a2 a3), wf)
             /\ stdout wf
                = stdout w ++ failures [("GCP", a1); ("AWS", a2); ("Azure", a3)]
             /\ sent wf
                = sent w ++ [gcp_request self; aws_request self; azure_request self]).
  { destruct Hrun as (wf & -> & Ho & Hs). simpl.
    split; [reflexivity|]. split; [now destruct a1, a2, a3|].
    split; [apply collected_providers|]. auto. }
  unfold collect_cloud_data.
  unfold bind at 1. rewrite (collect_gcp_data_unfold self w Hurls).
  destruct (request_then_frame (url (gcp_request self)) (headers (gcp_request self))
              "GCP" "energy_kwh" "carbon_kg" "network_gb" w a1 H1)
    as (F1 & Hh1 & Hc1 & Hr1 & Hs1 & Ho1 & _).
  cbv zeta in F1, Hh1, Hc1, Hr1, Hs1, Ho1.
  destruct (bind (_make_api_request (url (gcp_request self))
                                    (headers (gcp_request self))) _ w)
    as [r1 w1]. simpl in F1, Hh1, Hc1, Hr1, Hs1, Ho1. subst r1.
  unfold bind at 1. rewrite (collect_aws_data_unfold self w1 Hurls).
  rewrite <- Hh1 in H2, H3.
  destruct (request_then_frame (url (aws_request self)) (headers (aws_request self))
              "AWS" "energy_consumption" "co2_emissions" "data_transfer" w1 a2 H2)
    as (F2 & Hh2 & Hc2 & Hr2 & Hs2 & Ho2 & _).
  cbv zeta in F2, Hh2, Hc2, Hr2, Hs2, Ho2.
  destruct (bind (_make_api_request (url (aws_request self))
                                    (headers (aws_request self))) _ w1)
    as [r2 w2]. simpl in F2, Hh2, Hc2, Hr2, Hs2, Ho2. subst r2.
  unfold bind at 1. rewrite (collect_azure_data_unfold self w2 Hurls).
  rewrite <- Hh2 in H3.
  destruct (request_then_frame (url (azure_request self)) (headers (azure_request self))
              "Azure" "energy_usage" "carbon_footprint" "network_usage" w2 a3 H3)
    as (F3 & Hh3 & Hc3 & Hr3 & Hs3 & Ho3 & _).
  cbv zeta in F3, Hh3, Hc3, Hr3, Hs3, Ho3.
  destruct (bind (_make_api_request (url (azure_request self))
                                    (headers (azure_request self))) _ w2)
    as [r3 w3]. simpl in F3, Hh3, Hc3, Hr3, Hs3, Ho3. subst r3.
  rewrite Hc2, Hr2, Hc1, Hr1.
  change (rows_for "GCP" "energy_kwh" "carbon_kg" "network_gb"
            (clock w (reads w)) a1
          ++ rows_for "AWS" "energy_consumption" "co2_emissions" "data_transfer"
               (clock w (reads_after (reads w) a1)) a2
          ++ rows_for "Azure" "energy_usage" "carbon_footprint" "network_usage"
               (clock w (reads_after (reads_after (reads w) a1) a2)) a3)
    with (collected (clock w) (reads w) a1 a2 a3).
  assert (Hout : stdout w3
                 = stdout w ++ failures [("GCP", a1); ("AWS", a2); ("Azure", a3)]).
  { rewrite Ho3, Ho2, Ho1.
    change [("GCP", a1); ("AWS", a2); ("Azure", a3)]
      with ([("GCP", a1)] ++ [("AWS", a2)] ++ [("Azure", a3)]).
    now rewrite !failures_app, !app_assoc. }
  assert (Hsent : sent w3
                  = sent w ++ [gcp_request self; aws_request self; azure_request self]).
  { rewrite Hs3, Hs2, Hs1. now rewrite <- !app_assoc. }
  destruct (collected (clock w) (reads w) a1 a2 a3) as [|x rest].
  - exists w3. simpl. auto.
  - eexists. simpl. split; [reflexivity|]. simpl. auto.
Qed.

Lemma C6_collection_isolates_failed_requests_witness :
  exists df,
    fst (collect_cloud_data configured gcp_times_out) = Ok df
    /\ map provider df = ["AWS"; "Azure"]
    /\ stdout (snd (collect_cloud_data configured gcp_times_out))
       = [API_request_failed "Read timed out"]
    /\ sent (snd (collect_cloud_data configured gcp_times_out))
       = [gcp_request configured; aws_request configured;
          azure_request configured].
Proof.
  destruct (C6_collection_isolates_failed_requests configured gcp_times_out
              (Fails "Read timed out")
              (Object [("energy_consumption", VNum 40); ("co2_emissions", VNum 12)])
              (Object [("energy_usage", VNum 55); ("carbon_footprint", VNum 9);
                       ("network_usage", VNum 3)])
              eq_refl eq_refl eq_refl eq_refl)
    as (Hdf & _ & Hprov & Hout & Hsent).
  eexists. split; [exact Hdf|]. split; [exact Hprov|]. split; [exact Hout|exact Hsent].
Defined.

(** Three sources of which the first times out: what comes back is a
    frame with the two rows of the other sources, and it is the very
    frame that comes back when the first source answers with an empty
    object.  No error value is part of the result. *)
Lemma C6_counterexample :
  fst (collect_cloud_data configured gcp_times_out)
  = Ok [ {| timestamp := "t0"; provider := "AWS";
            energy_consumption := VNum 40; carbon_emissions := VNum 12;
            data_transfer := VNum 0 |};
         {| timestamp := "t1"; provider := "Azure";
            energy_consumption := VNum 55; carbon_emissions := VNum 9;
            data_transfer := VNum 3 |} ]
  /\ fst (collect_cloud_data configured gcp_has_nothing)
     = fst (collect_cloud_data configured gcp_times_out).
Proof. split; vm_compute; reflexivity. Qed.

(** A payload with energy -5 is turned into a row with energy -5. *)
Lemma C7_counterexample :
  ~ rejects_negative_energy configured gcp_negative_energy.
Proof.
  intros H.
  specialize (H [("energy_kwh", VNum (-5)); ("carbon_kg", VNum 12)] (-5)
                eq_refl eq_refl eq_refl).
  vm_compute in H. discriminate H.
Qed.

(** C7 (amended).  For every payload that is a non-empty JSON object,
    the GCP collector returns one record whose fields are the values
    the payload holds under [energy_kwh], [carbon_kg] and [network_gb],
    unchanged whatever they are, and 0 for an absent key: no range is
    checked, no value is clamped, and no NormalizationError is
    produced. *)
Theorem C7_payload_values_pass_unchecked :
  forall (self : CarbonDataCollector) (w : World) (d : dict),
    base_urls self = BASE_URLS ->
    http w (gcp_request self) = Ok (VDict d) ->
    d <> [] ->
    fst (collect_gcp_data self w)
    = Ok [ {| timestamp := clock w (reads w);
              provider := "GCP";
              energy_consumption := dict_get "energy_kwh" (VNum 0) d;
              carbon_emissions := dict_get "carbon_kg" (VNum 0) d;
              data_transfer := dict_get "network_gb" (VNum 0) d |} ].
Proof.
  intros self w d Hurls Hd Hne.
  rewrite (collect_gcp_data_unfold self w Hurls).
  assert (Ha : answer_of (http w (gcp_request self)) = Some (Object d)).
  { rewrite Hd. destruct d; [contradiction|reflexivity]. }
  destruct (request_then_frame (url (gcp_request self)) (headers (gcp_request self))
              "GCP" "energy_kwh" "carbon_kg" "network_gb" w (Object d) Ha)
    as (F & _).
  exact F.
Qed.

Lemma C7_payload_values_pass_unchecked_witness :
  fst (collect_gcp_data configured gcp_negative_energy)
  = Ok [ {| timestamp := "t0"; provider := "GCP";
            energy_consumption := VNum (-5);
            carbon_emissions := VNum 12;
            data_transfer := VNum 0 |} ].
Proof.
  apply (C7_payload_values_pass_unchecked configured gcp_negative_energy
           [("energy_kwh", VNum (-5)); ("carbon_kg", VNum 12)]).
  - reflexivity.
  - reflexivity.
  - discriminate.
Defined.

Lemma collect_gcp_data_sent (self : CarbonDataCollector) (w : World) :
  base_urls self = BASE_URLS ->
  sent (snd (collect_gcp_data self w)) = sent w ++ [gcp_request self].
Proof.
  intros Hurls. rewrite (collect_gcp_data_unfold self w Hurls).
  unfold bind, _make_api_request, get_json. simpl.
  destruct (http w _) as [v|e].
  - unfold frame_of. destruct (truthy v); [|reflexivity].
    unfold bind. simpl. destruct v; reflexivity.
  - destruct e; reflexivity.
Qed.

Lemma collect_aws_data_sent (self : CarbonDataCollector) (w : World) :
  base_urls self = BASE_URLS ->
  sent (snd (collect_aws_data self w)) = sent w ++ [aws_request self].
Proof.
  intros Hurls. rewrite (collect_aws_data_unfold self w Hurls).
  unfold bind, _make_api_request, get_json. simpl.
  destruct (http w _) as [v|e].
  - unfold frame_of. destruct (truthy v); [|reflexivity].
    unfold bind. simpl. destruct v; reflexivity.
  - destruct e; reflexivity.
Qed.

Lemma collect_azure_data_sent (self : CarbonDataCollector) (w : World) :
  base_urls self = BASE_URLS ->
  sent (snd (collect_azure_data self w)) = sent w ++ [azure_request self].
Proof.
  intros Hurls. rewrite (collect_azure_data_unfold self w Hurls).
  unfold bind, _make_api_request, get_json. simpl.
  destruct (http w _) as [v|e].
  - unfold frame_of. destruct (truthy v); [|reflexivity].
    unfold bind. simpl. destruct v; reflexivity.
  - destruct e; reflexivity.
Qed.

(** Without any key the collector is built, the request goes out, the
    API refuses it, and the collection returns the empty frame. *)
Lemma C8_counterexample : ~ validates_credentials no_keys (world_of guarded_api).
Proof.
  intros H. specialize (H eq_refl). vm_compute in H. discriminate H.
Qed.

(** C8 (amended).  No provider credential is validated.  Construction
    stores each of the three keys as the environment gives it, [None]
    when it is absent, and raises only when the data directory cannot
    be created.  Each of the three collectors then sends its request
    whatever its key is: the GCP and the Azure collector with the
    Authorization header "Bearer " followed by the key, "Bearer None"
    when the key is absent, the AWS collector with the key, absent or
    not, as its x-api-key header.  When the request of a collector
    fails, the failure is printed and the empty frame is returned. *)
Theorem C8_credentials_used_unvalidated :
  forall (getenv : string -> option string) (w : World),
    mkdir_raises w = None ->
    exists self,
      __init__ getenv w = (Ok self, w)
      /\ gcp_api_key self = getenv "GCP_API_KEY"
      /\ aws_api_key self = getenv "AWS_API_KEY"
      /\ azure_api_key self = getenv "AZURE_API_KEY"
      /\ (sent (snd (collect_gcp_data self w)) = sent w ++ [gcp_request self]
          /\ header "Authorization" (headers (gcp_request self))
             = Some ("Bearer " ++ str_of_key (getenv "GCP_API_KEY"))%string
          /\ forall e, http w (gcp_request self) = Raise (RequestException e) ->
               fst (collect_gcp_data self w) = Ok []
               /\ stdout (snd (collect_gcp_data self w))
                  = stdout w ++ [API_request_failed e])
      /\ (sent (snd (collect_aws_data self w)) = sent w ++ [aws_request self]
          /\ header "x-api-key" (headers (aws_request self))
             = getenv "AWS_API_KEY"
          /\ forall e, http w (aws_request self) = Raise (RequestException e) ->
               fst (collect_aws_data self w) = Ok []
               /\ stdout (snd (collect_aws_data self w))
                  = stdout w ++ [API_request_failed e])
      /\ (sent (snd (collect_azure_data self w)) = sent w ++ [azure_request self]
          /\ header "Authorization" (headers (azure_request self))
             = Some ("Bearer " ++ str_of_key (getenv "AZURE_API_KEY"))%string
          /\ forall e, http w (azure_request self) = Raise (RequestException e) ->
               fst (collect_azure_data self w) = Ok []
               /\ stdout (snd (collect_azure_data self w))
                  = stdout w ++ [API_request_failed e]).
Proof.
  intros getenv w Hmk.
  set (self := {| gcp_api_key := getenv "GCP_API_KEY";
                  aws_api_key := getenv "AWS_API_KEY";
                  azure_api_key := getenv "AZURE_API_KEY";
                  base_urls := BASE_URLS;
                  data_sources := DATA_SOURCES;
                  raw_dir := "data/raw" |}).
  exists self.
  split; [unfold __init__; now rewrite Hmk|].
  split; [reflexivity|]. split; [reflexivity|]. split; [reflexivity|].
  split; [|split].
  - split; [now apply collect_gcp_data_sent|]. split; [reflexivity|].
    intros e He.
    rewrite (collect_gcp_data_unfold self w eq_refl).
    assert (Ha : answer_of (http w (gcp_request self)) = Some (Fails e))
      by now rewrite He.
    destruct (request_then_frame (url (gcp_request self))
                (headers (gcp_request self))
                "GCP" "energy_kwh" "carbon_kg" "network_gb" w (Fails e) Ha)
      as (F & _ & _ & _ & _ & Ho & _).
    split; [exact F|exact Ho].
  - split; [now apply collect_aws_data_sent|]. split; [reflexivity|].
    intros e He.
    rewrite (collect_aws_data_unfold self w eq_refl).
    assert (Ha : answer_of (http w (aws_request self)) = Some (Fails e))
      by now rewrite He.
    destruct (request_then_frame (url (aws_request self))
                (headers (aws_request self))
                "AWS" "energy_consumption" "co2_emissions" "data_transfer"
                w (Fails e) Ha)
      as (F & _ & _ & _ & _ & Ho & _).
    split; [exact F|exact Ho].
  - split; [now apply collect_azure_data_sent|]. split; [reflexivity|].
    intros e He.
    rewrite (collect_azure_data_unfold self w eq_refl).
    assert (Ha : answer_of (http w (azure_request self)) = Some (Fails e))
      by now rewrite He.
    destruct (request_then_frame (url (azure_request self))
                (headers (azure_request self))
                "Azure" "energy_usage" "carbon_footprint" "network_usage"
                w (Fails e) Ha)
      as (F & _ & _ & _ & _ & Ho & _).
    split; [exact F|exact Ho].
Qed.

Lemma C8_credentials_used_unvalidated_witness :
  exists self,
    __init__ no_keys (world_of guarded_api) = (Ok self, world_of guarded_api)
    /\ gcp_api_key self = None
    /\ sent (snd (collect_gcp_data self (world_of guarded_api)))
       = [gcp_request self]
    /\ header "Authorization" (headers (gcp_request self)) = Some "Bearer None"
    /\ sent (snd (collect_aws_data self (world_of guarded_api)))
       = [aws_request self]
    /\ header "x-api-key" (headers (aws_request self)) = None
    /\ sent (snd (collect_azure_data self (world_of guarded_api)))
       = [azure_request self]
    /\ header "Authorization" (headers (azure_request self)) = Some "Bearer None".
Proof.
  destruct (C8_credentials_used_unvalidated no_keys (world_of guarded_api) eq_refl)
    as (self & Hinit & Hk & _ & _ & (Hg1 & Hg2 & _) & (Ha1 & Ha2 & _)
        & (Hz1 & Hz2 & _)).
  exists self. repeat split; assumption.
Defined.

Example unconfigured_collection_is_empty :
  fst (collect_cloud_data unconfigured (world_of guarded_api)) = Ok [].
Proof. vm_compute. reflexivity. Qed.

End CollectionClaims.

(** ** [simulate_real_time_data] *)

Section Simulation.
Import Py Remote Monitor SimulationSpec.

(** [np] is bound neither in the module nor in builtins. *)
Lemma np_unbound : load_global module_globals "np" = Raise (NameError "np").
Proof. reflexivity. Qed.

Lemma scale_item_raises (k : string) (draw : Q) (d : dict) :
  scale_item module_globals k draw d
  = match dict_lookup k d with
    | Some _ => Raise (NameError "np")
    | None => Raise (KeyError k)
    end.
Proof.
  unfold scale_item, getitem. rewrite np_unbound.
  now destruct (dict_lookup k d).
Qed.

(** A pass of the loop never gets as far as the insert: it raises, and
    the tables and the output are as before. *)
Lemma simulate_step_raises (env : Environment) (base_data : list dict)
      (k : nat) (w : World dict) :
  exists e,
    fst (simulate_step module_globals env base_data k w) = Raise e
    /\ tables (snd (simulate_step module_globals env base_data k w)) = tables w
    /\ stdout (snd (simulate_step module_globals env base_data k w)) = stdout w.
Proof.
  unfold simulate_step.
  destruct (sample_record base_data (sample_index env k)) as [r|e]; simpl.
  - rewrite scale_item_raises.
    destruct (dict_lookup "total_emissions" _); eexists; repeat split.
  - exists e. repeat split.
Qed.

Lemma simulate_loop_fails (env : Environment) (base_data : list dict)
      (passes k : nat) (w : World dict) :
  tables (snd (simulate_loop module_globals env base_data passes k w)) = tables w
  /\ stdout (snd (simulate_loop module_globals env base_data passes k w)) = stdout w
  /\ (passes <> 0%nat ->
      fst (simulate_loop module_globals env base_data passes k w)
      = match fst (simulate_step module_globals env base_data k w) with
        | Raise e => Failed e
        | Ok _ => Looping
        end).
Proof.
  destruct passes as [|passes]; simpl.
  - repeat split. intros H. contradiction H. reflexivity.
  - destruct (simulate_step_raises env base_data k w) as (e & He & Ht & Ho).
    destruct (simulate_step module_globals env base_data k w) as [r w'].
    simpl in *. subst r. simpl. repeat split; assumption.
Qed.

Lemma dict_lookup_set_other (k k' : string) (v : value) (d : dict) :
  k <> k' -> dict_lookup k (dict_set k' v d) = dict_lookup k d.
Proof.
  intros Hne. induction d as [|[k2 v2] d IH]; simpl.
  - apply String.eqb_neq in Hne. now rewrite Hne.
  - destruct (String.eqb_spec k' k2) as [->|Hk]; simpl.
    + apply String.eqb_neq in Hne. now rewrite Hne.
    + destruct (String.eqb k k2); [reflexivity|exact IH].
Qed.

Lemma sample_record_In (base_data : list dict) (pick : nat) (r : dict) :
  sample_record base_data pick = Ok r -> In r base_data.
Proof.
  unfold sample_record. destruct base_data as [|d rest]; [discriminate|].
  intros H.
  assert (E : r = nth (pick mod List.length (d :: rest)) (d :: rest) d)
    by congruence.
  rewrite E. apply nth_In. apply Nat.mod_upper_bound. discriminate.
Qed.

Lemma sample_record_nonempty (base_data : list dict) (pick : nat) :
  base_data <> [] -> exists r, sample_record base_data pick = Ok r.
Proof.
  unfold sample_record. destruct base_data; [contradiction|]. eauto.
Qed.

(** The records of the CSV file carry its headers, not the column
    [total_emissions]: the first pass ends in a KeyError, before the
    name [np] is looked up. *)
Lemma C10_counterexample :
  ~ always_name_error (environment [csv_record]) (fresh tick).
Proof.
  intros H. specialize (H 1%nat (Nat.neq_succ_0 0)).
  vm_compute in H. discriminate H.
Qed.

(** C10 (amended).  No invocation of [simulate_real_time_data] ever
    inserts a data point or prints an upload: every pass of the loop
    raises before its insert, so an invocation that runs at least one
    pass fails with an exception.  The exception is the unbound-name
    error for [np] whenever the set-up succeeds, the file has records
    and they have the column [total_emissions]; a record without that
    column fails earlier, with a KeyError, and a failed set-up with its
    own exception. *)
Theorem C10_simulation_never_inserts :
  forall (env : Environment) (passes : nat) (w : World dict),
    tables (snd (simulate_real_time_data env passes w)) = tables w
    /\ stdout (snd (simulate_real_time_data env passes w)) = stdout w
    /\ (passes <> 0%nat ->
        exists e, fst (simulate_real_time_data env passes w) = Failed e)
    /\ (passes <> 0%nat ->
        constructor_raises env = None ->
        forall base_data,
          read_csv env = Ok base_data ->
          base_data <> [] ->
          (forall r, In r base_data -> dict_lookup "total_emissions" r <> None) ->
          fst (simulate_real_time_data env passes w) = Failed (NameError "np"))
    /\ (passes <> 0%nat ->
        constructor_raises env = None ->
        forall base_data,
          read_csv env = Ok base_data ->
          base_data <> [] ->
          (forall r, In r base_data -> dict_lookup "total_emissions" r = None) ->
          fst (simulate_real_time_data env passes w)
          = Failed (KeyError "total_emissions")).
Proof.
  intros env passes w. unfold simulate_real_time_data, simulate_with.
  destruct (constructor_raises env) as [e|].
  { simpl. split; [reflexivity|]. split; [reflexivity|]. split; [eauto|].
    split; intros _ H; discriminate H. }
  destruct (read_csv env) as [base_data|e].
  2:{ simpl. split; [reflexivity|]. split; [reflexivity|]. split; [eauto|].
      split; intros _ _ base H; discriminate H. }
  destruct (simulate_loop_fails env base_data passes 0 w) as (Ht & Ho & Hf).
  split; [exact Ht|]. split; [exact Ho|]. split; [|split].
  - intros Hp. rewrite (Hf Hp).
    destruct (simulate_step_raises env base_data 0 w) as (e & He & _).
    rewrite He. eauto.
  - intros Hp _ base [= <-] Hne Hcol. rewrite (Hf Hp).
    unfold simulate_step.
    destruct (sample_record_nonempty base_data (sample_index env 0) Hne)
      as [r Hr].
    rewrite Hr. simpl. rewrite scale_item_raises.
    rewrite dict_lookup_set_other by discriminate.
    destruct (dict_lookup "total_emissions" r) eqn:E; [reflexivity|].
    exfalso. exact (Hcol r (sample_record_In _ _ _ Hr) E).
  - intros Hp _ base [= <-] Hne Hcol. rewrite (Hf Hp).
    unfold simulate_step.
    destruct (sample_record_nonempty base_data (sample_index env 0) Hne)
      as [r Hr].
    rewrite Hr. simpl. rewrite scale_item_raises.
    rewrite dict_lookup_set_other by discriminate.
    now rewrite (Hcol r (sample_record_In _ _ _ Hr)).
Qed.

Lemma C10_simulation_never_inserts_witness :
  fst (simulate_real_time_data (environment [table_record]) 3 (fresh tick))
  = Failed (NameError "np")
  /\ cloud_emissions
       (tables (snd (simulate_real_time_data (environment [table_record]) 3
                       (fresh tick)))) = [].
Proof.
  destruct (C10_simulation_never_inserts (environment [table_record]) 3
              (fresh tick)) as (Ht & _ & _ & Hnp & _).
  split.
  - apply (Hnp (Nat.neq_succ_0 2) eq_refl [table_record] eq_refl).
    + discriminate.
    + intros r [<-|[]]. discriminate.
  - now rewrite Ht.
Defined.

(** For contrast, in a module where [np] is bound the same model does
    upload: one pass stores one scaled record. *)
Example with_numpy_one_pass_uploads :
  map (dict_lookup "total_emissions")
      (cloud_emissions
         (tables (snd (simulate_with ("np" :: module_globals)
                         (environment [table_record]) 1 (fresh tick)))))
  = [Some (VNum (300 * (1 + (1 # 20))))]
  /\ stdout (snd (simulate_with ("np" :: module_globals)
                    (environment [table_record]) 1 (fresh tick)))
     = [Uploaded_data_point "t1"].
Proof. split; reflexivity. Qed.

End Simulation.

(** * Part III: further properties of the sources *)

(** ** The uploads when the project cannot be reached *)

Section UploadOutage.
Import Py Frame Remote Supabase.
Context {R : Type}.
Variable set_uploaded_at : string -> R -> R.

Lemma stamp_uploaded_at_quiet (records : list R) (w : World R) :
  stdout (snd (stamp_uploaded_at set_uploaded_at records w)) = stdout w
  /\ List.length (fst (stamp_uploaded_at set_uploaded_at records w))
     = List.length records.
Proof.
  revert w. induction records as [|r rest IH]; intros w; simpl; [auto|].
  specialize (IH (snd (now w))). simpl in IH. revert IH.
  destruct (stamp_uploaded_at set_uploaded_at rest _) as [rest' w2].
  simpl. intros [H1 H2]. split; [exact H1|now rewrite H2].
Qed.

Lemma stamp_calculated_at_quiet {A B : Type} (mk : A -> string -> B)
      (groups : list A) (w : World R) :
  stdout (snd (stamp_calculated_at mk groups w)) = stdout w
  /\ List.length (fst (stamp_calculated_at mk groups w)) = List.length groups.
Proof.
  revert w. induction groups as [|g rest IH]; intros w; simpl; [auto|].
  specialize (IH (snd (now w))). simpl in IH. revert IH.
  destruct (stamp_calculated_at mk rest _) as [rest' w2].
  simpl. intros [H1 H2]. split; [exact H1|now rewrite H2].
Qed.

(** X1.  When the project cannot be reached, none of the three uploads
    raises: each returns [None], leaves every table as it was, and
    prints one line, its own error line carrying the exception. *)
Theorem X1_uploads_swallow_outage :
  forall (data : list R) (frame : DataFrame) (w : World R) (e : exn),
    outage w = Some e ->
    (fst (upload_emissions_data set_uploaded_at data w) = None
     /\ tables (snd (upload_emissions_data set_uploaded_at data w)) = tables w
     /\ stdout (snd (upload_emissions_data set_uploaded_at data w))
        = stdout w ++ [Error_uploading e])
    /\ (fst (upload_provider_metrics frame w) = None
        /\ tables (snd (upload_provider_metrics frame w)) = tables w
        /\ stdout (snd (upload_provider_metrics frame w))
           = stdout w ++ [Error_uploading_provider_metrics e])
    /\ (fst (upload_location_metrics frame w) = None
        /\ tables (snd (upload_location_metrics frame w)) = tables w
        /\ stdout (snd (upload_location_metrics frame w))
           = stdout w ++ [Error_uploading_location_metrics e]).
Proof.
  intros data frame w e Hout. split; [|split].
  - unfold upload_emissions_data.
    destruct (stamp_uploaded_at_spec set_uploaded_at data w) as (_ & Ht & Ho).
    destruct (stamp_uploaded_at_quiet data w) as [Hs _].
    destruct (stamp_uploaded_at set_uploaded_at data w) as [records w1].
    simpl in *. unfold insert_cloud_emissions. rewrite Ho, Hout. simpl.
    rewrite Ht, Hs. auto.
  - unfold upload_provider_metrics.
    destruct (stamp_calculated_at_spec (R := R) provider_metric
                (groupby Cloud_Service_Provider frame) w) as (_ & Ht & Ho).
    destruct (stamp_calculated_at_quiet provider_metric
                (groupby Cloud_Service_Provider frame) w) as [Hs _].
    destruct (stamp_calculated_at provider_metric _ w) as [records w1].
    simpl in *. unfold insert_provider_metrics. rewrite Ho, Hout. simpl.
    rewrite Ht, Hs. auto.
  - unfold upload_location_metrics.
    destruct (stamp_calculated_at_spec (R := R) location_metric
                (groupby Location frame) w) as (_ & Ht & Ho).
    destruct (stamp_calculated_at_quiet location_metric
                (groupby Location frame) w) as [Hs _].
    destruct (stamp_calculated_at location_metric _ w) as [records w1].
    simpl in *. unfold insert_location_metrics. rewrite Ho, Hout. simpl.
    rewrite Ht, Hs. auto.
Qed.

End UploadOutage.

Lemma X1_uploads_swallow_outage_witness :
  fst (Supabase.upload_provider_metrics (R := Samples.Reading)
         [Samples.a_100; Samples.a_200]
         {| Remote.tables := Remote.tables (Remote.fresh Samples.tick);
            Remote.outage := Some (Py.APIError "connection refused");
            Remote.clock := Samples.tick; Remote.reads := 0;
            Remote.stdout := [] |}) = None.
Proof.
  destruct (X1_uploads_swallow_outage Samples.set_uploaded_at
              [] [Samples.a_100; Samples.a_200]
              {| Remote.tables := Remote.tables (Remote.fresh Samples.tick);
                 Remote.outage := Some (Py.APIError "connection refused");
                 Remote.clock := Samples.tick; Remote.reads := 0;
                 Remote.stdout := [] |}
              (Py.APIError "connection refused") eq_refl)
    as (_ & (H & _) & _).
  exact H.
Defined.

(** ** Grouping: keys, partition, totals *)

Section GroupKeys.
Import Frame AggregateSpec.
Context {R : Type}.

Lemma upsert_concat_perm (k : string) (r : R) (m : list (string * list R)) :
  Permutation (List.concat (map snd (upsert k r m))) (r :: List.concat (map snd m)).
Proof.
  induction m as [|[k' g] m IH]; simpl; [reflexivity|].
  destruct (String_as_OT.compare k k'); simpl.
  - rewrite <- app_assoc. simpl.
    symmetry. apply Permutation_middle.
  - reflexivity.
  - rewrite IH. symmetry. apply Permutation_middle.
Qed.

Lemma fold_upsert_concat_perm (key : R -> string) (df : list R) :
  forall m, Permutation (List.concat (map snd (fold_left (fun m r => upsert (key r) r m) df m)))
                        (List.concat (map snd m) ++ df).
Proof.
  induction df as [|r df IH]; intros m; simpl.
  - now rewrite app_nil_r.
  - rewrite IH, upsert_concat_perm. simpl. apply Permutation_middle.
Qed.

(** The groups of [groupby] partition the frame: taken together they hold
    every row exactly once. *)
Lemma groupby_partition (key : R -> string) (df : list R) :
  Permutation (List.concat (map snd (groupby key df))) df.
Proof. unfold groupby. now rewrite fold_upsert_concat_perm. Qed.

Lemma sorted_keys (m : list (string * list R)) :
  StronglySorted key_order m -> StronglySorted String_as_OT.lt (map fst m).
Proof.
  induction 1 as [|p m Hs IH Hall]; simpl; constructor; [exact IH|].
  rewrite Forall_map. exact Hall.
Qed.

Lemma In_keys_get_group (m : list (string * list R)) (k : string) :
  In k (map fst m) <-> get_group k m <> None.
Proof.
  induction m as [|[k' g] m IH]; simpl.
  - split; [contradiction|congruence].
  - destruct (String.eqb_spec k k') as [->|Hne].
    + split; [discriminate|auto].
    + rewrite <- IH. split; [intros [H|H]; [congruence|exact H]|auto].
Qed.

(** A key has a group exactly when some row has that key. *)
Lemma In_keys_groupby (key : R -> string) (df : list R) (k : string) :
  In k (map fst (groupby key df)) <-> exists r, In r df /\ key r = k.
Proof.
  rewrite In_keys_get_group, get_group_groupby. unfold select_eq.
  split.
  - destruct (filter _ df) as [|r g] eqn:E; [congruence|].
    intros _. exists r.
    assert (Hin : In r (filter (fun r => String.eqb (key r) k) df))
      by (rewrite E; now left).
    apply filter_In in Hin. destruct Hin as [Hin Hk].
    split; [exact Hin|now apply String.eqb_eq].
  - intros [r [Hin Hk]].
    assert (Hf : In r (filter (fun r => String.eqb (key r) k) df)).
    { apply filter_In. split; [exact Hin|now apply String.eqb_eq]. }
    destruct (filter _ df); [contradiction|discriminate].
Qed.

End GroupKeys.

Section MetricRows.
Import Py Frame Remote Supabase Monitor AggregateSpec.

Lemma strictly_increasing_NoDup (ks : list string) :
  StronglySorted String_as_OT.lt ks -> NoDup ks.
Proof.
  induction 1 as [|k ks Hs IH Hall]; constructor; [|exact IH].
  intros Hin. rewrite Forall_forall in Hall.
  exact (StrictOrder_Irreflexive k (Hall k Hin)).
Qed.

Lemma stamped_keys {A B : Type} (mk : A -> string -> B) (ka : A -> string)
      (kb : B -> string) (groups : list A) (recs : list B) :
  (forall g t, kb (mk g t) = ka g) ->
  Forall2 (fun g b => exists t, b = mk g t) groups recs ->
  map kb recs = map ka groups.
Proof.
  intros Hk. induction 1 as [|g b groups recs [t ->] _ IH]; simpl; [reflexivity|].
  now rewrite Hk, IH.
Qed.

Lemma provider_rows_keys (R : Type) (data : DataFrame) (w : World R) :
  outage w = None ->
  exists recs,
    fst (upload_provider_metrics data w) = Some recs
    /\ map pm_provider recs = map fst (groupby Cloud_Service_Provider data).
Proof.
  intros Hup. unfold upload_provider_metrics.
  destruct (stamp_calculated_at_spec (R := R) provider_metric
              (groupby Cloud_Service_Provider data) w) as (H1 & _ & Ho).
  destruct (stamp_calculated_at provider_metric _ w) as [records w1].
  simpl in *. unfold insert_provider_metrics. rewrite Ho, Hup. simpl.
  exists records. split; [reflexivity|].
  now apply (stamped_keys provider_metric fst pm_provider).
Qed.

Lemma location_rows_keys (R : Type) (data : DataFrame) (w : World R) :
  outage w = None ->
  exists recs,
    fst (upload_location_metrics data w) = Some recs
    /\ map lm_location recs = map fst (groupby Location data).
Proof.
  intros Hup. unfold upload_location_metrics.
  destruct (stamp_calculated_at_spec (R := R) location_metric
              (groupby Location data) w) as (H1 & _ & Ho).
  destruct (stamp_calculated_at location_metric _ w) as [records w1].
  simpl in *. unfold insert_location_metrics. rewrite Ho, Hup. simpl.
  exists records. split; [reflexivity|].
  now apply (stamped_keys location_metric fst lm_location).
Qed.

(** X2.  On a reachable project, [upload_provider_metrics] writes exactly
    one row per provider occurring in the data and
    [upload_location_metrics] one row per location occurring in it: the
    keys of the rows written are those of the data, without duplicates,
    in increasing order. *)
Theorem X2_one_metric_row_per_key :
  forall (R : Type) (data : DataFrame) (w : World R),
    outage w = None ->
    (exists recs,
        fst (upload_provider_metrics data w) = Some recs
        /\ StronglySorted String_as_OT.lt (map pm_provider recs)
        /\ NoDup (map pm_provider recs)
        /\ forall k, In k (map pm_provider recs)
                     <-> exists r, In r data /\ Cloud_Service_Provider r = k)
    /\ (exists recs,
           fst (upload_location_metrics data w) = Some recs
           /\ StronglySorted String_as_OT.lt (map lm_location recs)
           /\ NoDup (map lm_location recs)
           /\ forall k, In k (map lm_location recs)
                        <-> exists r, In r data /\ Location r = k).
Proof.
  intros R data w Hup. split.
  - destruct (provider_rows_keys R data w Hup) as (recs & Hr & Hk).
    exists recs. rewrite Hk.
    pose proof (sorted_keys _ (groupby_sorted Cloud_Service_Provider data)) as Hs.
    split; [exact Hr|]. split; [exact Hs|].
    split; [now apply strictly_increasing_NoDup|].
    intros k. apply In_keys_groupby.
  - destruct (location_rows_keys R data w Hup) as (recs & Hr & Hk).
    exists recs. rewrite Hk.
    pose proof (sorted_keys _ (groupby_sorted Location data)) as Hs.
    split; [exact Hr|]. split; [exact Hs|].
    split; [now apply strictly_increasing_NoDup|].
    intros k. apply In_keys_groupby.
Qed.

Lemma X2_one_metric_row_per_key_witness :
  exists recs,
    fst (upload_provider_metrics (R := Samples.Reading)
           (Samples.two_sites ++ [Samples.a_100; Samples.a_200])
           (fresh Samples.tick)) = Some recs
    /\ NoDup (map pm_provider recs).
Proof.
  destruct (X2_one_metric_row_per_key Samples.Reading
              (Samples.two_sites ++ [Samples.a_100; Samples.a_200])
              (fresh Samples.tick) eq_refl) as [(recs & Hr & _ & Hn & _) _].
  exists recs. split; assumption.
Defined.

Example provider_rows_of_four_records :
  option_map (map pm_provider)
    (fst (upload_provider_metrics (R := Samples.Reading)
            (Samples.two_sites ++ [Samples.a_100; Samples.a_200])
            (fresh Samples.tick)))
  = Some ["A"; "AWS"; "GCP"].
Proof. vm_compute. reflexivity. Qed.

(** X3.  The entries of the monitor's first panel account for every
    stored row that names a provider exactly once: the groups behind
    the entries are a partition of those rows, there is one entry per
    provider some row names, without duplicates, and a row that names
    no provider is in no group. *)
Theorem X3_panel_groups_partition_the_table :
  forall (R : Type) (provider : R -> option string) (emissions : R -> option Q)
         (df : list R),
    let rows := keyed provider emissions df in
    let panel := sum_by_provider fst (fun p => present (snd p)) rows in
    Permutation (List.concat (map snd (groupby fst rows))) rows
    /\ map fst panel = map fst (groupby fst rows)
    /\ NoDup (map fst panel)
    /\ (forall k, In k (map fst panel) <-> exists r, In r df /\ provider r = Some k)
    /\ List.length rows
       = List.length (filter (fun r => match provider r with
                                       | Some _ => true
                                       | None => false
                                       end) df).
Proof.
  intros R provider emissions df rows panel.
  assert (Hnames : map fst panel = map fst (groupby fst rows)).
  { unfold panel, sum_by_provider. rewrite map_map. reflexivity. }
  split; [apply groupby_partition|]. split; [exact Hnames|].
  split; [rewrite Hnames; apply strictly_increasing_NoDup, sorted_keys,
          groupby_sorted|].
  split.
  - intros k. rewrite Hnames, In_keys_groupby. unfold rows, keyed. split.
    + intros [[k' x] [Hin Hk]]. cbn [fst] in Hk. subst k'.
      apply in_flat_map in Hin. destruct Hin as [r [Hr Hin]].
      exists r. split; [exact Hr|].
      destruct (provider r) as [k'|]; [|contradiction].
      destruct Hin as [Heq|[]]. congruence.
    + intros [r [Hr Hk]]. exists (k, emissions r). split; [|reflexivity].
      apply in_flat_map. exists r. split; [exact Hr|].
      rewrite Hk. now left.
  - unfold rows, keyed. clear.
    induction df as [|r df IH]; [reflexivity|].
    cbn [flat_map filter]. destruct (provider r); cbn [List.length app];
      now rewrite ?length_app, IH.
Qed.

End MetricRows.

Section Rounding.
Import Py Frame Remote Supabase AggregateSpec.

(** X4.  Every number stored in [provider_metrics] and
    [location_metrics] is within 0.005 of the exact aggregate over the
    records of its key: the sums of emissions and energy and the means
    of renewable usage, AI workload and PUE per provider, and the means
    of emissions, energy and renewable usage per location. *)
Theorem X4_stored_metrics_within_half_a_hundredth :
  forall (R : Type) (data : DataFrame) (w : World R),
    (forall recs pm,
        fst (upload_provider_metrics data w) = Some recs -> In pm recs ->
        let exact_sum c :=
          recomputed_sum Cloud_Service_Provider c (pm_provider pm) data in
        let exact_mean c :=
          recomputed_mean Cloud_Service_Provider c (pm_provider pm) data in
        Qabs (pm_total_emissions pm - exact_sum Total_Emissions) <= 1 # 200
        /\ Qabs (pm_energy_consumption pm - exact_sum Energy_Consumption) <= 1 # 200
        /\ Qabs (pm_renewable_energy_usage pm - exact_mean Renewable_Energy_Usage)
           <= 1 # 200
        /\ Qabs (pm_ai_workload pm - exact_mean AI_Workload) <= 1 # 200
        /\ Qabs (pm_pue pm - exact_mean PUE) <= 1 # 200)
    /\ (forall recs lm,
           fst (upload_location_metrics data w) = Some recs -> In lm recs ->
           let exact_mean c := recomputed_mean Location c (lm_location lm) data in
           Qabs (lm_total_emissions lm - exact_mean Total_Emissions) <= 1 # 200
           /\ Qabs (lm_energy_consumption lm - exact_mean Energy_Consumption)
              <= 1 # 200
           /\ Qabs (lm_renewable_energy_usage lm - exact_mean Renewable_Energy_Usage)
              <= 1 # 200).
Proof.
  intros R data w. split.
  - intros recs pm Hup Hin.
    destruct (upload_provider_metrics_rows data w recs Hup) as [_ Hrows].
    destruct (Hrows pm Hin) as [t [Hpm _]]. cbv zeta.
    repeat split;
      (eapply close_to;
       [rewrite Hpm at 1; reflexivity
       |first [apply agg_sum_select|apply agg_mean_select]]).
  - intros recs lm Hup Hin.
    destruct (upload_location_metrics_rows data w recs Hup) as [_ Hrows].
    destruct (Hrows lm Hin) as [t [Hlm _]]. cbv zeta.
    repeat split;
      (eapply close_to; [rewrite Hlm at 1; reflexivity|apply agg_mean_select]).
Qed.

Lemma X4_stored_metrics_within_half_a_hundredth_witness :
  exists pm,
    In pm (provider_metrics
             (tables (snd (upload_provider_metrics (R := Samples.Reading)
                             [Samples.a_100; Samples.a_200]
                             (fresh Samples.tick)))))
    /\ Qabs (pm_pue pm
             - recomputed_mean Cloud_Service_Provider PUE (pm_provider pm)
                 [Samples.a_100; Samples.a_200]) <= 1 # 200.
Proof.
  destruct (X4_stored_metrics_within_half_a_hundredth Samples.Reading
              [Samples.a_100; Samples.a_200] (fresh Samples.tick)) as [H _].
  destruct (fst (upload_provider_metrics (R := Samples.Reading)
                   [Samples.a_100; Samples.a_200] (fresh Samples.tick)))
    as [recs|] eqn:E; [|vm_compute in E; discriminate E].
  destruct recs as [|pm recs]; [vm_compute in E; discriminate E|].
  exists pm. split.
  - destruct (upload_provider_metrics_rows (R := Samples.Reading)
                [Samples.a_100; Samples.a_200] (fresh Samples.tick) (pm :: recs) E)
      as [Happ _].
    rewrite Happ. simpl. now left.
  - destruct (H (pm :: recs) pm eq_refl (or_introl eq_refl)) as (_ & _ & _ & _ & Hp).
    exact Hp.
Defined.

End Rounding.

(** ** The monitor as a reader of the table *)

Section MonitorReads.
Import Py Frame Remote Monitor IngestSpec MonitorSpec.
Context {R : Type}.
Variable provider : R -> option string.
Variable emissions : R -> option Q.

Lemma handle_all_spec (notifications : list (Payload R)) :
  forall s : State R,
    let s' := fold_left (fun st p => handle_broadcast provider emissions p st)
                        notifications s in
    tables (world s') = tables (world s)
    /\ outage (world s') = outage (world s)
    /\ provider_emissions s'
       = if existsb (reaches_update provider emissions) notifications
         then shown_for provider emissions (world s)
         else provider_emissions s.
Proof.
  induction notifications as [|p rest IH]; intros s; simpl; [auto|].
  destruct (handle_broadcast_spec provider emissions p s) as (Ht & Ho & Hp).
  destruct (IH (handle_broadcast provider emissions p s)) as (Ht' & Ho' & Hp').
  cbv zeta in Ht', Ho', Hp'.
  split; [now rewrite Ht'|]. split; [now rewrite Ho'|].
  rewrite Hp', (shown_for_same provider emissions _ _ Ht Ho), Hp.
  destruct (reaches_update provider emissions p); simpl; [|reflexivity].
  now destruct (existsb (reaches_update provider emissions) rest).
Qed.

End MonitorReads.

Section MonitorReadsOnly.
Import Py Frame Remote Monitor IngestSpec MonitorSpec.

(** X5.  [start_realtime_monitoring] only reads the project: whatever
    the subscription does and whatever notifications arrive, the tables
    are left as they were.  A notification without a record, or whose
    record lacks one of the two keys that are printed first, ends in
    the handler's [except] before [update_visualizations] and leaves
    the panel as it is.  Once some notification has got as far as
    [update_visualizations], the panel shows the aggregate of the
    stored table (nothing, if the table cannot be read or lacks a
    column), whatever the records of the notifications hold.  A failed
    subscription handles no notification and prints one line. *)
Theorem X5_monitoring_only_reads :
  forall (R : Type) (provider : R -> option string) (emissions : R -> option Q)
         (subscribe : option exn) (notifications : list (Payload R))
         (s : State R),
    let s' := start_realtime_monitoring provider emissions subscribe
                notifications s in
    tables (world s') = tables (world s)
    /\ provider_emissions s'
       = match subscribe with
         | Some _ => provider_emissions s
         | None =>
             if existsb (reaches_update provider emissions) notifications
             then shown_for provider emissions (world s)
             else provider_emissions s
         end
    /\ (forall e, subscribe = Some e ->
          stdout (world s') = stdout (world s) ++ [Error_in_monitoring e]).
Proof.
  intros R provider emissions subscribe notifications s.
  unfold start_realtime_monitoring.
  destruct subscribe as [e|]; cbv zeta.
  - split; [reflexivity|]. split; [reflexivity|].
    intros e' [= <-]. reflexivity.
  - destruct (handle_all_spec provider emissions notifications
                (printing Monitoring_started s)) as (Ht & _ & Hp).
    cbv zeta in Ht, Hp.
    split; [exact Ht|]. split; [exact Hp|]. intros e H. discriminate H.
Qed.

(** Two notifications for records that are not in the table, on a table
    holding (A, 100): the panel shows what is stored. *)
Example panel_ignores_payloads :
  displayed
    (start_realtime_monitoring Samples.provider_key Samples.emissions_key None
       [ {| new := Some Samples.a_x_200 |}; {| new := None |} ]
       Samples.applied_once)
  = Some [("A", 100)].
Proof. vm_compute. reflexivity. Qed.

(** The rows [upload_emissions_data] stores carry the headers of the
    CSV file, not the keys the monitor reads: a notification for such a
    row prints the KeyError and the panel stays as it is. *)
Example uploaded_rows_never_reach_the_panel :
  let s := {| world := fresh (R := UploadScript.Uploaded) Samples.tick;
              provider_emissions := None |} in
  let s' := start_realtime_monitoring (fun _ => None) (fun _ => None) None
              [ {| new := Some {| UploadScript.row := Samples.dublin_aws;
                                  UploadScript.uploaded_at := Some "t0" |} |} ] s in
  provider_emissions s' = None
  /\ stdout (world s')
     = [ Monitoring_started; New_data_received "t0";
         Error_handling_broadcast (KeyError "cloud_service_provider") ].
Proof. vm_compute. split; reflexivity. Qed.

End MonitorReadsOnly.

(** ** The batch of [collect_cloud_data], in full *)

Section CollectorBatch.
Import Py Collector CollectSpec.

(** the file a non-empty batch is saved to *)
Lemma collect_cloud_data_run (self : CarbonDataCollector) (w : World)
      (a1 a2 a3 : Answer) :
  base_urls self = BASE_URLS ->
  answer_of (http w (gcp_request self)) = Some a1 ->
  answer_of (http w (aws_request self)) = Some a2 ->
  answer_of (http w (azure_request self)) = Some a3 ->
  let df := collected (clock w) (reads w) a1 a2 a3 in
  let n := reads_after (reads_after (reads_after (reads w) a1) a2) a3 in
  fst (collect_cloud_data self w) = Ok df
  /\ files (snd (collect_cloud_data self w))
     = files w
       ++ match df with
          | [] => []
          | _ => [((raw_dir self ++ "/raw_data_all_providers_" ++ clock w n
                    ++ ".csv")%string, df)]
          end
  /\ reads (snd (collect_cloud_data self w))
     = match df with [] => n | _ => S n end.
Proof.
  intros Hurls H1 H2 H3 df n.
  enough (Hrun : exists wf,
             collect_cloud_data self w = (Ok df, wf)
             /\ files wf
                = files w
                  ++ match df with
                     | [] => []
                     | _ => [((raw_dir self ++ "/raw_data_all_providers_"
                               ++ clock w n ++ ".csv")%string, df)]
                     end
             /\ reads wf = match df with [] => n | _ => S n end).
  { destruct Hrun as (wf & -> & Hf & Hr). simpl. auto. }
  unfold collect_cloud_data.
  unfold bind at 1. rewrite (collect_gcp_data_unfold self w Hurls).
  destruct (request_then_frame (url (gcp_request self)) (headers (gcp_request self))
              "GCP" "energy_kwh" "carbon_kg" "network_gb" w a1 H1)
    as (F1 & Hh1 & Hc1 & Hr1 & _ & _ & Hf1).
  cbv zeta in F1, Hh1, Hc1, Hr1, Hf1.
  destruct (bind (_make_api_request (url (gcp_request self))
                                    (headers (gcp_request self))) _ w)
    as [r1 w1]. simpl in F1, Hh1, Hc1, Hr1, Hf1. subst r1.
  unfold bind at 1. rewrite (collect_aws_data_unfold self w1 Hurls).
  rewrite <- Hh1 in H2, H3.
  destruct (request_then_frame (url (aws_request self)) (headers (aws_request self))
              "AWS" "energy_consumption" "co2_emissions" "data_transfer" w1 a2 H2)
    as (F2 & Hh2 & Hc2 & Hr2 & _ & _ & Hf2).
  cbv zeta in F2, Hh2, Hc2, Hr2, Hf2.
  destruct (bind (_make_api_request (url (aws_request self))
                                    (headers (aws_request self))) _ w1)
    as [r2 w2]. simpl in F2, Hh2, Hc2, Hr2, Hf2. subst r2.
  unfold bind at 1. rewrite (collect_azure_data_unfold self w2 Hurls).
  rewrite <- Hh2 in H3.
  destruct (request_then_frame (url (azure_request self)) (headers (azure_request self))
              "Azure" "energy_usage" "carbon_footprint" "network_usage" w2 a3 H3)
    as (F3 & Hh3 & Hc3 & Hr3 & _ & _ & Hf3).
  cbv zeta in F3, Hh3, Hc3, Hr3, Hf3.
  destruct (bind (_make_api_request (url (azure_request self))
                                    (headers (azure_request self))) _ w2)
    as [r3 w3]. simpl in F3, Hh3, Hc3, Hr3, Hf3. subst r3.
  rewrite Hc2, Hr2, Hc1, Hr1.
  change (rows_for "GCP" "energy_kwh" "carbon_kg" "network_gb"
            (clock w (reads w)) a1
          ++ rows_for "AWS" "energy_consumption" "co2_emissions" "data_transfer"
               (clock w (reads_after (reads w) a1)) a2
          ++ rows_for "Azure" "energy_usage" "carbon_footprint" "network_usage"
               (clock w (reads_after (reads_after (reads w) a1) a2)) a3)
    with df.
  assert (Hn : reads w3 = n).
  { unfold n. now rewrite Hr3, Hr2, Hr1. }
  assert (Hc : clock w3 = clock w) by now rewrite Hc3, Hc2, Hc1.
  assert (Hf : files w3 = files w) by now rewrite Hf3, Hf2, Hf1.
  destruct df as [|x rest].
  - exists w3. simpl. rewrite app_nil_r. auto.
  - eexists. split; [reflexivity|]. simpl. rewrite Hn, Hc, Hf. auto.
Qed.

End CollectorBatch.

Section CollectorEdges.
Import Py Collector CollectSpec.

(** X6.  [collect_cloud_data] writes a raw file exactly when it collected
    something: a batch without any row leaves the files alone, and a
    batch with rows appends one file, named after [all_providers] and
    the time of writing, that holds exactly the frame returned. *)
Theorem X6_raw_file_holds_the_returned_frame :
  forall (self : CarbonDataCollector) (w : World) (a_gcp a_aws a_azure : Answer),
    base_urls self = BASE_URLS ->
    answer_of (http w (gcp_request self)) = Some a_gcp ->
    answer_of (http w (aws_request self)) = Some a_aws ->
    answer_of (http w (azure_request self)) = Some a_azure ->
    exists df,
      fst (collect_cloud_data self w) = Ok df
      /\ ((df = [] /\ files (snd (collect_cloud_data self w)) = files w)
          \/ (df <> []
              /\ exists t,
                   files (snd (collect_cloud_data self w))
                   = files w
                     ++ [((raw_dir self ++ "/raw_data_all_providers_" ++ t
                           ++ ".csv")%string, df)])).
Proof.
  intros self w a1 a2 a3 Hurls H1 H2 H3.
  destruct (collect_cloud_data_run self w a1 a2 a3 Hurls H1 H2 H3)
    as (Hdf & Hfiles & _).
  cbv zeta in Hdf, Hfiles.
  exists (collected (clock w) (reads w) a1 a2 a3). split; [exact Hdf|].
  destruct (collected (clock w) (reads w) a1 a2 a3) as [|x rest].
  - left. split; [reflexivity|]. now rewrite Hfiles, app_nil_r.
  - right. split; [discriminate|]. eexists. exact Hfiles.
Qed.

Lemma X6_raw_file_holds_the_returned_frame_witness :
  exists df,
    fst (collect_cloud_data configured gcp_times_out) = Ok df
    /\ ((df = [] /\ files (snd (collect_cloud_data configured gcp_times_out)) = [])
        \/ (df <> []
            /\ exists t,
                 files (snd (collect_cloud_data configured gcp_times_out))
                 = [(("data/raw" ++ "/raw_data_all_providers_" ++ t
                      ++ ".csv")%string, df)])).
Proof.
  apply (X6_raw_file_holds_the_returned_frame configured gcp_times_out
           (Fails "Read timed out")
           (Object [("energy_consumption", VNum 40); ("co2_emissions", VNum 12)])
           (Object [("energy_usage", VNum 55); ("carbon_footprint", VNum 9);
                    ("network_usage", VNum 3)])); reflexivity.
Defined.

Example raw_file_of_a_batch :
  map fst (files (snd (collect_cloud_data configured gcp_times_out)))
  = ["data/raw/raw_data_all_providers_t2.csv"].
Proof. vm_compute. reflexivity. Qed.

Lemma frame_of_non_object (v : value) (name k1 k2 k3 : string) (w : World) :
  truthy v = true -> (forall d, v <> VDict d) ->
  fst (frame_of v name k1 k2 k3 w) = Raise (AttributeError (no_get v))
  /\ sent (snd (frame_of v name k1 k2 k3 w)) = sent w
  /\ files (snd (frame_of v name k1 k2 k3 w)) = files w
  /\ stdout (snd (frame_of v name k1 k2 k3 w)) = stdout w.
Proof.
  intros Ht Hd. unfold frame_of. rewrite Ht. unfold bind, now. simpl.
  destruct v as [| | | | |d]; try (repeat split; reflexivity).
  exfalso. exact (Hd d eq_refl).
Qed.

(** a request answered with such a value: sent, then the AttributeError *)
Lemma request_then_non_object (req : Request) (name k1 k2 k3 : string)
      (w : World) (v : value) :
  truthy v = true -> (forall d, v <> VDict d) ->
  http w req = Ok v ->
  let out := bind (_make_api_request (url req) (headers req))
                  (fun data => frame_of data name k1 k2 k3) w in
  fst out = Raise (AttributeError (no_get v))
  /\ sent (snd out) = sent w ++ [req]
  /\ files (snd out) = files w.
Proof.
  intros Ht Hd Hv. cbv zeta. destruct req as [u h]. cbn [url headers].
  enough (Hrun : exists wf,
             bind (_make_api_request u h)
                  (fun data => frame_of data name k1 k2 k3) w
             = (Raise (AttributeError (no_get v)), wf)
             /\ sent wf = sent w ++ [{| url := u; headers := h |}]
             /\ files wf = files w).
  { destruct Hrun as (wf & -> & Hs & Hf). cbn [fst snd]. auto. }
  unfold bind, _make_api_request, get_json. rewrite Hv.
  match goal with
  | |- context [frame_of v ?n ?a ?b ?c ?w0] =>
      destruct (frame_of_non_object v n a b c w0 Ht Hd) as (F & Hs & Hf & _);
      destruct (frame_of v n a b c w0) as [r w1]
  end.
  cbn [fst snd sent files] in F, Hs, Hf. subst r. exists w1.
  split; [reflexivity|]. split; [exact Hs|exact Hf].
Qed.

(** X7.  An answer that is truthy but not a JSON object (a non-empty
    list, a non-empty string, [true]) is not handled: the collector of
    that source raises the AttributeError of [data.get] ("'list' object
    has no attribute 'get'"), the exception is not caught, and
    [collect_cloud_data] ends with it, whichever of the three sources
    gave the answer.  The sources after it are not requested, the rows
    already collected are lost and nothing is saved. *)
Theorem X7_non_object_answer_aborts_the_batch :
  forall (self : CarbonDataCollector) (w : World) (v : value),
    base_urls self = BASE_URLS ->
    truthy v = true -> (forall d, v <> VDict d) -> (forall q, v <> VNum q) ->
    (http w (gcp_request self) = Ok v ->
     fst (collect_cloud_data self w)
     = Raise (AttributeError ("'" ++ type_name v
                              ++ "' object has no attribute 'get'")%string)
     /\ sent (snd (collect_cloud_data self w)) = sent w ++ [gcp_request self]
     /\ files (snd (collect_cloud_data self w)) = files w)
    /\ (forall a_gcp,
          answer_of (http w (gcp_request self)) = Some a_gcp ->
          http w (aws_request self) = Ok v ->
          fst (collect_cloud_data self w)
          = Raise (AttributeError ("'" ++ type_name v
                                   ++ "' object has no attribute 'get'")%string)
          /\ sent (snd (collect_cloud_data self w))
             = sent w ++ [gcp_request self; aws_request self]
          /\ files (snd (collect_cloud_data self w)) = files w)
    /\ (forall a_gcp a_aws,
          answer_of (http w (gcp_request self)) = Some a_gcp ->
          answer_of (http w (aws_request self)) = Some a_aws ->
          http w (azure_request self) = Ok v ->
          fst (collect_cloud_data self w)
          = Raise (AttributeError ("'" ++ type_name v
                                   ++ "' object has no attribute 'get'")%string)
          /\ sent (snd (collect_cloud_data self w))
             = sent w ++ [gcp_request self; aws_request self; azure_request self]
          /\ files (snd (collect_cloud_data self w)) = files w).
Proof.
  intros self w v Hurls Ht Hd _.
  change ("'" ++ type_name v ++ "' object has no attribute 'get'")%string
    with (no_get v).
  split; [|split].
  - intros Hv.
    enough (Hrun : exists wf,
               collect_cloud_data self w = (Raise (AttributeError (no_get v)), wf)
               /\ sent wf = sent w ++ [gcp_request self]
               /\ files wf = files w).
    { destruct Hrun as (wf & -> & Hs & Hf). simpl. auto. }
    unfold collect_cloud_data.
    unfold bind at 1. rewrite (collect_gcp_data_unfold self w Hurls).
    destruct (request_then_non_object (gcp_request self)
                "GCP" "energy_kwh" "carbon_kg" "network_gb" w v Ht Hd Hv)
      as (F & Hs & Hf).
    cbv zeta in F, Hs, Hf.
    destruct (bind (_make_api_request (url (gcp_request self))
                                      (headers (gcp_request self))) _ w)
      as [r w1]. cbn [fst snd] in F, Hs, Hf. subst r. exists w1.
    split; [reflexivity|]. split; [exact Hs|exact Hf].
  - intros a1 H1 Hv.
    enough (Hrun : exists wf,
               collect_cloud_data self w = (Raise (AttributeError (no_get v)), wf)
               /\ sent wf = sent w ++ [gcp_request self; aws_request self]
               /\ files wf = files w).
    { destruct Hrun as (wf & -> & Hs & Hf). simpl. auto. }
    unfold collect_cloud_data.
    unfold bind at 1. rewrite (collect_gcp_data_unfold self w Hurls).
    destruct (request_then_frame (url (gcp_request self)) (headers (gcp_request self))
                "GCP" "energy_kwh" "carbon_kg" "network_gb" w a1 H1)
      as (F1 & Hh1 & _ & _ & Hs1 & _ & Hf1).
    cbv zeta in F1, Hh1, Hs1, Hf1.
    destruct (bind (_make_api_request (url (gcp_request self))
                                      (headers (gcp_request self))) _ w)
      as [r1 w1]. simpl in F1, Hh1, Hs1, Hf1. subst r1.
    unfold bind at 1. rewrite (collect_aws_data_unfold self w1 Hurls).
    rewrite <- Hh1 in Hv.
    destruct (request_then_non_object (aws_request self)
                "AWS" "energy_consumption" "co2_emissions" "data_transfer"
                w1 v Ht Hd Hv)
      as (F & Hs & Hf).
    cbv zeta in F, Hs, Hf.
    destruct (bind (_make_api_request (url (aws_request self))
                                      (headers (aws_request self))) _ w1)
      as [r w2]. cbn [fst snd] in F, Hs, Hf. subst r. exists w2.
    split; [reflexivity|]. rewrite Hs, Hf, Hs1, Hf1.
    split; [now rewrite <- app_assoc|reflexivity].
  - intros a1 a2 H1 H2 Hv.
    enough (Hrun : exists wf,
               collect_cloud_data self w = (Raise (AttributeError (no_get v)), wf)
               /\ sent wf
                  = sent w ++ [gcp_request self; aws_request self;
                               azure_request self]
               /\ files wf = files w).
    { destruct Hrun as (wf & -> & Hs & Hf). simpl. auto. }
    unfold collect_cloud_data.
    unfold bind at 1. rewrite (collect_gcp_data_unfold self w Hurls).
    destruct (request_then_frame (url (gcp_request self)) (headers (gcp_request self))
                "GCP" "energy_kwh" "carbon_kg" "network_gb" w a1 H1)
      as (F1 & Hh1 & _ & _ & Hs1 & _ & Hf1).
    cbv zeta in F1, Hh1, Hs1, Hf1.
    destruct (bind (_make_api_request (url (gcp_request self))
                                      (headers (gcp_request self))) _ w)
      as [r1 w1]. simpl in F1, Hh1, Hs1, Hf1. subst r1.
    unfold bind at 1. rewrite (collect_aws_data_unfold self w1 Hurls).
    rewrite <- Hh1 in H2, Hv.
    destruct (request_then_frame (url (aws_request self)) (headers (aws_request self))
                "AWS" "energy_consumption" "co2_emissions" "data_transfer" w1 a2 H2)
      as (F2 & Hh2 & _ & _ & Hs2 & _ & Hf2).
    cbv zeta in F2, Hh2, Hs2, Hf2.
    destruct (bind (_make_api_request (url (aws_request self))
                                      (headers (aws_request self))) _ w1)
      as [r2 w2]. simpl in F2, Hh2, Hs2, Hf2. subst r2.
    unfold bind at 1. rewrite (collect_azure_data_unfold self w2 Hurls).
    rewrite <- Hh2 in Hv.
    destruct (request_then_non_object (azure_request self)
                "Azure" "energy_usage" "carbon_footprint" "network_usage"
                w2 v Ht Hd Hv)
      as (F & Hs & Hf).
    cbv zeta in F, Hs, Hf.
    destruct (bind (_make_api_request (url (azure_request self))
                                      (headers (azure_request self))) _ w2)
      as [r w3]. cbn [fst snd] in F, Hs, Hf. subst r. exists w3.
    split; [reflexivity|]. rewrite Hs, Hf, Hs2, Hf2, Hs1, Hf1.
    split; [now rewrite <- !app_assoc|reflexivity].
Qed.

Lemma X7_non_object_answer_aborts_the_batch_witness :
  fst (collect_cloud_data configured
         (world_of (api (Ok aws_payload) (Ok aws_payload) (Ok (VList [VNum 1])))))
  = Raise (AttributeError "'list' object has no attribute 'get'").
Proof.
  destruct (X7_non_object_answer_aborts_the_batch configured
              (world_of (api (Ok aws_payload) (Ok aws_payload)
                             (Ok (VList [VNum 1]))))
              (VList [VNum 1]) eq_refl eq_refl) as (_ & _ & H).
  - intros d Hd. discriminate Hd.
  - intros q Hq. discriminate Hq.
  - destruct (H (Object [("energy_consumption", VNum 40); ("co2_emissions", VNum 12)])
                (Object [("energy_consumption", VNum 40); ("co2_emissions", VNum 12)])
                eq_refl eq_refl eq_refl) as [Hr _].
    exact Hr.
Defined.

(** the texts of the exception for the other answers of that kind *)
Example attribute_error_texts :
  map no_get [VStr "busy"; VBool true; VList []]
  = [ "'str' object has no attribute 'get'";
      "'bool' object has no attribute 'get'";
      "'list' object has no attribute 'get'" ].
Proof. reflexivity. Qed.

End CollectorEdges.

(** ** More on [check_alerts] and [load_data] *)

Section AlertNumbers.
Import Frame Dashboard AlertSpec.

Lemma sum_cons (x : Q) (xs : list Q) : sum (x :: xs) == x + sum xs.
Proof. rewrite !sum_fold_right. reflexivity. Qed.



Lemma length_pos_Q {A : Type} (l : list A) :
  l <> [] -> 0 < inject_Z (Z.of_nat (List.length l)).
Proof.
  intros Hne. destruct l as [|a l]; [contradiction|].
  change 0 with (inject_Z 0). rewrite <- Zlt_Qlt.
  simpl List.length. lia.
Qed.





(** with negative emissions every facility can be above the threshold *)
Example all_facilities_reported :
  map message (critical_alert [facility (-2) 50 1.5; facility (-2) 50 1.5])
  = ["⚠️ 2 facilities exceed emissions threshold"].
Proof. vm_compute. reflexivity. Qed.

End AlertNumbers.

Section LoadDataMore.
Import Frame Dashboard.

Lemma add_coordinates_None (m : Q) (df : DataFrame) :
  add_coordinates m df = None
  <-> exists r, In r df /\ coords_of (Location r) LOCATION_COORDS = None.
Proof.
  induction df as [|r df IH]; cbn [add_coordinates].
  - split; [discriminate|intros [r [[] _]]].
  - destruct (coords_of (Location r) LOCATION_COORDS) as [c|] eqn:E.
    + destruct (add_coordinates m df) as [out|].
      * split; [discriminate|].
        intros [r' [[<-|Hin] Hr']]; [congruence|].
        assert (H : Some out = None) by (apply IH; eauto).
        discriminate H.
      * split; [|reflexivity]. intros _.
        destruct (proj1 IH eq_refl) as [r' [Hin Hr']].
        exists r'. split; [now right|exact Hr'].
    + split; [|reflexivity]. intros _. exists r. split; [now left|exact E].
Qed.

Lemma coords_of_known (x : string) (table : list (string * Coords)) :
  coords_of x table = None <-> ~ In x (map fst table).
Proof.
  induction table as [|[k c] table IH]; simpl.
  - split; [auto|reflexivity].
  - destruct (String.eqb_spec x k) as [->|Hne].
    + split; [discriminate|]. intros H. exfalso. apply H. now left.
    + rewrite IH. split.
      * intros H [E|Hin]; [congruence|auto].
      * intros H Hin. apply H. now right.
Qed.

Lemma add_coordinates_coords (m : Q) (df : DataFrame) (out : list LoadedRow) :
  add_coordinates m df = Some out ->
  forall l, In l out ->
    coords_of (Location (csv l)) LOCATION_COORDS
    = Some {| lat := Latitude l; lon := Longitude l |}.
Proof.
  revert out. induction df as [|r df IH]; intros out; cbn [add_coordinates].
  - intros [= <-] l [].
  - destruct (coords_of (Location r) LOCATION_COORDS) as [c|] eqn:E; [|discriminate].
    destruct (add_coordinates m df) as [out'|]; [|discriminate].
    intros [= <-] l [<-|Hin].
    + cbn [csv Latitude Longitude]. rewrite E. now destruct c.
    + apply (IH out' eq_refl l Hin).
Qed.

(** X9.  One row with a location outside the ten of [LOCATION_COORDS]
    makes [load_data] discard the whole file: it returns [None],
    whatever the other rows hold.  When it returns a frame, every row
    carries the coordinates listed for its location. *)
Theorem X9_one_unknown_location_discards_the_file :
  forall df : DataFrame,
    ((exists r, In r df
                /\ ~ In (Location r)
                     ["California"; "Virginia"; "London"; "Sydney"; "Mumbai";
                      "Dublin"; "Singapore"; "Berlin"; "Tokyo"; "Toronto"]) ->
     load_data (Some df) = None)
    /\ (forall out, load_data (Some df) = Some out ->
          forall l, In l out ->
            In (Location (csv l))
               ["California"; "Virginia"; "London"; "Sydney"; "Mumbai";
                "Dublin"; "Singapore"; "Berlin"; "Tokyo"; "Toronto"]
            /\ coords_of (Location (csv l)) LOCATION_COORDS
               = Some {| lat := Latitude l; lon := Longitude l |}).
Proof.
  intros df. unfold load_data. split.
  - intros [r [Hin Hr]]. apply add_coordinates_None.
    exists r. split; [exact Hin|].
    now apply (coords_of_known (Location r) LOCATION_COORDS).
  - intros out Hout l Hl.
    pose proof (add_coordinates_coords _ _ _ Hout l Hl) as Hc.
    split; [|exact Hc].
    destruct (in_dec string_dec (Location (csv l))
                ["California"; "Virginia"; "London"; "Sydney"; "Mumbai";
                 "Dublin"; "Singapore"; "Berlin"; "Tokyo"; "Toronto"])
      as [Hyes|Hno]; [exact Hyes|exfalso].
    apply (coords_of_known (Location (csv l)) LOCATION_COORDS) in Hno.
    congruence.
Qed.

Lemma X9_one_unknown_location_discards_the_file_witness :
  load_data (Some [Samples.dublin_aws;
                   {| Cloud_Service_Provider := "AWS"; Location := "Paris";
                      Energy_Consumption := 1; Total_Emissions := 1;
                      Renewable_Energy_Usage := 1; AI_Workload := 1;
                      PUE := 1 |}]) = None.
Proof.
  apply (proj1 (X9_one_unknown_location_discards_the_file _)).
  eexists. split; [right; left; reflexivity|].
  cbn [Location]. intros H.
  repeat (destruct H as [H|H]; [discriminate H|]). exact H.
Defined.

(** X10.  For data within the declared ranges (renewable usage between 0
    and 100, PUE between 1 and 2, positive energy and emissions) every
    Sustainability Score [load_data] computes lies between 0 and 1. *)
Theorem X10_score_between_0_and_1 :
  forall (df : DataFrame) (out : list LoadedRow),
    load_data (Some df) = Some out ->
    (forall r, In r df ->
       0 <= Renewable_Energy_Usage r <= 100
       /\ 1 <= PUE r <= 2
       /\ 0 < Energy_Consumption r
       /\ 0 < Total_Emissions r) ->
    forall l, In l out -> 0 <= Sustainability_Score l <= 1.
Proof.
  intros df out Hload Hrange l Hin. unfold load_data in Hload.
  destruct (add_coordinates_rows _ _ _ Hload) as (Hcsv & _ & _).
  destruct (add_coordinates_each _ _ _ Hload l Hin) as [_ Hs].
  assert (Hr : In (csv l) df) by (rewrite <- Hcsv; now apply in_map).
  destruct (Hrange _ Hr) as ((Hr0 & Hr1) & (Hp1 & Hp2) & He & Hm).
  assert (Heff : 0 < energy_efficiency (csv l)).
  { unfold energy_efficiency. apply Qlt_shift_div_l; [exact Hm|]. lra. }
  assert (Hmax : energy_efficiency (csv l) <= max (map energy_efficiency df)).
  { apply max_upper_bound. now apply in_map. }
  rewrite Hs. unfold sustainability_score.
  set (m := max (map energy_efficiency df)) in *.
  set (e := energy_efficiency (csv l)) in *.
  assert (Hm0 : 0 < m) by lra.
  assert (Hc0 : 0 <= e / m).
  { apply Qle_shift_div_l; [exact Hm0|]. lra. }
  assert (Hc1 : e / m <= 1).
  { apply Qle_shift_div_r; [exact Hm0|]. lra. }
  set (c := e / m) in *.
  assert (Ha : Renewable_Energy_Usage (csv l) / 100 * 100
               == Renewable_Energy_Usage (csv l)) by (field; discriminate).
  set (a := Renewable_Energy_Usage (csv l) / 100) in *.
  assert (Hb : (2.0 - PUE (csv l)) / 1.0 == 2 - PUE (csv l)) by (field; discriminate).
  rewrite Hb. split; lra.
Qed.

Lemma X10_score_between_0_and_1_witness :
  Forall (fun l => 0 <= Sustainability_Score l <= 1) LoadedSamples.loaded_two_sites.
Proof.
  apply Forall_forall.
  apply (X10_score_between_0_and_1 Samples.two_sites
           LoadedSamples.loaded_two_sites eq_refl).
  intros r [<-|[<-|[]]]; vm_compute; intuition discriminate.
Defined.

(** a PUE above 2 makes the score of an otherwise poor site negative *)
Example score_below_zero :
  option_map (map (fun l => Qred (Sustainability_Score l)))
    (load_data (Some [ {| Cloud_Service_Provider := "AWS"; Location := "Dublin";
                          Energy_Consumption := 0; Total_Emissions := 100;
                          Renewable_Energy_Usage := 0; AI_Workload := 10;
                          PUE := 2.5 |} ]))
  = Some [- (3 # 20)].
Proof. vm_compute. reflexivity. Qed.

End LoadDataMore.


Section InsightNumbers.
Import Frame Dashboard AlertSpec Fmt Insights.

Lemma nlargest1_None (c : LoadedRow -> Q) (df : list LoadedRow) :
  nlargest1 c df = None <-> df = [].
Proof.
  destruct df as [|r rest]; simpl; [tauto|].
  split; [|discriminate].
  destruct (nlargest1 c rest) as [b|]; [destruct (Qltb (c r) (c b))|]; discriminate.
Qed.



Example insights_of_no_facility : generate_ai_insights [] = None.
Proof. reflexivity. Qed.

Lemma generate_ai_insights_Some (df : list LoadedRow) :
  df <> [] ->
  exists i1,
    generate_ai_insights df
    = Some [ i1;
             {| category := "Renewable Energy";
                title := "Renewable Energy Leaders";
                description :=
                  (str_nat (List.length (high_renewable df))
                   ++ " facilities exceed the average renewable usage of "
                   ++ format_f 1 (mean (map renewable df)) ++ "%")%string;
                impact := "medium" |};
             {| category := "Emissions";
                title := "Emissions Hotspots Identified";
                description :=
                  ("Found " ++ str_nat (List.length (high_emissions df))
                   ++ " facilities with significantly high emissions that need attention")%string;
                impact := "high" |} ].
Proof.
  intros Hne. unfold generate_ai_insights.
  destruct (nlargest1 Energy_Efficiency df) as [top|] eqn:E.
  - eexists. reflexivity.
  - apply nlargest1_None in E. contradiction.
Qed.

End InsightNumbers.


Section Hotspots.
Import Frame Dashboard AlertSpec Fmt Insights InsightSpec.

Lemma insert_sorted_length (x : Q) (l : list Q) :
  List.length (insert_sorted x l) = S (List.length l).
Proof.
  induction l as [|y l IH]; simpl; [reflexivity|].
  destruct (Qle_bool x y); simpl; [reflexivity|now rewrite IH].
Qed.

Lemma insert_sorted_perm (x : Q) (l : list Q) :
  Permutation (insert_sorted x l) (x :: l).
Proof.
  induction l as [|y l IH]; simpl; [reflexivity|].
  destruct (Qle_bool x y); [reflexivity|].
  rewrite IH. apply perm_swap.
Qed.

Lemma sort_values_perm (xs : list Q) : Permutation (sort_values xs) xs.
Proof.
  induction xs as [|x xs IH]; simpl; [reflexivity|].
  rewrite insert_sorted_perm. now constructor.
Qed.

Lemma ascending_cons (y : Q) (l : list Q) :
  ascending (y :: l) <-> (match l with [] => True | z :: _ => y <= z end) /\ ascending l.
Proof.
  unfold ascending. split.
  - intros H. split.
    + destruct l as [|z l]; [exact I|]. apply (H 0%nat). simpl. lia.
    + intros i Hi. apply (H (S i)). simpl. lia.
  - intros [Hhd Htl] [|i] Hi.
    + destruct l as [|z l]; [simpl in Hi; lia|exact Hhd].
    + apply Htl. simpl in Hi. lia.
Qed.

Lemma insert_sorted_ascending (x : Q) (l : list Q) :
  ascending l -> ascending (insert_sorted x l).
Proof.
  induction l as [|y l IH]; intros Hl.
  - simpl. apply ascending_cons. split; [exact I|]. intros i Hi. simpl in Hi. lia.
  - simpl. destruct (Qle_bool x y) eqn:E.
    + apply ascending_cons. split; [now apply Qle_bool_iff|assumption].
    + assert (Hyx : y <= x).
      { apply Qlt_le_weak. apply Qnot_le_lt. intros Hle.
        apply Qle_bool_iff in Hle. congruence. }
      apply ascending_cons in Hl. destruct Hl as [Hhd Htl].
      apply ascending_cons. split; [|now apply IH].
      destruct l as [|z l]; simpl; [assumption|].
      destruct (Qle_bool x z); assumption.
Qed.

Lemma sort_values_ascending (xs : list Q) : ascending (sort_values xs).
Proof.
  induction xs as [|x xs IH]; simpl.
  - intros i Hi. simpl in Hi. lia.
  - now apply insert_sorted_ascending.
Qed.

(** in an ascending list, at most the entries after position [lo] exceed
    a number that is no smaller than the entry at [lo] *)
Lemma above_in_ascending (q : Q) (s : list Q) (lo : nat) :
  ascending s -> (lo < List.length s)%nat -> nth lo s 0 <= q ->
  (List.length (filter (fun x => Qltb q x) s) <= List.length s - S lo)%nat.
Proof.
  revert lo. induction s as [|y s IH]; intros lo Hasc Hlo Hq; [simpl in Hlo; lia|].
  apply ascending_cons in Hasc. destruct Hasc as [Hhd Htl].
  destruct lo as [|lo].
  - simpl in Hq. simpl.
    assert (E : Qltb q y = false) by now apply Qltb_ge.
    rewrite E. pose proof (filter_length_le (fun x => Qltb q x) s). lia.
  - simpl in Hq, Hlo.
    assert (Hlo' : (lo < List.length s)%nat) by lia.
    specialize (IH lo Htl Hlo' Hq).
    assert (Hy : y <= q).
    { clear IH Hlo. revert y s Hhd Htl Hlo' Hq.
      induction lo as [|lo IHlo]; intros y s Hhd Htl Hlo' Hq.
      - destruct s as [|z s]; [simpl in Hlo'; lia|]. simpl in Hq. lra.
      - destruct s as [|z s]; [simpl in Hlo'; lia|].
        apply ascending_cons in Htl. destruct Htl as [Hhd' Htl'].
        simpl in Hq, Hlo'.
        assert (z <= q) by (apply (IHlo z s); [assumption|assumption|lia|assumption]).
        lra. }
    simpl. assert (E : Qltb q y = false) by now apply Qltb_ge.
    rewrite E. simpl in IH. lia.
Qed.

Lemma filter_length_perm {A : Type} (f : A -> bool) (l l' : list A) :
  Permutation l l' -> List.length (filter f l) = List.length (filter f l').
Proof.
  intros H. apply Permutation_length. now apply filter_perm.
Qed.

Lemma quantile_position (n : nat) :
  let lo := Z.to_nat (Qfloor (0.75 * inject_Z (Z.of_nat (n - 1)))) in
  (0 < n)%nat -> (lo < n)%nat /\ (4 * (n - S lo) <= n + 2)%nat.
Proof.
  intros lo Hn. subst lo.
  set (m := Z.of_nat (n - 1)).
  assert (Hm : (0 <= m)%Z) by (unfold m; lia).
  pose proof (Qfloor_le (0.75 * inject_Z m)) as Hlo.
  pose proof (Qlt_floor (0.75 * inject_Z m)) as Hhi.
  set (f := Qfloor (0.75 * inject_Z m)) in *.
  assert (Hm' : 0 <= inject_Z m)
    by (change 0 with (inject_Z 0); now rewrite <- Zle_Qle).
  assert (H1 : (4 * f <= 3 * m)%Z).
  { rewrite Zle_Qle, !inject_Z_mult.
    change (inject_Z 4) with 4. change (inject_Z 3) with 3. lra. }
  assert (H2 : (3 * m < 4 * (f + 1))%Z).
  { rewrite Zlt_Qlt, !inject_Z_mult.
    change (inject_Z 4) with 4. change (inject_Z 3) with 3. lra. }
  assert (H0 : (0 <= f)%Z).
  { unfold f. change 0%Z with (Qfloor 0). apply Qfloor_resp_le. lra. }
  assert (Hn1 : Z.of_nat n = (m + 1)%Z) by (unfold m; lia).
  assert (Hf : Z.of_nat (Z.to_nat f) = f) by now apply Z2Nat.id.
  split; lia.
Qed.

(** the 0.75-quantile is no smaller than the order statistic below its
    position *)
Lemma quantile_lower (xs : list Q) :
  xs <> [] ->
  let lo := Z.to_nat (Qfloor (0.75 * inject_Z (Z.of_nat (List.length xs - 1)))) in
  nth lo (sort_values xs) 0 <= quantile 0.75 xs.
Proof.
  intros Hne lo. unfold quantile. fold lo.
  set (s := sort_values xs).
  set (h := 0.75 * inject_Z (Z.of_nat (List.length xs - 1))).
  pose proof (Qfloor_le h) as Hfl.
  assert (Hhi : nth lo s 0 <= nth (S lo) s (nth lo s 0)).
  { destruct (Nat.lt_ge_cases (S lo) (List.length s)) as [Hlt|Hge].
    - rewrite (nth_indep s (nth lo s 0) 0 Hlt).
      apply (sort_values_ascending xs). exact Hlt.
    - rewrite (nth_overflow s (nth lo s 0) Hge). apply Qle_refl. }
  nra.
Qed.

(** X13. The "emissions hotspots" of the third insight, the facilities
    above the 0.75-quantile of the emissions, are at most a quarter of
    the facilities, rounded up: four times their number is at most the
    number of facilities plus two. *)
Theorem X13_hotspots_at_most_a_quarter
  (df : list LoadedRow) (Hne : df <> []) :
  (4 * List.length (high_emissions df) <= List.length df + 2)%nat
  /\ exists i1 i2,
       generate_ai_insights df
       = Some [ i1; i2;
                {| category := "Emissions";
                   title := "Emissions Hotspots Identified";
                   description :=
                     ("Found " ++ str_nat (List.length (high_emissions df))
                      ++ " facilities with significantly high emissions that need attention")%string;
                   impact := "high" |} ].
Proof.
  split.
  - assert (Hmap : map emitted df <> [])
      by (destruct df; [contradiction|discriminate]).
    assert (Hlen : List.length (high_emissions df)
                   = List.length (filter (fun x => Qltb (quantile 0.75 (map emitted df)) x)
                                    (sort_values (map emitted df)))).
    { unfold high_emissions. cbv zeta.
      rewrite (filter_length_perm _ _ _ (sort_values_perm (map emitted df))).
      generalize (quantile 0.75 (map emitted df)). intros q.
      clear. induction df as [|l df IH]; simpl; [reflexivity|].
      destruct (Qltb q (emitted l)); simpl; now rewrite IH. }
    assert (Hn : (0 < List.length (map emitted df))%nat)
      by (destruct (map emitted df); [contradiction|simpl; lia]).
    destruct (quantile_position (List.length (map emitted df)) Hn) as [Hlo Hquarter].
    pose proof (quantile_lower (map emitted df) Hmap) as Hq. cbv zeta in Hq.
    assert (Hslen : List.length (sort_values (map emitted df))
                    = List.length (map emitted df))
      by (apply Permutation_length, sort_values_perm).
    pose proof (above_in_ascending (quantile 0.75 (map emitted df))
                  (sort_values (map emitted df)) _
                  (sort_values_ascending _)
                  ltac:(rewrite Hslen; exact Hlo) Hq) as Hcount.
    rewrite Hslen in Hcount. rewrite length_map in Hcount, Hquarter.
    rewrite Hlen. lia.
  - destruct (generate_ai_insights_Some df Hne) as [i1 H].
    exists i1. eexists. exact H.
Qed.

Lemma X13_hotspots_at_most_a_quarter_witness :
  (4 * List.length (high_emissions LoadedSamples.loaded_two_sites)
   <= List.length LoadedSamples.loaded_two_sites + 2)%nat.
Proof.
  refine (proj1 (X13_hotspots_at_most_a_quarter
                   LoadedSamples.loaded_two_sites _)).
  vm_compute. discriminate.
Defined.

(** five facilities: the quantile lies on the fourth smallest, one
    facility is above it *)
Example hotspots_of_five :
  let site e := {| csv := {| Cloud_Service_Provider := "AWS"; Location := "Dublin";
                             Energy_Consumption := 1; Total_Emissions := e;
                             Renewable_Energy_Usage := 0; AI_Workload := 0;
                             PUE := 1 |};
                   Energy_Efficiency := 1 / e; Sustainability_Score := 0;
                   Latitude := 0; Longitude := 0 |} in
  map emitted (high_emissions [site 50; site 10; site 40; site 20; site 30]) = [50].
Proof. vm_compute. reflexivity. Qed.

End Hotspots.


Section SidebarFilters.
Import Frame Dashboard AlertSpec Fmt Insights.

Lemma isin_In (x : string) (values : list string) :
  isin x values = true <-> In x values.
Proof.
  unfold isin. rewrite existsb_exists. split.
  - intros [y [Hy E]]. apply String.eqb_eq in E. now subst.
  - intros H. exists x. split; [assumption|apply String.eqb_refl].
Qed.

Lemma unique_In (x : string) (l : list string) : In x (unique l) <-> In x l.
Proof.
  induction l as [|y l IH]; simpl; [tauto|].
  rewrite filter_In, IH. split.
  - intros [H|[H _]]; auto.
  - intros [H|H]; [now left|].
    destruct (String.eqb y x) eqn:E.
    + apply String.eqb_eq in E. now left.
    + right. split; [assumption|reflexivity].
Qed.




(** X15. With the settings the sidebar starts with (every provider and
    location selected, sliders at 0 and 2.0) the page works on exactly
    the facilities of the file with a renewable share of at least 0 and
    a PUE of at most 2.0, in file order; facilities outside are hidden
    from the first run on. *)
Theorem X15_initial_filters_keep_rows_within_sliders (df : list LoadedRow) :
  df_filtered (default_filters df) df
  = filter (fun l => Qle_bool 0 (Renewable_Energy_Usage (csv l))
                     && Qle_bool (PUE (csv l)) 2.0) df.
Proof.
  unfold df_filtered. apply filter_ext_in. intros l Hl.
  cbn [providers locations min_renewable max_pue default_filters].
  assert (Hp : isin (Cloud_Service_Provider (csv l))
                 (unique (map (fun l => Cloud_Service_Provider (csv l)) df)) = true).
  { apply isin_In, unique_In, in_map_iff. now exists l. }
  assert (Hloc : isin (Location (csv l))
                   (unique (map (fun l => Location (csv l)) df)) = true).
  { apply isin_In, unique_In, in_map_iff. now exists l. }
  rewrite Hp, Hloc. reflexivity.
Qed.

(** a facility with PUE 2.5 never reaches the notification center *)
Example pue_above_two_is_hidden :
  let site := {| csv := {| Cloud_Service_Provider := "AWS"; Location := "Dublin";
                           Energy_Consumption := 1; Total_Emissions := 1;
                           Renewable_Energy_Usage := 50; AI_Workload := 0;
                           PUE := 2.5 |};
                 Energy_Efficiency := 1; Sustainability_Score := 0;
                 Latitude := 0; Longitude := 0 |} in
  check_alerts [csv site] <> [] /\ notification_center (default_filters [site]) [site] = [].
Proof. split; [vm_compute; discriminate|vm_compute; reflexivity]. Qed.

End SidebarFilters.


Section UploadThenVerify.
Import Py Frame Remote Supabase UploadScript.






(** two runs on a file of two rows with one provider and one location *)
Example counts_after_two_runs :
  let data := [Samples.a_100; Samples.a_200] in
  let w1 := snd (main (Ok data) None (fresh Samples.tick)) in
  let w2 := snd (main (Ok data) None w1) in
  verify_data_upload None w2
  = Ok [ Cloud_Emissions_Records 4; Provider_Metrics_Records 2;
         Location_Metrics_Records 2 ].
Proof. vm_compute. reflexivity. Qed.

End UploadThenVerify.


Section LiveDashboardDeltas.
Import Py Frame Remote Monitor Fmt LiveDashboard.

Lemma diff_mean_single (x : Q) : diff_mean [x] = None.
Proof. reflexivity. Qed.

End LiveDashboardDeltas.

Section LiveDashboardPage.
Import Py Frame Remote Monitor Fmt LiveDashboard.
Context {R : Type}.
Variable cloud_service_provider : R -> string.
Variable uploaded_at : R -> string.
Variable total_emissions : R -> Q.
Variable ai_workload : R -> Q.
Variable renewable_energy_usage : R -> Q.

Let pass := create_dashboard_pass cloud_service_provider uploaded_at
              total_emissions ai_workload renewable_energy_usage.

(** X18. A pass of the live dashboard over an empty table ends with a
    KeyError, and so does it with the exception of an unreachable
    project: nothing is caught, the page stops updating.  Over a table
    of a single row the three deltas read "+nan". *)
Theorem X18_live_dashboard_edges (w : World R) :
  (forall e, outage w = Some e -> pass w = Raise e)
  /\ (outage w = None -> cloud_emissions (tables w) = [] ->
      pass w = Raise (KeyError "total_emissions"))
  /\ (forall r, outage w = None -> cloud_emissions (tables w) = [r] ->
      exists page,
        pass w = Ok page
        /\ map delta (metrics page) = ["+nan kg"; "+nan%"; "+nan%"]).
Proof.
  unfold pass, create_dashboard_pass, select_cloud_emissions.
  split; [|split].
  - intros e He. now rewrite He.
  - intros Hup Hrows. now rewrite Hup, Hrows.
  - intros r Hup Hrows. rewrite Hup, Hrows.
    eexists. split; reflexivity.
Qed.

End LiveDashboardPage.

Section LiveDashboardExamples.
Import Py Frame Remote Monitor Fmt LiveDashboard TableSamples.

Lemma X18_live_dashboard_edges_witness :
  create_dashboard_pass cloud_service_provider uploaded_at total_emissions
    ai_workload renewable_energy_usage (holding [])
  = Raise (KeyError "total_emissions").
Proof.
  exact (proj1 (proj2 (X18_live_dashboard_edges
                         cloud_service_provider uploaded_at total_emissions
                         ai_workload renewable_energy_usage (holding [])))
           eq_refl eq_refl).
Defined.

(** the values of the three metrics over the sample table *)
Example metrics_of_three_uploads :
  match create_dashboard_pass cloud_service_provider uploaded_at total_emissions
          ai_workload renewable_energy_usage (holding three_uploads) with
  | Ok page => map value (metrics page)
  | Raise _ => []
  end = ["1,130 kg CO₂e"; "43.3%"; "33.3%"].
Proof. vm_compute. reflexivity. Qed.

End LiveDashboardExamples.


Section PublicFrames.
Import Py PublicData PublicSpec.

Lemma repeat_list_length {A : Type} (l : list A) (n : nat) :
  List.length (repeat_list l n) = (List.length l * n)%nat.
Proof.
  induction n as [|n IH]; simpl; [lia|].
  rewrite length_app, IH. lia.
Qed.

Lemma dropna_columns (df : Table) : map fst (dropna df) = map fst df.
Proof. unfold dropna. rewrite map_map. reflexivity. Qed.

Lemma len_dropna (df : Table) :
  df <> [] ->
  len (dropna df) = List.length (filter (complete df) (seq 0 (len df))).
Proof.
  destruct df as [|[c cells] rest]; [contradiction|]. intros _.
  unfold dropna. cbn [map len fst snd]. now rewrite length_map.
Qed.

Lemma dropna_cells (df : Table) (c : string) (cells : list value) :
  In (c, cells) (dropna df) ->
  List.length cells = len (dropna df) /\ forall v, In v cells -> isna v = false.
Proof.
  intros Hin.
  assert (Hne : df <> []) by (destruct df; [contradiction|discriminate]).
  rewrite (len_dropna df Hne).
  unfold dropna in Hin. apply in_map_iff in Hin.
  destruct Hin as [[c' col] [Heq Hcol]]. cbn [fst snd] in Heq.
  assert (Hcells : cells = map (fun i => nth i col VNone)
                             (filter (complete df) (seq 0 (len df))))
    by congruence.
  split; [rewrite Hcells; apply length_map|].
  intros v Hv. rewrite Hcells in Hv. apply in_map_iff in Hv.
  destruct Hv as [i [Hi Hkept]]. apply filter_In in Hkept.
  destruct Hkept as [_ Hcomplete]. unfold complete in Hcomplete.
  rewrite forallb_forall in Hcomplete. specialize (Hcomplete _ Hcol).
  cbn [snd] in Hcomplete.
  destruct (nth_error col i) as [v'|] eqn:E; [|discriminate].
  apply (nth_error_nth _ _ VNone) in E. rewrite E in Hi. subst v'.
  now apply negb_true_iff.
Qed.

Lemma getitem_columns_names (columns : list string) (df sel : Table) :
  getitem_columns columns df = Ok sel -> map fst sel = columns.
Proof.
  unfold getitem_columns. destruct (filter _ columns); [|discriminate].
  intros H. assert (Hsel : sel = map (fun c => (c, match column c df with
                                                    | Some cells => cells
                                                    | None => []
                                                    end)) columns)
    by congruence.
  rewrite Hsel, map_map. cbn [fst]. apply map_id.
Qed.

Lemma dropna_cleaned (columns : list string) (df sel : Table) :
  getitem_columns columns df = Ok sel -> cleaned columns (dropna sel).
Proof.
  intros H. split.
  - rewrite dropna_columns. now apply (getitem_columns_names columns df).
  - intros c cells. apply dropna_cells.
Qed.

End PublicFrames.

Section PublicCollectors.
Import Py PublicData PublicSpec.

Lemma data_source_pure (k : string) (sources : list (string * string)) (w : World) :
  (exists u, data_source k sources w = (Ok u, w) /\ In u (map snd sources))
  \/ data_source k sources w = (Raise (KeyError k), w).
Proof.
  induction sources as [|[k' u] rest IH]; simpl; [now right|].
  destruct (String.eqb k k').
  - left. exists u. split; [reflexivity|now left].
  - destruct IH as [[u' [H Hin]]|H]; [left; exists u'; split; auto|now right].
Qed.

(** the try block the two Our World in Data collectors share: either
    the cleaned selection is saved and returned, or a line is printed
    and the empty frame returned *)
Lemma public_source_run (key name : string) (columns : list string)
      (err : exn -> Line) (self : Collector.CarbonDataCollector) (w : World) :
  let run :=
    try_except
      (source <- data_source key (Collector.data_sources self) ;;
       df <- read_csv source ;;
       selected <- of_result (getitem_columns columns df) ;;
       let df_filtered := dropna selected in
       _ <- save_raw_data self df_filtered name ;;
       ret df_filtered)
      (fun e => _ <- print (err e) ;; ret empty_frame) w in
  ((exists df path,
       fst run = Ok df /\ cleaned columns df
       /\ saved (snd run) = saved w ++ [(path, df)]
       /\ lines (snd run) = lines w)
   \/ (exists e,
         fst run = Ok empty_frame
         /\ saved (snd run) = saved w
         /\ lines (snd run) = lines w ++ [err e]))
  /\ (forall p, In p (opened (snd run)) ->
        In p (opened w) \/ In p (map snd (Collector.data_sources self)))
  /\ log (snd run) = log w
  /\ Collector.mkdir_raises (base (snd run)) = Collector.mkdir_raises (base w).
Proof.
  cbv zeta. unfold try_except, bind.
  destruct (data_source_pure key (Collector.data_sources self) w)
    as [[u [Hsrc Hin]]|Hsrc]; rewrite Hsrc.
  - unfold read_csv, of_result. cbv beta iota.
    destruct (read_csv_of w u) as [df|e].
    + destruct (getitem_columns columns df) as [sel|e] eqn:Hsel.
      * unfold save_raw_data, bind, now, lift, Collector.now, to_csv, ret.
        cbn. split; [|split; [|split]]; [left| |reflexivity|reflexivity].
        -- do 2 eexists. split; [reflexivity|].
           split; [now apply (dropna_cleaned columns df)|].
           split; reflexivity.
        -- intros p Hp. apply in_app_or in Hp.
           destruct Hp as [Hp|[<-|[]]]; auto.
      * unfold print, ret. cbn. split; [|split; [|split]]; [right| |reflexivity|reflexivity].
        -- exists e. repeat split.
        -- intros p Hp. apply in_app_or in Hp.
           destruct Hp as [Hp|[<-|[]]]; auto.
    + unfold print, ret. cbn. split; [|split; [|split]]; [right| |reflexivity|reflexivity].
      * exists e. repeat split.
      * intros p Hp. apply in_app_or in Hp.
        destruct Hp as [Hp|[<-|[]]]; auto.
  - unfold print, ret. cbn. split; [|split; [|split]]; [right| |reflexivity|reflexivity].
    + eexists. repeat split.
    + auto.
Qed.

(** X19. The two Our World in Data collectors never raise.  Each either
    returns a frame with exactly its five columns and no missing cell,
    saved as returned in one new raw file (also when no row is left),
    or prints its error line, saves nothing and returns the empty
    frame. *)
Theorem X19_public_sources_return_clean_frames
  (self : Collector.CarbonDataCollector) (w : World) :
  ((exists df path,
       fst (collect_github_carbon_data self w) = Ok df
       /\ cleaned github_columns df
       /\ saved (snd (collect_github_carbon_data self w)) = saved w ++ [(path, df)]
       /\ lines (snd (collect_github_carbon_data self w)) = lines w)
   \/ (exists e,
         fst (collect_github_carbon_data self w) = Ok empty_frame
         /\ saved (snd (collect_github_carbon_data self w)) = saved w
         /\ lines (snd (collect_github_carbon_data self w))
            = lines w ++ [Error_collecting_GitHub_carbon_data e]))
  /\ ((exists df path,
          fst (collect_energy_data self w) = Ok df
          /\ cleaned energy_columns df
          /\ saved (snd (collect_energy_data self w)) = saved w ++ [(path, df)]
          /\ lines (snd (collect_energy_data self w)) = lines w)
      \/ (exists e,
            fst (collect_energy_data self w) = Ok empty_frame
            /\ saved (snd (collect_energy_data self w)) = saved w
            /\ lines (snd (collect_energy_data self w))
               = lines w ++ [Error_collecting_energy_data e])).
Proof.
  split.
  - exact (proj1 (public_source_run "github_data" "github_carbon" github_columns
                    Error_collecting_GitHub_carbon_data self w)).
  - exact (proj1 (public_source_run "energy_data" "energy" energy_columns
                    Error_collecting_energy_data self w)).
Qed.

End PublicCollectors.


Section SampleGenerator.
Import Py PublicData PublicSpec.

(** three service types repeated [n / 3 + 1] times are always more
    than [n] *)
Lemma service_types_overshoot (n : nat) :
  Nat.eqb (List.length (repeat_list [VStr "compute"; VStr "storage"; VStr "network"]
                          (n / 3 + 1))) n = false.
Proof.
  apply Nat.eqb_neq. rewrite repeat_list_length. simpl List.length.
  pose proof (Nat.div_mod_eq n 3) as Hdiv.
  pose proof (Nat.mod_upper_bound n 3) as Hmod. lia.
Qed.

(** the sample generator on any list of dates *)
Lemma sample_generator_run
  (dates : list value) (self : Collector.CarbonDataCollector) (w : World) :
  fst (generate_sample_cloud_data_for dates self w)
  = Raise (ValueError "All arrays must be of the same length")
  /\ saved (snd (generate_sample_cloud_data_for dates self w)) = saved w
  /\ lines (snd (generate_sample_cloud_data_for dates self w)) = lines w
  /\ opened (snd (generate_sample_cloud_data_for dates self w)) = opened w.
Proof.
  unfold generate_sample_cloud_data_for. cbv zeta.
  unfold bind, normal, of_result, DataFrame_of. cbv beta iota.
  cbn [forallb snd]. rewrite service_types_overshoot. cbn. auto.
Qed.

(** X20. [generate_sample_cloud_data] never returns a frame: its
    [service_type] column always has more entries than there are dates
    (three names repeated [n // 3 + 1] times), so the DataFrame
    constructor raises ValueError for every date range, the one of the
    source included, and nothing is saved or printed. *)
Theorem X20_sample_generator_always_raises
  (dates : list value) (self : Collector.CarbonDataCollector) (w : World) :
  fst (generate_sample_cloud_data_for dates self w)
  = Raise (ValueError "All arrays must be of the same length")
  /\ saved (snd (generate_sample_cloud_data_for dates self w)) = saved w
  /\ lines (snd (generate_sample_cloud_data_for dates self w)) = lines w
  /\ opened (snd (generate_sample_cloud_data_for dates self w)) = opened w
  /\ fst (generate_sample_cloud_data self w)
     = Raise (ValueError "All arrays must be of the same length").
Proof.
  destruct (sample_generator_run dates self w) as (H1 & H2 & H3 & H4).
  split; [exact H1|]. split; [exact H2|]. split; [exact H3|]. split; [exact H4|].
  exact (proj1 (sample_generator_run date_range_2023 self w)).
Qed.

Example dates_of_2023 :
  List.length date_range_2023 = 365%nat
  /\ nth 58 date_range_2023 VNone = VStr "2023-02-28"
  /\ nth 59 date_range_2023 VNone = VStr "2023-03-01"
  /\ List.last date_range_2023 VNone = VStr "2023-12-31".
Proof. vm_compute. auto. Qed.

Lemma lift_init_pure (getenv : string -> option string) (w : World) :
  (exists e, Collector.mkdir_raises (base w) = Some e
             /\ lift (Collector.__init__ getenv) w = (Raise e, w))
  \/ (exists self, Collector.mkdir_raises (base w) = None
                   /\ lift (Collector.__init__ getenv) w = (Ok self, w)
                   /\ Collector.data_sources self = Collector.DATA_SOURCES
                   /\ Collector.base_urls self = Collector.BASE_URLS).
Proof.
  unfold lift, Collector.__init__. destruct w as [b r j n d o f l g s].
  cbn [base read_csv_of json_of noise draws opened fetched lines log saved].
  destruct b as [h m c rd se so fi]. cbn [Collector.mkdir_raises].
  destruct m as [e|].
  - left. exists e. split; reflexivity.
  - right. eexists. repeat split.
Qed.

(** X21. [test_data_collection] never completes.  Unless the
    constructor already fails on the data directory, it ends with the
    ValueError of the sample generator: "Data collection complete!" and
    the record counts are never printed, the two local CSV files are
    never read, and at most the two public-data files are saved. *)
Theorem X21_collection_test_never_completes
  (getenv : string -> option string) (w : World) :
  exists e w',
    test_data_collection getenv w = (Raise e, w')
    /\ (Collector.mkdir_raises (base w) = Some e
        \/ e = ValueError "All arrays must be of the same length")
    /\ (forall l, In l (lines w') -> In l (lines w) \/ is_collect_error l)
    /\ (forall p, In p (opened w') ->
          In p (opened w) \/ In p (map snd Collector.DATA_SOURCES))
    /\ (List.length (saved w') <= List.length (saved w) + 2)%nat.
Proof.
  unfold test_data_collection.
  destruct (lift_init_pure getenv w) as [[e [Hm Hinit]]|[self [Hm [Hinit [Hsrc _]]]]].
  - exists e, w. unfold bind at 1. rewrite Hinit.
    split; [reflexivity|]. split; [now left|].
    split; [auto|]. split; [auto|lia].
  - unfold bind at 1. rewrite Hinit.
    pose proof (public_source_run "github_data" "github_carbon" github_columns
                  Error_collecting_GitHub_carbon_data self w) as Hg.
    cbv zeta in Hg.
    change (try_except _ _ w) with (collect_github_carbon_data self w) in Hg.
    unfold bind at 1.
    destruct (collect_github_carbon_data self w) as [r1 w1].
    cbn [fst snd] in Hg. destruct Hg as (Hg & Hopen1 & _ & _).
    assert (Hr1 : exists df1, r1 = Ok df1)
      by (destruct Hg as [(df & p & H & _)|(e & H & _)]; eauto).
    destruct Hr1 as [df1 ->].
    pose proof (public_source_run "energy_data" "energy" energy_columns
                  Error_collecting_energy_data self w1) as He.
    cbv zeta in He.
    change (try_except _ _ w1) with (collect_energy_data self w1) in He.
    unfold bind at 1.
    destruct (collect_energy_data self w1) as [r2 w2].
    cbn [fst snd] in He. destruct He as (He & Hopen2 & _ & _).
    assert (Hr2 : exists df2, r2 = Ok df2)
      by (destruct He as [(df & p & H & _)|(e & H & _)]; eauto).
    destruct Hr2 as [df2 ->].
    pose proof (sample_generator_run date_range_2023 self w2) as Hs.
    change (generate_sample_cloud_data_for date_range_2023) with generate_sample_cloud_data in Hs.
    unfold bind at 1.
    destruct (generate_sample_cloud_data self w2) as [r3 w3].
    cbn [fst snd] in Hs. destruct Hs as (Hr3 & Hsaved3 & Hlines3 & Hopen3).
    rewrite Hr3.
    eexists. exists w3. split; [reflexivity|]. split; [now right|].
    rewrite Hsrc in Hopen1, Hopen2.
    split; [|split].
    + intros l Hl. rewrite Hlines3 in Hl.
      assert (H2 : In l (lines w1) \/ is_collect_error l).
      { destruct He as [(df & p & _ & _ & _ & Hl2)|(e & _ & _ & Hl2)];
          rewrite Hl2 in Hl; [now left|].
        apply in_app_or in Hl. destruct Hl as [Hl|[<-|[]]]; [now left|].
        right. exists e. now right. }
      destruct H2 as [H2|H2]; [|now right].
      destruct Hg as [(df & p & _ & _ & _ & Hl1)|(e & _ & _ & Hl1)];
        rewrite Hl1 in H2; [now left|].
      apply in_app_or in H2. destruct H2 as [H2|[<-|[]]]; [now left|].
      right. exists e. now left.
    + intros p Hp. rewrite Hopen3 in Hp.
      destruct (Hopen2 p Hp) as [H|H]; [|now right].
      apply Hopen1. exact H.
    + rewrite Hsaved3.
      assert (H1 : (List.length (saved w1) <= List.length (saved w) + 1)%nat).
      { destruct Hg as [(df & p & _ & _ & Hs1 & _)|(e & _ & Hs1 & _)];
          rewrite Hs1; [rewrite length_app; simpl|]; lia. }
      assert (H2 : (List.length (saved w2) <= List.length (saved w1) + 1)%nat).
      { destruct He as [(df & p & _ & _ & Hs2 & _)|(e & _ & Hs2 & _)];
          rewrite Hs2; [rewrite length_app; simpl|]; lia. }
      lia.
Qed.

End SampleGenerator.


Section Benchmarks.
Import Py PublicData PublicSpec.

Lemma comprehension_cases (entries : list value) :
  (exists ds, entries = map VDict ds
              /\ forall k, comprehension k entries = Ok (map (dict_get k VNone) ds))
  \/ (exists e, forall k, comprehension k entries = Raise e).
Proof.
  induction entries as [|entry rest IH].
  - left. exists []. split; reflexivity.
  - destruct entry as [| | | | |d];
      try (right; eexists; intros k; reflexivity).
    destruct IH as [[ds [Hrest Hcomp]]|[e Hfail]].
    + left. exists (d :: ds). split; [simpl; now rewrite Hrest|].
      intros k. simpl. now rewrite Hcomp.
    + right. exists e. intros k. simpl. now rewrite Hfail.
Qed.

Lemma iterate_one_dict (data : value) (d : dict) :
  iterate data = Ok [VDict d] -> data = VList [VDict d].
Proof.
  destruct data as [| | |s|l|d']; simpl; try discriminate.
  - destruct s as [|c s]; simpl; discriminate.
  - congruence.
  - destruct d' as [|[k v] d']; simpl; discriminate.
Qed.

(** a run of the benchmark collector: a frame of one row when the
    response is a list of exactly one object, else the empty frame *)
Lemma benchmarks_run (self : Collector.CarbonDataCollector) (w : World) :
  let url := "https://dawn.cs.stanford.edu/benchmark/data/latest.json" in
  exists df w',
    collect_training_benchmarks self w = (Ok df, w')
    /\ log w' = log w
    /\ fetched w' = fetched w ++ [url]
    /\ ((exists d path,
           json_of w url = Ok (VList [VDict d])
           /\ df = [ ("timestamp", [VStr (Collector.clock (base w) (Collector.reads (base w)))]);
                     ("model_name", [dict_get "model_name" VNone d]);
                     ("training_time", [dict_get "training_time" VNone d]);
                     ("energy_consumption", [dict_get "energy_consumption" VNone d]);
                     ("carbon_footprint", [dict_get "carbon_footprint" VNone d]) ]
           /\ saved w' = saved w ++ [(path, df)]
           /\ lines w' = lines w)
        \/ ((forall d, json_of w url <> Ok (VList [VDict d]))
            /\ df = empty_frame
            /\ saved w' = saved w
            /\ exists e, lines w' = lines w ++ [Error_collecting_benchmark_data e])).
Proof.
  cbv zeta. unfold collect_training_benchmarks. cbv zeta.
  unfold try_except, bind, get_json. cbv beta iota.
  destruct (json_of w _) as [data|e] eqn:Hjson.
  - unfold now, lift, Collector.now. cbv beta iota. cbn [base].
    unfold get_all, of_result.
    destruct (iterate data) as [entries|e] eqn:Hit.
    + destruct (comprehension_cases entries) as [[ds [Hent Hcomp]]|[e Hfail]].
      * rewrite !Hcomp. unfold DataFrame_of. cbn [forallb snd List.length].
        rewrite !length_map.
        destruct ds as [|d [|d' ds]].
        -- cbn. do 2 eexists. split; [reflexivity|]. split; [reflexivity|].
           split; [reflexivity|]. right.
           split; [|split; [reflexivity|split; [reflexivity|eexists; reflexivity]]].
           intros d Hd. assert (data = VList [VDict d]) by congruence. subst data.
           simpl in Hit. subst entries. discriminate.
        -- cbn. do 2 eexists. split; [reflexivity|]. split; [reflexivity|].
           split; [reflexivity|]. left.
           exists d. eexists. split; [|split; [reflexivity|split; reflexivity]].
           f_equal. apply iterate_one_dict. now rewrite Hit, Hent.
        -- cbn. do 2 eexists. split; [reflexivity|]. split; [reflexivity|].
           split; [reflexivity|]. right.
           split; [|split; [reflexivity|split; [reflexivity|eexists; reflexivity]]].
           intros d0 Hd. assert (data = VList [VDict d0]) by congruence. subst data.
           simpl in Hit. subst entries. discriminate.
      * rewrite Hfail. cbn. do 2 eexists. split; [reflexivity|]. split; [reflexivity|].
        split; [reflexivity|]. right.
        split; [|split; [reflexivity|split; [reflexivity|eexists; reflexivity]]].
        intros d Hd. assert (data = VList [VDict d]) by congruence. subst data.
        simpl in Hit. assert (entries = [VDict d]) by congruence. subst entries.
        specialize (Hfail "model_name"). discriminate.
    + cbn. do 2 eexists. split; [reflexivity|]. split; [reflexivity|].
      split; [reflexivity|]. right.
      split; [|split; [reflexivity|split; [reflexivity|eexists; reflexivity]]].
      intros d Hd. assert (data = VList [VDict d]) by congruence. subst data.
      discriminate.
  - unfold print, ret. cbn. do 2 eexists. split; [reflexivity|]. split; [reflexivity|].
    split; [reflexivity|]. right.
    split; [|split; [reflexivity|split; [reflexivity|eexists; reflexivity]]].
    intros d Hd. discriminate.
Qed.

(** X22. [collect_training_benchmarks] never raises, and it returns
    data only when the service answers with a JSON list of exactly one
    object: the frame then has one row, stamped with the time of the
    call, and is saved.  For every other answer, a list of two or more
    benchmark entries included, it prints an error, saves nothing and
    returns the empty frame. *)
Theorem X22_benchmarks_need_exactly_one_entry
  (self : Collector.CarbonDataCollector) (w : World) :
  exists df w',
    collect_training_benchmarks self w = (Ok df, w')
    /\ match json_of w "https://dawn.cs.stanford.edu/benchmark/data/latest.json" with
       | Ok (VList [VDict d]) =>
           len df = 1%nat
           /\ column "model_name" df = Some [dict_get "model_name" VNone d]
           /\ (exists path, saved w' = saved w ++ [(path, df)])
           /\ lines w' = lines w
       | _ =>
           df = empty_frame
           /\ saved w' = saved w
           /\ exists e, lines w' = lines w ++ [Error_collecting_benchmark_data e]
       end.
Proof.
  destruct (benchmarks_run self w) as [df [w' (Hrun & _ & _ & Hcases)]].
  exists df, w'. split; [exact Hrun|].
  destruct Hcases as [(d & path & Hjson & Hdf & Hsaved & Hlines)
                     |(Hjson & Hdf & Hsaved & Hlines)].
  - rewrite Hjson. rewrite Hdf at 1 2. split; [reflexivity|].
    split; [reflexivity|]. split; [now exists path|exact Hlines].
  - destruct (json_of w _) as [[| | | |[|[| | | | |d] [|x l]]|]|];
      try (split; [exact Hdf|split; [exact Hsaved|exact Hlines]]).
    exfalso. apply (Hjson d). reflexivity.
Qed.

(** two benchmark entries are refused as a whole *)
Example two_benchmarks_are_lost :
  let w := {| base := Collector.Build_World
                        (fun _ => Raise (RequestException "offline")) None
                        Samples.tick 0 [] [] [];
              read_csv_of := fun _ => Raise (OSError "no such file");
              json_of := fun _ => Ok (VList [VDict [("model_name", VStr "resnet")];
                                             VDict [("model_name", VStr "bert")]]);
              noise := fun _ _ => 0; draws := 0; opened := []; fetched := [];
              lines := []; log := []; saved := [] |} in
  forall self,
    fst (collect_training_benchmarks self w) = Ok empty_frame
    /\ lines (snd (collect_training_benchmarks self w))
       = [Error_collecting_benchmark_data
            (ValueError "All arrays must be of the same length")].
Proof. intros w self. split; reflexivity. Qed.

End Benchmarks.


Section CollectionRun.
Import Py PublicData PublicSpec.

(** a result that is a frame of at most [n] rows, or an exception *)
Lemma frame_of_at_most_one (data : value) (name k1 k2 k3 : string)
      (w w' : Collector.World) (df : Collector.DataFrame) :
  Collector.frame_of data name k1 k2 k3 w = (Ok df, w') ->
  (List.length df <= 1)%nat.
Proof.
  unfold Collector.frame_of. destruct (truthy data).
  - unfold Collector.bind, Collector.now, Collector.get_or_zero,
      Collector.ret, Collector.raise.
    destruct data; cbn; intros H; try discriminate.
    assert (Hdf : Ok df = Ok [ _ ]) by (symmetry; exact (f_equal fst H)).
    injection Hdf as ->. simpl. lia.
  - unfold Collector.ret. intros H.
    assert (Hdf : Ok df = Ok (@nil Collector.Row)) by (symmetry; exact (f_equal fst H)).
    injection Hdf as ->. simpl. lia.
Qed.

Lemma collector_bind_Ok {A B : Type} (m : Collector.M A) (k : A -> Collector.M B)
      (w w' : Collector.World) (b : B) :
  Collector.bind m k w = (Ok b, w') ->
  exists a w1, m w = (Ok a, w1) /\ k a w1 = (Ok b, w').
Proof.
  unfold Collector.bind. destruct (m w) as [[a|e] w1]; [eauto|discriminate].
Qed.

Lemma provider_at_most_one (key path_ name k1 k2 k3 : string)
      (headers_ : list (string * option string))
      (self : Collector.CarbonDataCollector)
      (w w' : Collector.World) (df : Collector.DataFrame) :
  Collector.bind (Collector.base_url key (Collector.base_urls self))
    (fun base_ =>
       Collector.bind (Collector._make_api_request (base_ ++ path_)%string headers_)
         (fun data => Collector.frame_of data name k1 k2 k3)) w = (Ok df, w') ->
  (List.length df <= 1)%nat.
Proof.
  intros H. apply collector_bind_Ok in H. destruct H as [b [w1 [_ H]]].
  apply collector_bind_Ok in H. destruct H as [data [w2 [_ H]]].
  now apply frame_of_at_most_one in H.
Qed.

(** a batch of the provider collectors holds at most three rows *)
Lemma collect_cloud_data_at_most_three (self : Collector.CarbonDataCollector)
      (w w' : Collector.World) (df : Collector.DataFrame) :
  Collector.collect_cloud_data self w = (Ok df, w') -> (List.length df <= 3)%nat.
Proof.
  unfold Collector.collect_cloud_data. intros H.
  apply collector_bind_Ok in H. destruct H as [g [w1 [Hg H]]].
  apply collector_bind_Ok in H. destruct H as [a [w2 [Ha H]]].
  apply collector_bind_Ok in H. destruct H as [z [w3 [Hz H]]].
  apply provider_at_most_one in Hg.
  apply provider_at_most_one in Ha.
  apply provider_at_most_one in Hz.
  cbv zeta in H.
  assert (Hdf : df = g ++ a ++ z).
  { destruct (g ++ a ++ z) as [|r rest].
    - unfold Collector.ret in H. congruence.
    - unfold Collector.bind, Collector.save_raw_data, Collector.bind,
        Collector.now, Collector.to_csv, Collector.ret in H.
      cbn in H. congruence. }
  rewrite Hdf, !length_app. lia.
Qed.

(** X23. A run of [collect_data.main] logs at most three cloud records
    and at most one benchmark record.  When it fails, it fails before
    the benchmarks are requested: in the constructor, or in the
    provider batch after "Collecting cloud provider data...". *)
Theorem X23_collection_run_logs_small_counts
  (getenv : string -> option string) (w : World) :
  match main getenv w with
  | (Ok (cloud_data, benchmark_data), w') =>
      (List.length cloud_data <= 3)%nat
      /\ (len benchmark_data <= 1)%nat
      /\ log w'
         = log w
           ++ [ Collecting_cloud_provider_data;
                Collected_records_from_cloud_providers (List.length cloud_data);
                Collecting_training_benchmark_data;
                Collected_benchmark_records (len benchmark_data) ]
  | (Raise e, w') =>
      (log w' = log w \/ log w' = log w ++ [Collecting_cloud_provider_data])
      /\ fetched w' = fetched w
      /\ saved w' = saved w
  end.
Proof.
  unfold main.
  destruct (lift_init_pure getenv w) as [[e [Hm Hinit]]|[self [Hm [Hinit _]]]];
    unfold bind at 1; rewrite Hinit.
  - split; [now left|split; reflexivity].
  - unfold bind at 1, info at 1. cbv beta iota.
    unfold bind at 1, lift at 1. cbn [base].
    destruct (Collector.collect_cloud_data self (base w)) as [[cloud_data|e] b] eqn:Hcloud.
    + apply collect_cloud_data_at_most_three in Hcloud.
      unfold bind at 1, info at 1. cbv beta iota.
      unfold bind at 1, info at 1. cbv beta iota.
      cbn [base read_csv_of json_of noise draws opened fetched lines log saved].
      unfold bind at 1.
      match goal with
      | |- context [collect_training_benchmarks self ?w0] =>
          destruct (benchmarks_run self w0) as [df [w' (Hrun & Hlog & _ & Hcases)]]
      end.
      rewrite Hrun.
      unfold bind, info, ret. cbn [fst snd].
      split; [exact Hcloud|]. split.
      * destruct Hcases as [(d & p & _ & Hdf & _)|(_ & Hdf & _)];
          rewrite Hdf; simpl; lia.
      * cbn [log]. rewrite Hlog. cbn [log].
        rewrite <- !app_assoc. reflexivity.
    + cbn. split; [now right|split; reflexivity].
Qed.

End CollectionRun.


Section AnalyzerTable.
Import Py Frame Remote Supabase Analyzer.

Lemma stamped_map {A B C : Type} (mk : A -> string -> B) (fa : A -> C)
      (fb : B -> C) (groups : list A) (recs : list B) :
  (forall g t, fb (mk g t) = fa g) ->
  Forall2 (fun g b => exists t, b = mk g t) groups recs ->
  map fb recs = map fa groups.
Proof.
  intros Hk. induction 1 as [|g b groups recs [t ->] _ IH]; simpl; [reflexivity|].
  now rewrite Hk, IH.
Qed.

(** X24. The table [analyze_cloud_emissions] prints and the rows
    [upload_provider_metrics] stores for the same file agree, row by
    row and in the same order, on the provider, the total emissions,
    the AI workload and the renewable share. *)
Theorem X24_analysis_agrees_with_stored_metrics
  (R : Type) (data : DataFrame) (w : World R) (Hup : outage w = None) :
  exists recs,
    fst (upload_provider_metrics data w) = Some recs
    /\ provider_metrics (tables (snd (upload_provider_metrics data w)))
       = provider_metrics (tables w) ++ recs
    /\ map of_metric recs = analyze_cloud_emissions data.
Proof.
  unfold upload_provider_metrics.
  destruct (stamp_calculated_at_spec (R := R) provider_metric
              (groupby Cloud_Service_Provider data) w) as (H1 & Ht & Ho).
  destruct (stamp_calculated_at provider_metric _ w) as [records w1].
  simpl in H1, Ht, Ho. unfold insert_provider_metrics. rewrite Ho, Hup.
  exists records. split; [reflexivity|]. split; [simpl; now rewrite Ht|].
  unfold analyze_cloud_emissions.
  apply (stamped_map provider_metric); [|exact H1].
  intros g t. reflexivity.
Qed.

Lemma X24_analysis_agrees_with_stored_metrics_witness :
  exists recs,
    fst (upload_provider_metrics Samples.two_sites
           (fresh (R := Samples.Reading) Samples.tick)) = Some recs
    /\ provider_metrics (tables (snd (upload_provider_metrics Samples.two_sites
                                        (fresh (R := Samples.Reading) Samples.tick))))
       = [] ++ recs
    /\ map of_metric recs = analyze_cloud_emissions Samples.two_sites.
Proof.
  exact (X24_analysis_agrees_with_stored_metrics Samples.Reading Samples.two_sites
           (fresh Samples.tick) eq_refl).
Defined.

End AnalyzerTable.

Section RadarChart.
Import Frame Dashboard Insights Charts.

Lemma sum_between (a b : Q) (xs : list Q) :
  Forall (fun x => a <= x <= b) xs ->
  a * inject_Z (Z.of_nat (List.length xs)) <= sum xs
  /\ sum xs <= b * inject_Z (Z.of_nat (List.length xs)).
Proof.
  induction 1 as [|x xs [Hx1 Hx2] _ [IH1 IH2]].
  - unfold sum. simpl. split; ring_simplify; apply Qle_refl.
  - rewrite sum_cons.
    change (List.length (x :: xs)) with (S (List.length xs)).
    rewrite Nat2Z.inj_succ, <- Z.add_1_r, inject_Z_plus.
    change (inject_Z 1) with 1. split; lra.
Qed.

(** the mean of numbers between two bounds lies between them *)
Lemma mean_between (a b : Q) (xs : list Q) :
  xs <> [] -> Forall (fun x => a <= x <= b) xs -> a <= mean xs <= b.
Proof.
  intros Hne Hall. destruct (sum_between a b xs Hall) as [H1 H2].
  pose proof (length_pos_Q xs Hne) as Hpos. unfold mean. split.
  - apply Qle_shift_div_l; assumption.
  - apply Qle_shift_div_r; assumption.
Qed.

Lemma unique_NoDup (l : list string) : NoDup (unique l).
Proof.
  induction l as [|x l IH]; simpl; constructor.
  - rewrite filter_In. intros [_ H]. rewrite String.eqb_refl in H. discriminate.
  - now apply NoDup_filter.
Qed.

(** X25. The radar chart has one trace per provider, in the order the
    providers first appear in the frame, and every trace has five
    values.  When the numbers of every facility lie in their natural
    ranges (efficiency positive, the percentages in [0, 100], PUE in
    [1, 2], score in [0, 1]), the first value of a trace (the mean
    efficiency over the largest efficiency) is not negative and the
    other four lie on the radial axis [0, 1] the chart draws. *)
Theorem X25_radar_traces_per_provider
  (df : list LoadedRow) (Hrange : forall l, In l df -> in_range l) :
  map fst (create_radar_chart df) = unique (map provider_of df)
  /\ NoDup (map fst (create_radar_chart df))
  /\ (forall l, In l df -> In (provider_of l) (map fst (create_radar_chart df)))
  /\ forall provider values,
       In (provider, values) (create_radar_chart df) ->
       exists efficiency renewable pue workload score,
         values = [efficiency; renewable; pue; workload; score]
         /\ 0 <= efficiency
         /\ on_axis renewable /\ on_axis pue /\ on_axis workload
         /\ on_axis score.
Proof.
  assert (Hnames : map fst (create_radar_chart df) = unique (map provider_of df)).
  { unfold create_radar_chart. cbv zeta. rewrite map_map. cbn [fst]. apply map_id. }
  split; [exact Hnames|]. split; [rewrite Hnames; apply unique_NoDup|].
  split.
  { intros l Hl. rewrite Hnames. apply unique_In, in_map_iff. now exists l. }
  intros provider values Hin.
  unfold create_radar_chart in Hin. cbv zeta in Hin.
  apply in_map_iff in Hin. destruct Hin as [p [Heq Hp]].
  apply unique_In, in_map_iff in Hp. destruct Hp as [l0 [Hl0 Hin0]].
  set (provider_data := filter (fun l => String.eqb (provider_of l) p) df) in Heq.
  assert (Hsub : forall l, In l provider_data -> In l df)
    by (intros l Hl; apply filter_In in Hl; tauto).
  assert (Hne : provider_data <> []).
  { assert (Hin : In l0 provider_data)
      by (apply filter_In; split; [assumption|now apply String.eqb_eq]).
    destruct provider_data; [contradiction|discriminate]. }
  assert (Hcol : forall (c : LoadedRow -> Q) (a b : Q),
             (forall l, In l df -> a <= c l <= b) ->
             a <= mean (map c provider_data) <= b).
  { intros c a b Hc. apply mean_between.
    - destruct provider_data; [contradiction|discriminate].
    - apply Forall_forall. intros x Hx. apply in_map_iff in Hx.
      destruct Hx as [l [<- Hl]]. apply Hc, Hsub, Hl. }
  assert (Hmax : 0 < max (map Energy_Efficiency df)).
  { apply Qlt_le_trans with (Energy_Efficiency l0).
    - apply (Hrange l0 Hin0).
    - apply max_upper_bound, in_map. exact Hin0. }
  assert (Heff : 0 <= mean (map Energy_Efficiency provider_data)
                 <= max (map Energy_Efficiency df)).
  { apply Hcol. intros l Hl. split.
    - apply Qlt_le_weak, (Hrange l Hl).
    - apply max_upper_bound, in_map. exact Hl. }
  destruct Heff as [Heff _].
  pose proof (Hcol (fun l => Renewable_Energy_Usage (csv l)) 0 100
                (fun l Hl => proj1 (proj2 (Hrange l Hl)))) as Hren.
  pose proof (Hcol (fun l => PUE (csv l)) 1 2
                (fun l Hl => proj1 (proj2 (proj2 (Hrange l Hl))))) as Hpue.
  pose proof (Hcol (fun l => AI_Workload (csv l)) 0 100
                (fun l Hl => proj1 (proj2 (proj2 (proj2 (Hrange l Hl)))))) as Hai.
  pose proof (Hcol Sustainability_Score 0 1
                (fun l Hl => proj2 (proj2 (proj2 (proj2 (Hrange l Hl)))))) as Hscore.
  assert (Hvalues : values
                    = [ mean (map Energy_Efficiency provider_data)
                        / max (map Energy_Efficiency df);
                        mean (map (fun l => Renewable_Energy_Usage (csv l)) provider_data) / 100;
                        (2 - mean (map (fun l => PUE (csv l)) provider_data)) / 1;
                        mean (map (fun l => AI_Workload (csv l)) provider_data) / 100;
                        mean (map Sustainability_Score provider_data) ])
    by congruence.
  rewrite Hvalues. do 5 eexists. split; [reflexivity|].
  unfold on_axis. repeat split.
  - apply Qle_shift_div_l; [assumption|]. lra.
  - apply Qle_shift_div_l; lra.
  - apply Qle_shift_div_r; lra.
  - apply Qle_shift_div_l; lra.
  - apply Qle_shift_div_r; lra.
  - apply Qle_shift_div_l; lra.
  - apply Qle_shift_div_r; lra.
  - apply Hscore.
  - apply Hscore.
Qed.

Lemma X25_radar_traces_per_provider_witness :
  map fst (create_radar_chart LoadedSamples.loaded_two_sites)
  = unique (map provider_of LoadedSamples.loaded_two_sites).
Proof.
  refine (proj1 (X25_radar_traces_per_provider
                   LoadedSamples.loaded_two_sites _)).
  intros l [<-|[<-|[]]]; vm_compute; intuition discriminate.
Defined.

(** a PUE above 2 puts the third value of a trace below the axis *)
Example radar_value_below_axis :
  let site := {| csv := {| Cloud_Service_Provider := "AWS"; Location := "Dublin";
                           Energy_Consumption := 1; Total_Emissions := 1;
                           Renewable_Energy_Usage := 50; AI_Workload := 0;
                           PUE := 2.5 |};
                 Energy_Efficiency := 1; Sustainability_Score := 0;
                 Latitude := 0; Longitude := 0 |} in
  map (fun t => map Qred (snd t)) (create_radar_chart [site])
  = [[1; 1 # 2; - (1 # 2); 0; 0]].
Proof. vm_compute. reflexivity. Qed.

End RadarChart.


Section LocalFiles.
Import Py PublicData.

(** the names the two local files of [test_collection.py] would be
    saved under *)
Example stems_of_the_local_files :
  stem "data/raw/device_energy_data.csv" = "device_energy_data"
  /\ stem "data/raw/internet_usage_data.csv" = "internet_usage_data"
  /\ stem "archive.tar.gz" = "archive.tar"
  /\ stem "data/.hidden" = ".hidden".
Proof. repeat split; reflexivity. Qed.

End LocalFiles.
